(** * autoreeler: the pipeline orchestration and composition engine

    A shallow embedding of the orchestration code of the repository
    ([main.py]), of the two status pollers ([modules/video_generator.py],
    [modules/instagram_uploader.py]), of the script-response parser
    ([modules/gemini_handler.py]) and of the scraper's entry point
    ([modules/coupang_scraper.py]), with the properties the specification
    states about them; and of the methods around them, the generator of
    the scenes, the uploaders to Instagram and to YouTube
    ([modules/youtube_uploader.py]), the generators of the script and of
    the image prompts and the audio generator
    ([modules/audio_generator.py]), with properties of their own.

    Conventions of the embedding.
    - A Python [str] is a [string]; each character of the [string] stands
      for one character of the [str].  Literals of the source that are not
      ASCII are written as they are and are only ever compared or
      concatenated.
    - A Python [dict] with string keys is a [gmap string value].
    - A Python [float] that holds a duration or a clock reading is a
      rational number ([Q]); every finite float is one, and the source only
      compares, adds and subtracts them.
    - Exceptions are instances of [Exception], carried by an outcome type;
      a [try]/[except] is [try_except].
    - Effects (the log, the clock, calls to collaborators, file handles) are
      threaded through a state monad over [world]; what the services outside
      the program answer is read from an environment record.
    - Module-level names the methods use ([os], [time], [typing]) are taken
      as bound to the standard modules. *)

From Stdlib Require Import String Ascii ZArith QArith Qround Qminmax List Bool Lia Lqa.
From stdpp Require Import base gmap strings list pretty.
From Equations Require Import Equations.

Set Warnings "-register-all".
Local Open Scope string_scope.
Local Open Scope Z_scope.

(** ** Python values *)

Inductive value : Type :=
| VNone
| VBool (b : bool)
| VInt (n : Z)
| VFloat (q : Q)
| VStr (s : string)
| VList (l : list value)
| VDict (d : gmap string value).

Abbreviation dict := (gmap string value).

(** [Optional[str]] as the methods' signatures have it. *)
Definition of_optional_str (o : option string) : value :=
  match o with
  | Some s => VStr s
  | None => VNone
  end.

(** Truth value testing ([if x:], [if not x:]). *)
Class Truthy (A : Type) := truthy : A -> bool.

#[export] Instance truthy_string : Truthy string :=
  fun s => negb (String.eqb s "").

#[export] Instance truthy_dict : Truthy dict :=
  fun d => negb (bool_decide (dom d = ∅)).

#[export] Instance truthy_list {A} : Truthy (list A) :=
  fun l => negb (bool_decide (length l = 0%nat)).

#[export] Instance truthy_option {A} `{Truthy A} : Truthy (option A) :=
  fun o => match o with Some a => truthy a | None => false end.

#[export] Instance truthy_value : Truthy value :=
  fun v =>
    match v with
    | VNone => false
    | VBool b => b
    | VInt n => negb (n =? 0)%Z
    | VFloat q => negb (Qeq_bool q 0)
    | VStr s => truthy s
    | VList l => truthy l
    | VDict d => truthy d
    end.

(** ** Exceptions *)

(** An exception: the name of its class and [str(e)]. *)
Record exn : Type := Exn { exn_class : string; exn_str : string }.

Inductive outcome (A : Type) : Type :=
| Ret (a : A)
| Raise (e : exn).
Arguments Ret {A} a.
Arguments Raise {A} e.

(** [raise Exception(msg)] *)
Definition Exception (msg : string) : exn := Exn "Exception" msg.

(** [raise ValueError(msg)] *)
Definition ValueError (msg : string) : exn := Exn "ValueError" msg.

(** [d[key]] on a missing key: [str(KeyError(key))] is [repr(key)]. *)
Definition KeyError (key : string) : exn := Exn "KeyError" ("'" +:+ key +:+ "'").

(** [v.get(...)] on a value that is no dict. *)
Definition AttributeError (msg : string) : exn := Exn "AttributeError" msg.

(** ** The world: clock, log and observable events *)

Inductive level : Type := INFO | WARNING | ERROR.

(** The methods of the collaborators [main.py] calls. *)
Inductive collaborator : Type :=
| Scraper_extract_product_info
| Gemini_generate_video_script
| AudioGen_generate_speech
| AudioGen_get_audio_duration
| SubtitleGen_generate_subtitles_from_script
| VideoGen_generate_video_from_script
| SubtitleGen_add_subtitles_to_video
| Instagram_upload_video
| YouTube_upload_video.

#[export] Instance collaborator_eq_dec : EqDecision collaborator.
Proof. solve_decision. Defined.

(** A file opened by moviepy: the reader behind a clip object. *)
Inductive handle : Type :=
| VideoReader (path : string)
| AudioReader (path : string).

#[export] Instance handle_eq_dec : EqDecision handle.
Proof. solve_decision. Defined.

(** moviepy's clip objects: the reader they play from, their duration,
    the [subclip] windows applied to them (latest first) and, for a video
    clip, the audio track set on it and the subtitle file burned into it. *)
Record AudioClip : Type := MkAudioClip {
  a_reader : handle;
  a_duration : Q;
  a_cuts : list (Q * Q)
}.

Record VideoClip : Type := MkVideoClip {
  v_reader : handle;
  v_duration : Q;
  v_cuts : list (Q * Q);
  v_audio : option AudioClip;
  v_subtitles : option string
}.

(** The interface of moviepy's [Clip]: [clip.duration] and
    [clip.subclip(t_start, t_end)], which returns a new clip of duration
    [t_end - t_start] and leaves the clip it is called on as it was.  That
    is what moviepy does for [0 <= t_start <= clip.duration] and
    [0 <= t_end], the only calls the source makes on files of durations
    that are not negative. *)
Class Clip (C : Type) := {
  duration : C -> Q;
  subclip : C -> Q -> Q -> C
}.

#[export] Instance Clip_AudioClip : Clip AudioClip := {
  duration := a_duration;
  subclip a t_start t_end :=
    MkAudioClip (a_reader a) (t_end - t_start) ((t_start, t_end) :: a_cuts a)
}.

#[export] Instance Clip_VideoClip : Clip VideoClip := {
  duration := v_duration;
  subclip v t_start t_end :=
    MkVideoClip (v_reader v) (t_end - t_start) ((t_start, t_end) :: v_cuts v)
      (v_audio v) (v_subtitles v)
}.

(** [video.set_audio(audio)]: a copy of the clip with its audio track
    replaced. *)
Definition set_audio (video : VideoClip) (audio : AudioClip) : VideoClip :=
  MkVideoClip (v_reader video) (v_duration video) (v_cuts video)
    (Some audio) (v_subtitles video).

Inductive event : Type :=
| Log (lvl : level) (msg : string)
| Call (c : collaborator)
| Open (h : handle)
| Close (h : handle)
| WriteVideoFile (path : string) (video : VideoClip)
| HttpGet (url : string)
| Sleep (seconds : Q).

(** The clock is in seconds, as [time.time()]; the trace has the latest
    event first. *)
Record world : Type := World { clock : Q; trace : list event }.

(** What the outside answers to a call: how long it took, in
    milliseconds, and what came back. *)
Record reply (A : Type) : Type := Reply { took : N; result : outcome A }.
Arguments Reply {A} took result.
Arguments took {A} r.
Arguments result {A} r.

Definition seconds_of_ms (ms : N) : Q := Z.of_N ms # 1000.

(** ** The monad of the methods *)

Definition M (A : Type) : Type := world -> outcome A * world.

Definition ret {A} (a : A) : M A := fun w => (Ret a, w).

Definition bind {A B} (c : M A) (k : A -> M B) : M B :=
  fun w =>
    match c w with
    | (Ret a, w') => k a w'
    | (Raise e, w') => (Raise e, w')
    end.

Definition raise {A} (e : exn) : M A := fun w => (Raise e, w).

(** [try: c  except Exception as e: h e]; what [c] did before it raised
    stays done. *)
Definition try_except {A} (c : M A) (h : exn -> M A) : M A :=
  fun w =>
    match c w with
    | (Ret a, w') => (Ret a, w')
    | (Raise e, w') => h e w'
    end.

(** [try: c  except cls: h]; an exception of another class goes on. *)
Definition try_except_class {A} (cls : string) (c : M A) (h : exn -> M A) : M A :=
  fun w =>
    match c w with
    | (Ret a, w') => (Ret a, w')
    | (Raise e, w') =>
        if String.eqb (exn_class e) cls then h e w' else (Raise e, w')
    end.

Declare Scope py_scope.
Delimit Scope py_scope with py.
Notation "x <- c ;; k" := (bind c (fun x => k))
  (at level 100, c at next level, right associativity) : py_scope.
Notation "c ;; k" := (bind c (fun _ => k))
  (at level 100, right associativity) : py_scope.
Local Open Scope py_scope.

Definition lift {A} (o : outcome A) : M A := fun w => (o, w).

Definition emit (e : event) : M unit :=
  fun w => (Ret tt, World (clock w) (e :: trace w)).

Definition elapse (seconds : Q) : M unit :=
  fun w => (Ret tt, World (clock w + seconds) (trace w)).

(** [self.logger.info], [.warning], [.error] *)
Definition logger_info (msg : string) : M unit := emit (Log INFO msg).
Definition logger_warning (msg : string) : M unit := emit (Log WARNING msg).
Definition logger_error (msg : string) : M unit := emit (Log ERROR msg).

(** [time.time()] and [time.sleep(s)] *)
Definition time_time : M Q := fun w => (Ret (clock w), w).
Definition time_sleep (seconds : Q) : M unit :=
  emit (Sleep seconds) ;; elapse seconds.

(** Something done outside the program takes its time and returns or
    raises; a call to a collaborator's method is recorded as well. *)
Definition perform {A} (r : reply A) : M A :=
  elapse (seconds_of_ms (took r)) ;; lift (result r).

Definition call {A} (c : collaborator) (r : reply A) : M A :=
  emit (Call c) ;; perform r.

(** [d[key]] *)
Definition getitem (d : dict) (key : string) : M value :=
  match d !! key with
  | Some v => ret v
  | None => raise (KeyError key)
  end.

(** [d.get(key, default)] *)
Definition dict_get (d : dict) (key : string) (default : value) : value :=
  match d !! key with
  | Some v => v
  | None => default
  end.

(** [int(t)] for a clock reading [t], and its decimal digits in an
    f-string. *)
Definition int_of_float (t : Q) : Z := Qfloor t.
Definition str_of_int (n : Z) : string := pretty n.

(** The observations theorems make on a trace. *)

Definition is_log (lvl : level) (msg : string) (e : event) : bool :=
  match e with
  | Log l m =>
      match l, lvl with
      | INFO, INFO | WARNING, WARNING | ERROR, ERROR => String.eqb m msg
      | _, _ => false
      end
  | _ => false
  end.

Definition is_http_get (e : event) : bool :=
  match e with HttpGet _ => true | _ => false end.

Definition is_close (h : handle) (e : event) : bool :=
  match e with Close h' => bool_decide (h' = h) | _ => false end.

Definition is_open (h : handle) (e : event) : bool :=
  match e with Open h' => bool_decide (h' = h) | _ => false end.


Definition count (p : event -> bool) (t : list event) : nat :=
  length (List.filter p t).


(** ** Comparisons of durations *)

(** [a != b] and [a > b] on floats that hold durations. *)
Definition Qneb (a b : Q) : bool := negb (Qeq_bool a b).
Definition Qgtb (a b : Q) : bool := negb (Qle_bool a b).

(** * main.py: [CoupangVideoAutomation] *)

Module Main.

(** What the objects the automation holds answer: the collaborators'
    methods (the scraper, the script, speech, subtitle and video
    generators, the two uploaders), moviepy's file operations and the file
    system.  The module of [SubtitleGenerator] is not among the sources:
    its two methods are taken as they are called. *)
Record Env : Type := {
  extract_product_info : string -> reply (option dict);
  generate_video_script : dict -> reply (option dict);
  generate_speech : value -> string -> reply (option string);
  get_audio_duration : string -> reply Q;
  generate_subtitles_from_script : value -> Q -> reply (option string);
  generate_video_from_script : dict -> value -> reply (option string);
  add_subtitles_to_video : VideoClip -> string -> reply VideoClip;
  instagram_upload_video : string -> value -> value -> reply (option string);
  youtube_upload_video : string -> value -> value -> value -> reply (option string);
  VideoFileClip_duration : string -> reply Q;
  AudioFileClip_duration : string -> reply Q;
  write_videofile : VideoClip -> string -> reply unit;
  os_path_exists : string -> bool
}.

(** Lines 146-151 of [_compose_final_video]: the audio is cut to the
    video's length when it is longer, the video to the audio's when the
    audio is shorter, and neither is touched when the lengths are equal. *)
Definition reconcile_durations (video : VideoClip) (audio : AudioClip)
  : VideoClip * AudioClip :=
  if Qneb (duration audio) (duration video) then
    if Qgtb (duration audio) (duration video) then
      (video, subclip audio 0 (duration video))
    else
      (subclip video 0 (duration audio), audio)
  else (video, audio).

(** [if x:] on an optional path: the path when it is there and not
    empty. *)
Definition if_path (path : option string) : option string :=
  match path with
  | Some p => if truthy p then Some p else None
  | None => None
  end.

(** [if not x: raise Exception(msg)], after which [x] is used. *)
Definition require {A} `{Truthy A} (x : option A) (msg : string) : M A :=
  match x with
  | Some a => if truthy a then ret a else raise (Exception msg)
  | None => raise (Exception msg)
  end.

Section WithEnv.

Variable env : Env.

(** [VideoFileClip(path)] and [AudioFileClip(path)]: the file is opened
    and its duration read, or the constructor raises. *)
Definition VideoFileClip (path : string) : M VideoClip :=
  d <- perform (VideoFileClip_duration env path) ;;
  emit (Open (VideoReader path)) ;;
  ret (MkVideoClip (VideoReader path) d [] None None).

Definition AudioFileClip (path : string) : M AudioClip :=
  d <- perform (AudioFileClip_duration env path) ;;
  emit (Open (AudioReader path)) ;;
  ret (MkAudioClip (AudioReader path) d []).

(** [video.close()], [audio.close()] *)
Definition close_video (video : VideoClip) : M unit :=
  emit (Close (v_reader video)).

Definition close_audio (audio : AudioClip) : M unit :=
  emit (Close (a_reader audio)).

Definition _compose_final_video (video_path : string)
    (audio_path subtitle_path : option string) : M (option string) :=
  try_except
    (video <- VideoFileClip video_path ;;
     va <- match if_path audio_path with
           | Some audio_path =>
               audio <- AudioFileClip audio_path ;;
               let va := reconcile_durations video audio in
               ret (set_audio (fst va) (snd va), Some (snd va))
           | None => ret (video, None)
           end ;;
     let video := fst va in
     let audio := snd va in
     video <- match if_path subtitle_path with
              | Some subtitle_path =>
                  if os_path_exists env subtitle_path then
                    call SubtitleGen_add_subtitles_to_video
                      (add_subtitles_to_video env video subtitle_path)
                  else ret video
              | None => ret video
              end ;;
     now <- time_time ;;
     let output_path :=
       "output/videos/final_" +:+ str_of_int (int_of_float now) +:+ ".mp4" in
     perform (write_videofile env video output_path) ;;
     emit (WriteVideoFile output_path video) ;;
     close_video video ;;
     match audio with
     | Some audio => close_audio audio
     | None => ret tt
     end ;;
     ret (Some output_path))
    (fun e =>
       logger_error ("영상 합성 실패: " +:+ exn_str e) ;;
       ret None).

(** An upload's entry in the results: [{'success': id is not None,
    key: id}]. *)
Definition upload_entry (id_key : string) (id : option string) : value :=
  VDict (<["success" := VBool (bool_decide (id <> None))]>
         (<[id_key := of_optional_str id]> ∅)).

(** The handler of [_upload_to_social_media]. *)
Definition upload_error (results : dict) (e : exn) : M dict :=
  logger_error ("소셜미디어 업로드 중 오류: " +:+ exn_str e) ;;
  ret (<["error" := VStr (exn_str e)]> results).

(** The method has one [try] block around both uploads and assigns to
    [results] inside it.  The block is split here at its first assignment,
    under the same handler, so that the handler finds [results] as the
    block left it. *)
Definition _upload_to_social_media (video_path : string) (script_data : dict)
  : M dict :=
  let results : dict := ∅ in
  try_except
    (logger_info "Instagram 업로드 중..." ;;
     description <- getitem script_data "description" ;;
     instagram_id <- call Instagram_upload_video
       (instagram_upload_video env video_path description
          (dict_get script_data "hashtags" (VList []))) ;;
     let results := <["instagram" := upload_entry "media_id" instagram_id]> results in
     try_except
       (logger_info "YouTube 업로드 중..." ;;
        title <- getitem script_data "title" ;;
        description <- getitem script_data "description" ;;
        youtube_id <- call YouTube_upload_video
          (youtube_upload_video env video_path title description
             (dict_get script_data "hashtags" (VList []))) ;;
        let results := <["youtube" := upload_entry "video_id" youtube_id]> results in
        ret results)
       (upload_error results))
    (upload_error results).

(** The body of the [try] of [process_coupang_link]. *)
Definition process_coupang_link_body (coupang_url : string) : M dict :=
  logger_info ("쿠팡 링크 처리 시작: " +:+ coupang_url) ;;
  logger_info "1. 상품 정보 추출 중..." ;;
  product_info <- call Scraper_extract_product_info
    (extract_product_info env coupang_url) ;;
  product_info <- require product_info "상품 정보 추출 실패" ;;
  logger_info "2. 영상 스크립트 생성 중..." ;;
  script_data <- call Gemini_generate_video_script
    (generate_video_script env product_info) ;;
  script_data <- require script_data "스크립트 생성 실패" ;;
  logger_info "3. AI 음성 생성 중..." ;;
  script <- getitem script_data "script" ;;
  audio_path <- call AudioGen_generate_speech
    (generate_speech env script "alloy") ;;
  audio_path <- require audio_path "음성 생성 실패" ;;
  logger_info "4. 자막 생성 중..." ;;
  script <- getitem script_data "script" ;;
  audio_duration <- call AudioGen_get_audio_duration
    (get_audio_duration env audio_path) ;;
  subtitle_path <- call SubtitleGen_generate_subtitles_from_script
    (generate_subtitles_from_script env script audio_duration) ;;
  logger_info "5. AI 영상 생성 중..." ;;
  video_path <- call VideoGen_generate_video_from_script
    (generate_video_from_script env script_data
       (dict_get product_info "images" (VList []))) ;;
  video_path <- require video_path "영상 생성 실패" ;;
  logger_info "6. 영상 합성 중..." ;;
  final_video_path <- _compose_final_video video_path (Some audio_path)
    subtitle_path ;;
  final_video_path <- require final_video_path "영상 합성 실패" ;;
  logger_info "7. 소셜미디어 업로드 중..." ;;
  upload_results <- _upload_to_social_media final_video_path script_data ;;
  now <- time_time ;;
  let result : dict :=
    <["success" := VBool true]>
    (<["product_info" := VDict product_info]>
    (<["script_data" := VDict script_data]>
    (<["video_path" := VStr final_video_path]>
    (<["upload_results" := VDict upload_results]>
    (<["processing_time" := VFloat now]> ∅))))) in
  logger_info "모든 처리 완료!" ;;
  ret result.

(** The failure shape of the result. *)
Definition failure_result (e : exn) : M dict :=
  logger_error ("처리 중 오류 발생: " +:+ exn_str e) ;;
  now <- time_time ;;
  ret (<["success" := VBool false]>
       (<["error" := VStr (exn_str e)]>
       (<["processing_time" := VFloat now]> ∅))).

Definition process_coupang_link (coupang_url : string) : M dict :=
  try_except (process_coupang_link_body coupang_url) failure_result.

End WithEnv.

End Main.

(** * Strings: [find], [rfind] and slices *)

(** [s.find(c)] for a one-character [c]: the index of its first
    occurrence, or -1. *)
Fixpoint find_from (c : ascii) (s : string) (i : Z) : Z :=
  match s with
  | EmptyString => -1
  | String c' s' => if Ascii.eqb c' c then i else find_from c s' (i + 1)
  end.

Definition find (s : string) (c : ascii) : Z := find_from c s 0.

(** [s.rfind(c)]: the index of the last occurrence, or -1. *)
Fixpoint rfind_from (c : ascii) (s : string) (i last : Z) : Z :=
  match s with
  | EmptyString => last
  | String c' s' =>
      rfind_from c s' (i + 1) (if Ascii.eqb c' c then i else last)
  end.

Definition rfind (s : string) (c : ascii) : Z := rfind_from c s 0 (-1).

(** [s[start:stop]] for indexes that are not negative: the characters
    from [start] up to, and without, [stop]; none when [stop <= start]. *)
Definition slice (s : string) (start stop : Z) : string :=
  substring (Z.to_nat start) (Z.to_nat (stop - start)) s.

(** [s[:n]] *)
Definition first_chars (s : string) (n : nat) : string := substring 0 n s.

(** [json.JSONDecodeError] *)
Definition JSONDecodeError (msg : string) : exn := Exn "JSONDecodeError" msg.

(** [os.path.basename(path)]: what follows the last slash. *)
Definition basename (path : string) : string :=
  let i := Z.to_nat (rfind path "/" + 1) in
  substring i (String.length path - i) path.

(** * requests: the status queries of the pollers *)

(** An HTTP response: its status code and what [response.json()] gives. *)
Record Response : Type := MkResponse { status_code : Z; json : outcome value }.

(** The network as a poll sees it: what the [n]-th GET on [url] answers
    (the headers and parameters the source sends are fixed per URL), and
    how an f-string prints a value. *)
Record Net : Type := {
  requests_get : string -> nat -> reply Response;
  format_value : value -> string
}.

Definition HTTPError (msg : string) : exn := Exn "HTTPError" msg.

(** [requests.get(url, ...)] *)
Definition get (net : Net) (url : string) (n : nat) : M Response :=
  emit (HttpGet url) ;; perform (requests_get net url n).

(** [response.raise_for_status()] *)
Definition raise_for_status (response : Response) : M unit :=
  if (400 <=? status_code response) && (status_code response <? 600)
  then raise (HTTPError (str_of_int (status_code response)))
  else ret tt.

(** [result.get(key)] on what [response.json()] gave. *)
Definition py_get (v : value) (key : string) : M value :=
  match v with
  | VDict d => ret (dict_get d key VNone)
  | _ => raise (AttributeError "object has no attribute 'get'")
  end.

(** [v == 'literal'] *)
Definition eq_str (v : value) (s : string) : bool :=
  match v with
  | VStr s' => String.eqb s' s
  | _ => false
  end.

(** How an f-string prints a value: a string as it is, an integer in
    decimal, [None], [True] and [False] by their names; how it prints a
    float or a container is left to [other]. *)
Definition format_with (other : value -> string) (v : value) : string :=
  match v with
  | VStr s => s
  | VInt n => str_of_int n
  | VNone => "None"
  | VBool true => "True"
  | VBool false => "False"
  | _ => other v
  end.

Definition TypeError (msg : string) : exn := Exn "TypeError" msg.

(** [len(v)] *)
Definition py_len (v : value) : M Z :=
  match v with
  | VStr s => ret (Z.of_nat (String.length s))
  | VList l => ret (Z.of_nat (length l))
  | VDict d => ret (Z.of_nat (size d))
  | _ => raise (TypeError "object has no len()")
  end.

(** [v.get(key, default)] and [v[key]] on a value that should be a
    dictionary, and [for x in v]. *)
Definition py_get_or (v : value) (key : string) (default : value) : M value :=
  match v with
  | VDict d => ret (dict_get d key default)
  | _ => raise (AttributeError "object has no attribute 'get'")
  end.

Definition py_getitem (v : value) (key : string) : M value :=
  match v with
  | VDict d => getitem d key
  | _ => raise (TypeError "indices must be integers")
  end.

(** A dictionary gives its keys, here in the order of the keys and not
    in the order they were put in. *)
Definition py_iter (v : value) : M (list value) :=
  match v with
  | VList l => ret l
  | VStr s => ret (map (fun c => VStr (String c "")) (list_ascii_of_string s))
  | VDict d => ret (VStr <$> elements (dom d))
  | _ => raise (TypeError "object is not iterable")
  end.

Definition inspect {A} (a : A) : {b : A | a = b} := exist _ a eq_refl.

(** The loops of both pollers run while [time.time() - start_time <
    max_wait]; a turn that does not return sleeps ten seconds, which is
    what makes them end: the time left, in whole seconds, goes down. *)
Definition time_left (max_wait : Z) (start_time : Q) (w : world) : nat :=
  Z.to_nat (Qceiling (inject_Z max_wait - (clock w - start_time))).

Lemma seconds_of_ms_nonneg ms : (0 <= seconds_of_ms ms)%Q.
Proof. unfold seconds_of_ms, Qle. simpl. lia. Qed.

Lemma time_left_decreases max_wait start_time w w' :
  (clock w - start_time < inject_Z max_wait)%Q ->
  (clock w + 10 <= clock w')%Q ->
  (time_left max_wait start_time w' < time_left max_wait start_time w)%nat.
Proof.
  intros Hlt Hadv. unfold time_left.
  generalize (inject_Z max_wait) (clock w) (clock w') Hlt Hadv.
  clear. intros M c c' Hlt Hadv. rename start_time into s.
  pose proof (Qle_ceiling (M - (c - s))) as Hx.
  pose proof (Qceiling_lt (M - (c' - s))) as Hy.
  set (a := Qceiling (M - (c - s))) in *.
  set (b := Qceiling (M - (c' - s))) in *.
  clearbody a b.
  unfold Z.sub in Hy. rewrite inject_Z_plus, inject_Z_opp in Hy.
  change (inject_Z 1) with 1%Q in Hy.
  assert (H0 : (0 < a)%Z).
  { rewrite Zlt_Qlt. change (inject_Z 0) with 0%Q. lra. }
  assert (H1 : (b < a)%Z).
  { rewrite Zlt_Qlt. lra. }
  lia.
Qed.

(** * modules/video_generator.py: [_wait_for_video_completion] *)

Module VideoGenerator.

Definition max_wait_default : Z := 300.

Definition task_url (task_id : string) : string :=
  "https://api.runwayml.com/v1/tasks/" +:+ task_id.

Section WithNet.

Variable net : Net.

(** One turn of the loop: [Some v] when the method returns [v], [None]
    when the loop goes on. *)
Definition poll_task (task_id : string) (n : nat) : M (option value) :=
  try_except
    (response <- get net (task_url task_id) n ;;
     returned <-
       (if status_code response =? 200 then
          result <- lift (json response) ;;
          status <- py_get result "status" ;;
          if eq_str status "completed" then
            video_url <- py_get result "video_url" ;;
            ret (Some video_url)
          else if eq_str status "failed" then
            error <- py_get result "error" ;;
            logger_error ("영상 생성 실패: " +:+ format_value net error) ;;
            ret (Some VNone)
          else ret None
        else ret None) ;;
     match returned with
     | Some v => ret (Some v)
     | None => time_sleep 10 ;; ret None
     end)
    (fun e =>
       logger_error ("상태 확인 중 오류: " +:+ exn_str e) ;;
       time_sleep 10 ;;
       ret None).

Lemma poll_task_advances task_id n w w' :
  poll_task task_id n w = (Ret None, w') -> (clock w + 10 <= clock w')%Q.
Proof.
  unfold poll_task, get.
  generalize (requests_get net (task_url task_id) n).
  intros [t o].
  cbv [try_except bind perform emit elapse lift time_sleep
       logger_error py_get ret raise took result].
  generalize (seconds_of_ms_nonneg t). generalize (seconds_of_ms t). intros q Hq.
  cbn [clock trace].
  destruct o as [response|e].
  2: { intros Heq; inversion Heq; subst; cbn [clock]; lra. }
  destruct (status_code response =? 200).
  2: { intros Heq; inversion Heq; subst; cbn [clock]; lra. }
  destruct (json response) as [[]|e];
    repeat match goal with
           | |- context [if ?x then _ else _] => destruct x
           end;
    intros Heq; inversion Heq; subst; cbn [clock]; lra.
Qed.

(** [while time.time() - start_time < max_wait: ...], and what follows
    the loop. *)
Equations? video_wait_loop (task_id : string) (max_wait : Z) (start_time : Q)
    (n : nat) (w : world) : outcome value * world
  by wf (time_left max_wait start_time w) lt :=
video_wait_loop task_id max_wait start_time n w
  with Qlt_le_dec (clock w - start_time) (inject_Z max_wait) := {
  | left _ with inspect (poll_task task_id n w) := {
    | exist _ (Ret (Some v), w') _ := (Ret v, w');
    | exist _ (Ret None, w') _ :=
        video_wait_loop task_id max_wait start_time (S n) w';
    | exist _ (Raise e, w') _ := (Raise e, w') };
  | right _ := (logger_warning "영상 생성 시간 초과" ;; ret VNone) w }.
Proof.
  apply time_left_decreases; [assumption|].
  eapply poll_task_advances; eassumption.
Qed.

Definition _wait_for_video_completion (task_id : string) (max_wait : Z)
  : M value :=
  start_time <- time_time ;;
  video_wait_loop task_id max_wait start_time 0.

End WithNet.

(** ** The scenes and the video of a script *)

(** moviepy and the file system as the generator uses them: the text
    clip of the default scene, made and then written; a video file
    opened; clips concatenated, and the result written; and the body of a
    response saved to a file. *)
Record Studio : Type := {
  TextClip : value -> reply unit;
  write_text_clip : value -> string -> reply unit;
  VideoFileClip_duration : string -> reply Q;
  concatenate_videoclips : list VideoClip -> reply unit;
  write_concatenated : list VideoClip -> string -> reply unit;
  save_body : string -> Response -> reply unit
}.

Section WithStudio.

(** The network, the POST of a JSON body to the Runway API, the studio
    and the two keys of the generator. *)
Variable net : Net.
Variable requests_post : string -> dict -> reply Response.
Variable studio : Studio.
Variable runway_api_key : option string.
Variable veo_api_key : option string.

(** A value as an f-string prints it. *)
Definition formatted : value -> string := format_with (format_value net).

Definition _create_scene_prompt (scene : value) (script_data : dict)
  : M string :=
  base_prompt <- py_get_or scene "description" (VStr "") ;;
  let product_context :=
    "product showcase, commercial video, "
    +:+ formatted (dict_get script_data "title" (VStr "")) in
  ret (formatted base_prompt +:+ ", " +:+ product_context
       +:+ ", high quality, professional lighting, 4K resolution").

(** The text clip holds no file: closing it shows nothing. *)
Definition _create_default_video (duration : value) : M (option string) :=
  try_except
    (perform (TextClip studio duration) ;;
     now <- time_time ;;
     let output_path :=
       "output/videos/default_scene_" +:+ str_of_int (int_of_float now)
       +:+ ".mp4" in
     perform (write_text_clip studio duration output_path) ;;
     ret (Some output_path))
    (fun e =>
       logger_error ("기본 영상 생성 실패: " +:+ exn_str e) ;;
       ret None).

Definition _generate_with_veo (prompt : string) (duration : value)
  : M (option string) :=
  try_except
    (_create_default_video duration)
    (fun e =>
       logger_error ("Veo API 호출 실패: " +:+ exn_str e) ;;
       _create_default_video duration).

Definition _generate_video_from_text (prompt : string) (duration : value)
  : M (option string) :=
  try_except
    (if truthy veo_api_key then _generate_with_veo prompt duration
     else _create_default_video duration)
    (fun e =>
       logger_error ("텍스트 기반 영상 생성 실패: " +:+ exn_str e) ;;
       _create_default_video duration).

(** The download is the first request to the address of the video. *)
Definition _download_video (video_url : value) : M (option string) :=
  try_except
    (response <- get net (formatted video_url) 0 ;;
     raise_for_status response ;;
     now <- time_time ;;
     let output_path :=
       "output/videos/downloaded_" +:+ str_of_int (int_of_float now)
       +:+ ".mp4" in
     perform (save_body studio output_path response) ;;
     ret (Some output_path))
    (fun e =>
       logger_error ("영상 다운로드 실패: " +:+ exn_str e) ;;
       ret None).

Definition generate_url : string := "https://api.runwayml.com/v1/generate/video".

(** [returned] is [Some path] where the method returns from inside the
    [if], and null where it goes on to the default video. *)
Definition _generate_video_from_image (prompt : string) (image_url : value)
    (duration : value) : M (option string) :=
  try_except
    (if negb (truthy runway_api_key) then
       logger_warning "Runway API 키가 없습니다. 기본 영상을 생성합니다." ;;
       _create_default_video duration
     else
       let data : dict :=
         <["prompt" := VStr prompt]>
         (<["image_url" := image_url]>
         (<["duration" := duration]>
         (<["aspect_ratio" := VStr "16:9"]> ∅))) in
       response <- perform (requests_post generate_url data) ;;
       returned <-
         (if status_code response =? 200 then
            result <- lift (json response) ;;
            task_id <- py_get result "task_id" ;;
            video_url <- _wait_for_video_completion net (formatted task_id)
                           max_wait_default ;;
            if truthy video_url then
              path <- _download_video video_url ;;
              ret (Some path)
            else ret None
          else ret None) ;;
       match returned with
       | Some path => ret path
       | None => _create_default_video duration
       end)
    (fun e =>
       logger_error ("이미지 기반 영상 생성 실패: " +:+ exn_str e) ;;
       _create_default_video duration).

Definition VideoFileClip (path : string) : M VideoClip :=
  d <- perform (VideoFileClip_duration studio path) ;;
  emit (Open (VideoReader path)) ;;
  ret (MkVideoClip (VideoReader path) d [] None None).

Definition close (clip : VideoClip) : M unit :=
  emit (Close (v_reader clip)).

(** [for clip in video_clips: clip.close()] *)
Fixpoint close_all (video_clips : list VideoClip) : M unit :=
  match video_clips with
  | [] => ret tt
  | clip :: video_clips => close clip ;; close_all video_clips
  end.

(** The loop over the scenes, from scene number [i] on, with the clips
    made so far. *)
Fixpoint scenes_from (script_data : dict) (product_images : list value)
    (scenes : list value) (i : nat) (video_clips : list VideoClip)
  : M (list VideoClip) :=
  match scenes with
  | [] => ret video_clips
  | scene :: scenes =>
      scene_prompt <- _create_scene_prompt scene script_data ;;
      video_path <-
        match product_images !! i with
        | Some image_url =>
            duration <- py_getitem scene "duration" ;;
            _generate_video_from_image scene_prompt image_url duration
        | None =>
            duration <- py_getitem scene "duration" ;;
            _generate_video_from_text scene_prompt duration
        end ;;
      video_clips <-
        match Main.if_path video_path with
        | Some video_path =>
            clip <- VideoFileClip video_path ;;
            ret (video_clips ++ [clip])%list
        | None => ret video_clips
        end ;;
      scenes_from script_data product_images scenes (S i) video_clips
  end.

(** The concatenation holds no file of its own: closing it shows
    nothing. *)
Definition generate_video_from_script (script_data : dict)
    (product_images : list value) : M (option string) :=
  try_except
    (scenes <- py_iter (dict_get script_data "video_scenes" (VList [])) ;;
     video_clips <- scenes_from script_data product_images scenes 0 [] ;;
     if truthy video_clips then
       perform (concatenate_videoclips studio video_clips) ;;
       now <- time_time ;;
       let output_path :=
         "output/videos/final_video_" +:+ str_of_int (int_of_float now)
         +:+ ".mp4" in
       perform (write_concatenated studio video_clips output_path) ;;
       close_all video_clips ;;
       logger_info ("영상 생성 완료: " +:+ output_path) ;;
       ret (Some output_path)
     else ret None)
    (fun e =>
       logger_error ("영상 생성 실패: " +:+ exn_str e) ;;
       ret None).

End WithStudio.

End VideoGenerator.

(** * modules/instagram_uploader.py: [_wait_for_upload_completion] *)

Module InstagramUploader.

Definition max_wait_default : Z := 300.

Definition base_url : string := "https://graph.facebook.com/v18.0".

Definition container_url (container_id : string) : string :=
  base_url +:+ "/" +:+ container_id.

Section WithNet.

Variable net : Net.

(** One turn of the loop: [Some b] when the method returns [b], [None]
    when the loop goes on. *)
Definition poll_container (container_id : string) (n : nat) : M (option bool) :=
  try_except
    (response <- get net (container_url container_id) n ;;
     raise_for_status response ;;
     result <- lift (json response) ;;
     status <- py_get result "status_code" ;;
     if eq_str status "FINISHED" then
       logger_info "업로드 완료" ;;
       ret (Some true)
     else if eq_str status "ERROR" then
       logger_error "업로드 오류 발생" ;;
       ret (Some false)
     else
       time_sleep 10 ;;
       ret None)
    (fun e =>
       logger_error ("상태 확인 중 오류: " +:+ exn_str e) ;;
       time_sleep 10 ;;
       ret None).

Lemma poll_container_advances container_id n w w' :
  poll_container container_id n w = (Ret None, w') ->
  (clock w + 10 <= clock w')%Q.
Proof.
  unfold poll_container, get.
  generalize (requests_get net (container_url container_id) n).
  intros [t o].
  cbv [try_except bind perform emit elapse lift time_sleep raise_for_status
       logger_error logger_info py_get ret raise took result].
  generalize (seconds_of_ms_nonneg t). generalize (seconds_of_ms t). intros q Hq.
  cbn [clock trace].
  destruct o as [response|e].
  2: { intros Heq; inversion Heq; subst; cbn [clock]; lra. }
  destruct ((400 <=? status_code response) && (status_code response <? 600)).
  { intros Heq; inversion Heq; subst; cbn [clock]; lra. }
  destruct (json response) as [[]|e];
    repeat match goal with
           | |- context [if ?x then _ else _] => destruct x
           end;
    intros Heq; inversion Heq; subst; cbn [clock]; lra.
Qed.

Equations? upload_wait_loop (container_id : string) (max_wait : Z)
    (start_time : Q) (n : nat) (w : world) : outcome bool * world
  by wf (time_left max_wait start_time w) lt :=
upload_wait_loop container_id max_wait start_time n w
  with Qlt_le_dec (clock w - start_time) (inject_Z max_wait) := {
  | left _ with inspect (poll_container container_id n w) := {
    | exist _ (Ret (Some b), w') _ := (Ret b, w');
    | exist _ (Ret None, w') _ :=
        upload_wait_loop container_id max_wait start_time (S n) w';
    | exist _ (Raise e, w') _ := (Raise e, w') };
  | right _ := (logger_warning "업로드 시간 초과" ;; ret false) w }.
Proof.
  apply time_left_decreases; [assumption|].
  eapply poll_container_advances; eassumption.
Qed.

Definition _wait_for_upload_completion (container_id : string) (max_wait : Z)
  : M bool :=
  start_time <- time_time ;;
  upload_wait_loop container_id max_wait start_time 0.

End WithNet.

(** ** The three steps of an upload *)

(** [caption] with, when there are hashtags, a blank line and the
    hashtags, each after a [#], with a space between them. *)
Definition full_caption (caption : string) (hashtags : option (list string))
  : string :=
  match hashtags with
  | Some (tag :: tags) =>
      caption +:+ String (ascii_of_nat 10) (String (ascii_of_nat 10) "")
      +:+ String.concat " " (map (fun tag => "#" +:+ tag) (tag :: tags))
  | _ => caption
  end.

Section WithGraph.

(** The Graph API: the status queries as before, and what a POST of a
    form to a URL answers; the token and the user of the uploader. *)
Variable net : Net.
Variable requests_post : string -> dict -> reply Response.
Variable access_token : string.
Variable user_id : string.

Definition _upload_to_cdn (video_path : string) : M (option string) :=
  try_except
    (let filename := basename video_path in
     let public_url := "https://your-domain.com/uploads/" +:+ filename in
     ret (Some public_url))
    (fun e =>
       logger_error ("CDN 업로드 실패: " +:+ exn_str e) ;;
       ret None).

Definition _create_media_container (video_path caption : string)
    (hashtags : option (list string)) : M value :=
  try_except
    (video_url <- _upload_to_cdn video_path ;;
     match Main.if_path video_url with
     | None => ret VNone
     | Some video_url =>
         let full_caption := full_caption caption hashtags in
         let url := base_url +:+ "/" +:+ user_id +:+ "/media" in
         let data : dict :=
           <["video_url" := VStr video_url]>
           (<["media_type" := VStr "REELS"]>
           (<["caption" := VStr full_caption]>
           (<["access_token" := VStr access_token]> ∅))) in
         response <- perform (requests_post url data) ;;
         raise_for_status response ;;
         result <- lift (json response) ;;
         container_id <- py_get result "id" ;;
         logger_info ("미디어 컨테이너 생성: "
                      +:+ format_with (format_value net) container_id) ;;
         ret container_id
     end)
    (fun e =>
       logger_error ("미디어 컨테이너 생성 실패: " +:+ exn_str e) ;;
       ret VNone).

Definition _publish_media (container_id : value) : M value :=
  try_except
    (let url := base_url +:+ "/" +:+ user_id +:+ "/media_publish" in
     let data : dict :=
       <["creation_id" := container_id]>
       (<["access_token" := VStr access_token]> ∅) in
     response <- perform (requests_post url data) ;;
     raise_for_status response ;;
     result <- lift (json response) ;;
     media_id <- py_get result "id" ;;
     ret media_id)
    (fun e =>
       logger_error ("미디어 게시 실패: " +:+ exn_str e) ;;
       ret VNone).

Definition upload_video (video_path caption : string)
    (hashtags : option (list string)) : M value :=
  try_except
    (container_id <- _create_media_container video_path caption hashtags ;;
     if negb (truthy container_id) then ret VNone
     else
       finished <- _wait_for_upload_completion net
                     (format_with (format_value net) container_id)
                     max_wait_default ;;
       if negb finished then ret VNone
       else
         media_id <- _publish_media container_id ;;
         if truthy media_id then
           logger_info ("Instagram 업로드 완료: "
                        +:+ format_with (format_value net) media_id) ;;
           ret media_id
         else ret VNone)
    (fun e =>
       logger_error ("Instagram 업로드 실패: " +:+ exn_str e) ;;
       ret VNone).

End WithGraph.

End InstagramUploader.

(** * json: a decoder

    [Json.loads] reads a JSON text as [json.loads] does: objects (a key
    given twice keeps its last value), arrays, strings with the
    one-character escapes, numbers, [true], [false] and [null], with blanks
    between them.  It stands for [json.loads] where a run is computed; the
    theorems about the parser hold for any decoder.  It does not read
    [\u] escapes nor [NaN] and [Infinity], and a [float] is the rational
    the digits denote; the text of its errors is shortened. *)

Module Json.

Definition is_ws (c : ascii) : bool :=
  let n := nat_of_ascii c in
  (n =? 32)%nat || (n =? 9)%nat || (n =? 10)%nat || (n =? 13)%nat.

Fixpoint skip_ws (s : string) : string :=
  match s with
  | String c s' => if is_ws c then skip_ws s' else s
  | EmptyString => s
  end.

Definition quote : ascii := ascii_of_nat 34.
Definition backslash : ascii := ascii_of_nat 92.

(** The characters of a string literal after its opening quote, up to the
    closing one, and what follows it. *)
Fixpoint string_body (s : string) : option (string * string) :=
  match s with
  | EmptyString => None
  | String c s' =>
      if Ascii.eqb c quote then Some (EmptyString, s')
      else if Ascii.eqb c backslash then
        match s' with
        | String e s'' =>
            let unescaped :=
              if Ascii.eqb e quote then Some quote
              else if Ascii.eqb e backslash then Some backslash
              else if Ascii.eqb e "/" then Some "/"%char
              else if Ascii.eqb e "b" then Some (ascii_of_nat 8)
              else if Ascii.eqb e "f" then Some (ascii_of_nat 12)
              else if Ascii.eqb e "n" then Some (ascii_of_nat 10)
              else if Ascii.eqb e "r" then Some (ascii_of_nat 13)
              else if Ascii.eqb e "t" then Some (ascii_of_nat 9)
              else None in
            match unescaped, string_body s'' with
            | Some u, Some (body, rest) => Some (String u body, rest)
            | _, _ => None
            end
        | EmptyString => None
        end
      else if (nat_of_ascii c <? 32)%nat then None
      else
        match string_body s' with
        | Some (body, rest) => Some (String c body, rest)
        | None => None
        end
  end.

Definition digit_value (c : ascii) : option Z :=
  let n := nat_of_ascii c in
  if (48 <=? n)%nat && (n <=? 57)%nat then Some (Z.of_nat n - 48) else None.

(** The digits at the head of [s]: how many, their value, and the rest. *)
Fixpoint digits (s : string) (count : nat) (acc : Z) : nat * Z * string :=
  match s with
  | String c s' =>
      match digit_value c with
      | Some d => digits s' (S count) (10 * acc + d)
      | None => (count, acc, s)
      end
  | EmptyString => (count, acc, s)
  end.

Definition minus_sign (s : string) : bool * string :=
  match s with
  | String "-" s' => (true, s')
  | _ => (false, s)
  end.

(** [0], or a digit from 1 to 9 followed by digits. *)
Definition integer_part (s : string) : option (Z * string) :=
  match s with
  | String "0" rest => Some (0, rest)
  | _ =>
      let '(n, v, rest) := digits s 0 0 in
      if (n =? 0)%nat then None else Some (v, rest)
  end.

(** [.] and digits, when there. *)
Definition fraction_part (s : string) : option (option Q * string) :=
  match s with
  | String "." s' =>
      let '(n, v, rest) := digits s' 0 0 in
      if (n =? 0)%nat then None
      else Some (Some (v # Pos.of_nat (10 ^ n)%nat), rest)
  | _ => Some (None, s)
  end.

(** [e] or [E], a sign and digits, when there. *)
Definition exponent_part (s : string) : option (option Z * string) :=
  match s with
  | String c s' =>
      if Ascii.eqb c "e" || Ascii.eqb c "E" then
        let '(negative, s'') :=
          match s' with
          | String "-" s'' => (true, s'')
          | String "+" s'' => (false, s'')
          | _ => (false, s')
          end in
        let '(n, v, rest) := digits s'' 0 0 in
        if (n =? 0)%nat then None
        else Some (Some (if negative then - v else v), rest)
      else Some (None, s)
  | EmptyString => Some (None, s)
  end.

(** A number: an [int] when it has neither fraction nor exponent, a
    [float] otherwise. *)
Definition number (s : string) : option (value * string) :=
  let '(negative, s) := minus_sign s in
  '(i, s) ← integer_part s;
  '(f, s) ← fraction_part s;
  '(e, s) ← exponent_part s;
  let signed_Z (z : Z) : Z := if negative then - z else z in
  let signed_Q (q : Q) : Q := if negative then (- q)%Q else q in
  let mantissa : Q := (inject_Z i + default 0 f)%Q in
  Some (match f, e with
        | None, None => VInt (signed_Z i)
        | _, None => VFloat (signed_Q mantissa)
        | _, Some e => VFloat (signed_Q (mantissa * Qpower 10 e)%Q)
        end, s).

Definition literal (word : string) (v : value) (s : string)
  : option (value * string) :=
  if String.prefix word s
  then Some (v, substring (String.length word) (String.length s) s)
  else None.

(** The elements of an array after its opening bracket. *)
Fixpoint elements (parse_value : string -> option (value * string))
    (fuel : nat) (s : string) (acc : list value) : option (value * string) :=
  match fuel with
  | O => None
  | S fuel =>
      match parse_value s with
      | Some (v, rest) =>
          match skip_ws rest with
          | String "," rest' =>
              elements parse_value fuel (skip_ws rest') (acc ++ [v])
          | String "]" rest' => Some (VList (acc ++ [v]), rest')
          | _ => None
          end
      | None => None
      end
  end.

(** The members of an object after its opening brace; a key given twice
    keeps its last value. *)
Fixpoint members (parse_value : string -> option (value * string))
    (fuel : nat) (s : string) (acc : dict) : option (value * string) :=
  match fuel with
  | O => None
  | S fuel =>
      match s with
      | String c s1 =>
          if Ascii.eqb c quote then
            match string_body s1 with
            | Some (key, s2) =>
                match skip_ws s2 with
                | String ":" s3 =>
                    match parse_value (skip_ws s3) with
                    | Some (v, rest) =>
                        match skip_ws rest with
                        | String "," rest' =>
                            members parse_value fuel (skip_ws rest')
                              (<[key := v]> acc)
                        | String "}" rest' =>
                            Some (VDict (<[key := v]> acc), rest')
                        | _ => None
                        end
                    | None => None
                    end
                | _ => None
                end
            | None => None
            end
          else None
      | EmptyString => None
      end
  end.

(** A value at the head of [s] (no whitespace before it), and the rest. *)
Fixpoint parse_value (fuel : nat) (s : string) : option (value * string) :=
  match fuel with
  | O => None
  | S fuel =>
      match s with
      | String "{" s' =>
          match skip_ws s' with
          | String "}" rest => Some (VDict ∅, rest)
          | s'' => members (parse_value fuel) (String.length s) s'' ∅
          end
      | String "[" s' =>
          match skip_ws s' with
          | String "]" rest => Some (VList [], rest)
          | s'' => elements (parse_value fuel) (String.length s) s'' []
          end
      | String "n" _ => literal "null" VNone s
      | String "t" _ => literal "true" (VBool true) s
      | String "f" _ => literal "false" (VBool false) s
      | String c s' =>
          if Ascii.eqb c quote then
            match string_body s' with
            | Some (body, rest) => Some (VStr body, rest)
            | None => None
            end
          else number s
      | EmptyString => None
      end
  end.

Definition loads (s : string) : outcome value :=
  match parse_value (S (String.length s)) (skip_ws s) with
  | Some (v, rest) =>
      match skip_ws rest with
      | EmptyString => Ret v
      | _ => Raise (JSONDecodeError "Extra data")
      end
  | None => Raise (JSONDecodeError "Expecting value")
  end.

End Json.

(** * modules/gemini_handler.py: [_parse_script_response] *)

Module GeminiHandler.

Definition _fallback_parse (text : string) : value :=
  VDict
    (<["title" := VStr "쿠팡 상품 소개"]>
    (<["description" := VStr "AI가 생성한 상품 소개 영상입니다."]>
    (<["script" := VStr (first_chars text 500)]>
    (<["hashtags" :=
        VList [VStr "쿠팡"; VStr "상품추천"; VStr "쇼핑"; VStr "AI"]]>
    (<["video_scenes" :=
        VList [VDict (<["scene" := VInt 1]>
                     (<["description" := VStr "상품 소개"]>
                     (<["duration" := VInt 30]> ∅)))]]> ∅))))).

Section WithJson.

(** [json.loads]: the decoded value, or the exception it raises
    ([JSONDecodeError] on a text that is not JSON). *)
Variable json_loads : string -> outcome value.

Definition _parse_script_response (response_text : string) : M value :=
  try_except_class "JSONDecodeError"
    (let start_idx := find response_text "{" in
     let end_idx := rfind response_text "}" + 1 in
     if negb (start_idx =? -1) && negb (end_idx =? -1) then
       let json_text := slice response_text start_idx end_idx in
       lift (json_loads json_text)
     else
       ret (_fallback_parse response_text))
    (fun _ => ret (_fallback_parse response_text)).

End WithJson.

(** ** The script and the image prompts *)

(** The text of a prompt: its lines, and a word between double quotes. *)
Definition newline : string := String (ascii_of_nat 10) "".

Definition lines (l : list string) : string := String.concat newline l.

Definition quoted (text : string) : string :=
  String Json.quote (text +:+ String Json.quote "").

(** The f-string of [_create_script_prompt], with the five fields of the
    product as they are printed. *)
Definition script_prompt (title price rating review_count description : string) : string :=
  lines
    [ "";
      "다음 쿠팡 상품 정보를 바탕으로 30초 분량의 흥미로운 상품 소개 영상 스크립트를 작성해주세요:";
      "";
      "상품명: " +:+ title;
      "가격: " +:+ price +:+ "원";
      "별점: " +:+ rating +:+ "/5.0";
      "리뷰 수: " +:+ review_count +:+ "개";
      "상품 설명: " +:+ description;
      "";
      "다음 JSON 형식으로 응답해주세요:";
      "{";
      "    " +:+ quoted "title" +:+ ": " +:+ quoted "영상 제목 (흥미롭고 클릭을 유도하는)"
        +:+ ",";
      "    " +:+ quoted "description" +:+ ": " +:+ quoted "영상 설명 (SEO 최적화된)"
        +:+ ",";
      "    " +:+ quoted "script" +:+ ": "
        +:+ quoted "30초 분량의 자연스러운 한국어 내레이션 스크립트" +:+ ",";
      "    " +:+ quoted "hashtags" +:+ ": [" +:+ quoted "해시태그1" +:+ ", "
        +:+ quoted "해시태그2" +:+ ", " +:+ quoted "해시태그3" +:+ ", "
        +:+ quoted "해시태그4" +:+ ", " +:+ quoted "해시태그5" +:+ "],";
      "    " +:+ quoted "video_scenes" +:+ ": [";
      "        {";
      "            " +:+ quoted "scene" +:+ ": 1,";
      "            " +:+ quoted "description" +:+ ": " +:+ quoted "첫 번째 장면 설명"
        +:+ ",";
      "            " +:+ quoted "duration" +:+ ": 5";
      "        },";
      "        {";
      "            " +:+ quoted "scene" +:+ ": 2,";
      "            " +:+ quoted "description" +:+ ": " +:+ quoted "두 번째 장면 설명"
        +:+ ",";
      "            " +:+ quoted "duration" +:+ ": 10";
      "        },";
      "        {";
      "            " +:+ quoted "scene" +:+ ": 3,";
      "            " +:+ quoted "description" +:+ ": " +:+ quoted "세 번째 장면 설명"
        +:+ ",";
      "            " +:+ quoted "duration" +:+ ": 15";
      "        }";
      "    ]";
      "}";
      "";
      "스크립트는 다음 요소를 포함해야 합니다:";
      "1. 흥미로운 오프닝 (3초)";
      "2. 상품의 핵심 특징 소개 (15초)";
      "3. 가격과 혜택 강조 (7초)";
      "4. 행동 유도 멘트 (5초)";
      "";
      "자연스럽고 친근한 톤으로 작성하며, 시청자의 관심을 끌 수 있도록 해주세요.";
      "" ].

(** The f-string of [generate_image_prompts]. *)
Definition image_prompts_prompt (script video_scenes : string) : string :=
  lines
    [ "";
      "다음 영상 스크립트와 장면 정보를 바탕으로, 각 장면에 적합한 이미지 생성 프롬프트를 영어로 작성해주세요:";
      "";
      "스크립트: " +:+ script;
      "장면 정보: " +:+ video_scenes;
      "";
      "각 장면마다 다음 형식으로 응답해주세요:";
      "- 상품의 특징을 잘 보여주는 시각적 요소";
      "- 깔끔하고 전문적인 스타일";
      "- 고화질, 상업적 용도에 적합한 이미지";
      "";
      "JSON 배열 형식으로 응답:";
      "[" +:+ quoted "scene 1 prompt" +:+ ", " +:+ quoted "scene 2 prompt"
        +:+ ", " +:+ quoted "scene 3 prompt" +:+ "]";
      "" ].

Section WithModel.

(** [json.loads] and [json.dumps(..., ensure_ascii=False)], the language
    model (what [self.model.generate_content(prompt)] answers, with
    [response.text] read), and how a float or a container is printed. *)
Variable json_loads : string -> outcome value.
Variable json_dumps : value -> outcome string.
Variable generate_content : string -> reply string.
Variable format_other : value -> string.

Definition _create_script_prompt (product_info : dict) : M string :=
  title <- getitem product_info "title" ;;
  price <- getitem product_info "price" ;;
  rating <- getitem product_info "rating" ;;
  review_count <- getitem product_info "review_count" ;;
  description <- getitem product_info "description" ;;
  ret (script_prompt (format_with format_other title)
         (format_with format_other price) (format_with format_other rating)
         (format_with format_other review_count)
         (format_with format_other description)).

(** [None] stands for null. *)
Definition generate_video_script (product_info : dict) : M (option value) :=
  try_except
    (prompt <- _create_script_prompt product_info ;;
     response_text <- perform (generate_content prompt) ;;
     script_data <- _parse_script_response json_loads response_text ;;
     logger_info "영상 스크립트 생성 완료" ;;
     ret (Some script_data))
    (fun e =>
       logger_error ("스크립트 생성 실패: " +:+ exn_str e) ;;
       ret None).

Definition default_prompts : value :=
  VList [VStr "professional product photography, high quality, commercial use"].

Definition _parse_prompts_response (response_text : string) : M value :=
  try_except_class "JSONDecodeError"
    (let start_idx := find response_text "[" in
     let end_idx := rfind response_text "]" + 1 in
     if negb (start_idx =? -1) && negb (end_idx =? -1) then
       let json_text := slice response_text start_idx end_idx in
       lift (json_loads json_text)
     else
       ret default_prompts)
    (fun _ => ret default_prompts).

Definition generate_image_prompts (script_data : dict) : M value :=
  try_except
    (video_scenes <-
       lift (json_dumps (dict_get script_data "video_scenes" (VList []))) ;;
     let prompt :=
       image_prompts_prompt
         (format_with format_other (dict_get script_data "script" (VStr "")))
         video_scenes in
     response_text <- perform (generate_content prompt) ;;
     prompts <- _parse_prompts_response response_text ;;
     n <- py_len prompts ;;
     logger_info ("이미지 프롬프트 " +:+ str_of_int n +:+ "개 생성 완료") ;;
     ret prompts)
    (fun e =>
       logger_error ("이미지 프롬프트 생성 실패: " +:+ exn_str e) ;;
       ret (VList [VStr "product showcase, professional lighting, high quality"])).

End WithModel.

End GeminiHandler.

(** * re: the two patterns of the scraper *)

Module Re.

(** Regular expressions over characters: [Any] is [.] (any character but
    a newline), [Digit] is [\d] on the ASCII digits. *)
Inductive regex : Type :=
| Void
| Eps
| Chr (c : ascii)
| Any
| Digit
| Seq (r1 r2 : regex)
| Alt (r1 r2 : regex)
| Star (r : regex).

Definition Opt (r : regex) : regex := Alt Eps r.
Definition Plus (r : regex) : regex := Seq r (Star r).

Fixpoint Lit (s : string) : regex :=
  match s with
  | EmptyString => Eps
  | String c s' => Seq (Chr c) (Lit s')
  end.

Definition is_digit (c : ascii) : bool :=
  let n := nat_of_ascii c in (48 <=? n)%nat && (n <=? 57)%nat.

Definition is_newline (c : ascii) : bool := (nat_of_ascii c =? 10)%nat.

Fixpoint nullable (r : regex) : bool :=
  match r with
  | Void => false
  | Eps => true
  | Chr _ => false
  | Any => false
  | Digit => false
  | Seq r1 r2 => nullable r1 && nullable r2
  | Alt r1 r2 => nullable r1 || nullable r2
  | Star _ => true
  end.

(** What is left of [r] once the character [c] is read. *)
Fixpoint deriv (c : ascii) (r : regex) : regex :=
  match r with
  | Void => Void
  | Eps => Void
  | Chr c' => if Ascii.eqb c' c then Eps else Void
  | Any => if is_newline c then Void else Eps
  | Digit => if is_digit c then Eps else Void
  | Seq r1 r2 =>
      if nullable r1 then Alt (Seq (deriv c r1) r2) (deriv c r2)
      else Seq (deriv c r1) r2
  | Alt r1 r2 => Alt (deriv c r1) (deriv c r2)
  | Star r' => Seq (deriv c r') (Star r')
  end.

(** [re.match(pattern, s)]: some prefix of [s] matches. *)
Fixpoint re_match (r : regex) (s : string) : bool :=
  nullable r ||
  match s with
  | EmptyString => false
  | String c s' => re_match (deriv c r) s'
  end.

End Re.

(** * modules/coupang_scraper.py: [extract_product_info] *)

Module CoupangScraper.

Import Re.

(** A tag BeautifulSoup found: its text, stripped, and its attributes. *)
Record Element : Type := {
  get_text_strip : string;
  attr : string -> option string
}.

(** A parsed page: what [select_one] and [select] find for a CSS
    selector. *)
Record Soup : Type := {
  select_one : string -> option Element;
  select : string -> list Element
}.

(** What [session.get] answers: the status code and what
    [BeautifulSoup(response.content, 'html.parser')] makes of the body. *)
Record Page : Type := {
  page_status : Z;
  page_soup : outcome Soup
}.

Record Web : Type := {
  session_get : string -> reply Page
}.

(** [r'https?://.*coupang\.com/vp/products/\d+'] and
    [r'https?://.*coupang\.com/np/search'] *)
Definition coupang_patterns : list regex :=
  [ Seq (Lit "http") (Seq (Opt (Chr "s")) (Seq (Lit "://") (Seq (Star Any)
      (Seq (Lit "coupang.com/vp/products/") (Plus Digit)))));
    Seq (Lit "http") (Seq (Opt (Chr "s")) (Seq (Lit "://") (Seq (Star Any)
      (Lit "coupang.com/np/search")))) ].

Definition _is_valid_coupang_url (url : string) : bool :=
  existsb (fun pattern => re_match pattern url) coupang_patterns.

(** The first selector of the list that finds a tag. *)
Fixpoint first_selected (soup : Soup) (selectors : list string)
  : option Element :=
  match selectors with
  | [] => None
  | selector :: rest =>
      match select_one soup selector with
      | Some element => Some element
      | None => first_selected soup rest
      end
  end.

(** [re.sub(r'[^\d,]', '', text)] and [re.sub(r'[^\d]', '', text)] *)
Fixpoint keep (p : ascii -> bool) (text : string) : string :=
  match text with
  | EmptyString => EmptyString
  | String c rest => if p c then String c (keep p rest) else keep p rest
  end.

Definition is_comma (c : ascii) : bool := Ascii.eqb c ",".

(** The selectors [h1[class*="title"]] and the like are written without
    their inner quotes; a selector is only ever handed to the page. *)
Definition _extract_title (soup : Soup) : string :=
  match first_selected soup
          ["h1.prod-buy-header__title"; ".prod-title"; "h1[class*=title]"] with
  | Some element => get_text_strip element
  | None => "상품명 없음"
  end.

Definition _extract_price (soup : Soup) : string :=
  match first_selected soup
          [".total-price strong"; ".price-value"; "[class*=price] strong"] with
  | Some element =>
      keep (fun c => is_digit c || is_comma c) (get_text_strip element)
  | None => "가격 정보 없음"
  end.

Definition _extract_original_price (soup : Soup) : string :=
  match first_selected soup
          [".origin-price"; ".base-price"; "[class*=original-price]"] with
  | Some element =>
      keep (fun c => is_digit c || is_comma c) (get_text_strip element)
  | None => ""
  end.

Definition _extract_rating (soup : Soup) : string :=
  match first_selected soup
          [".rating-star-num"; ".prod-rating-score"; "[class*=rating] span"] with
  | Some element => get_text_strip element
  | None => "0"
  end.

Definition _extract_review_count (soup : Soup) : string :=
  match first_selected soup
          [".rating-total-count"; ".prod-rating-count"; "[class*=review-count]"] with
  | Some element => keep is_digit (get_text_strip element)
  | None => "0"
  end.

Definition _extract_description (soup : Soup) : string :=
  match first_selected soup
          [".prod-description"; ".product-detail"; "[class*=description]"] with
  | Some element => first_chars (get_text_strip element) 500
  | None => "상품 설명 없음"
  end.

(** [img.get('src') or img.get('data-src')] *)
Definition image_source (img : Element) : option string :=
  match attr img "src" with
  | Some src => if truthy src then Some src else attr img "data-src"
  | None => attr img "data-src"
  end.

(** [src.startswith('http')] *)
Definition startswith_http (src : string) : bool :=
  String.prefix "http" src.

(** The images, without repeats; [list(set(images))] leaves their order
    open, here it is the order they were found in. *)
Definition _extract_images (soup : Soup) : list string :=
  remove_dups
    (flat_map
       (fun selector =>
          omap (fun img =>
                  match image_source img with
                  | Some src =>
                      if truthy src && startswith_http src then Some src
                      else None
                  | None => None
                  end)
               (take 5 (select soup selector)))
       [".prod-image__detail img"; ".product-image img"; "[class*=image] img"]).

Section WithWeb.

Variable web : Web.

Definition extract_product_info (coupang_url : string) : M (option dict) :=
  try_except
    (if negb (_is_valid_coupang_url coupang_url) then
       raise (ValueError "유효하지 않은 쿠팡 URL입니다")
     else
       emit (HttpGet coupang_url) ;;
       response <- perform (session_get web coupang_url) ;;
       (if (400 <=? page_status response) && (page_status response <? 600)
        then raise (HTTPError (str_of_int (page_status response)))
        else ret tt) ;;
       soup <- lift (page_soup response) ;;
       let product_info : dict :=
         <["title" := VStr (_extract_title soup)]>
         (<["price" := VStr (_extract_price soup)]>
         (<["original_price" := VStr (_extract_original_price soup)]>
         (<["rating" := VStr (_extract_rating soup)]>
         (<["review_count" := VStr (_extract_review_count soup)]>
         (<["description" := VStr (_extract_description soup)]>
         (<["images" := VList (VStr <$> _extract_images soup)]>
         (<["url" := VStr coupang_url]> ∅))))))) in
       logger_info ("상품 정보 추출 완료: " +:+ _extract_title soup) ;;
       ret (Some product_info))
    (fun e =>
       logger_error ("상품 정보 추출 실패: " +:+ exn_str e) ;;
       ret None).

End WithWeb.

End CoupangScraper.

(** * modules/youtube_uploader.py: [YouTubeUploader] *)

Module YouTubeUploader.

(** A resumable upload as [_execute_upload] sees it: what the successive
    calls of [insert_request.next_chunk()] answer until the response is
    there.  A call before the last returns [(status, None)] or raises; the
    last returns [(status, response)].  The status is null or the progress,
    in percent, as [int(status.progress() * 100)] gives it.  An upload
    answers finitely many times before its response. *)
Record InsertRequest : Type := {
  chunks : list (reply (option Z));
  last_took : N;
  last_status : option Z;
  response : dict
}.

(** The service the uploader holds: [MediaFileUpload(path, ...)], which
    opens the file, and [videos().insert(part, body, media_body)]. *)
Record Service : Type := {
  MediaFileUpload : string -> outcome unit;
  videos_insert : string -> dict -> outcome InsertRequest
}.

Section WithService.

(** [self.youtube_service], null when the initialisation failed, and how
    a container is printed. *)
Variable youtube_service : option Service.
Variable format_other : value -> string.

(** [if status: ... self.logger.info(...)] *)
Definition log_progress (status : option Z) : M unit :=
  match status with
  | Some progress =>
      logger_info ("업로드 진행률: " +:+ str_of_int progress +:+ "%")
  | None => ret tt
  end.

(** The [while response is None] loop, with [retry] as it stands.  The
    module calls [time.sleep] without importing [time]; the name is taken
    as bound to the standard module. *)
Fixpoint next_chunks (answers : list (reply (option Z))) (last_took : N)
    (last_status : option Z) (response : dict) (retry : Z) : M dict :=
  match answers with
  | [] =>
      elapse (seconds_of_ms last_took) ;;
      log_progress last_status ;;
      ret response
  | answer :: answers =>
      retry <- try_except
                 (status <- perform answer ;;
                  log_progress status ;;
                  ret retry)
                 (fun e =>
                    if retry <? 3 then
                      let retry := retry + 1 in
                      logger_warning ("업로드 재시도 " +:+ str_of_int retry
                                      +:+ "/3: " +:+ exn_str e) ;;
                      time_sleep (inject_Z (2 ^ retry)) ;;
                      ret retry
                    else raise e) ;;
      next_chunks answers last_took last_status response retry
  end.

Definition _execute_upload (insert_request : InsertRequest) : M value :=
  try_except
    (response <- next_chunks (chunks insert_request) (last_took insert_request)
                   (last_status insert_request) (response insert_request) 0 ;;
     match response !! "id" with
     | Some id => ret id
     | None =>
         logger_error ("업로드 실패: " +:+ format_other (VDict response)) ;;
         ret VNone
     end)
    (fun e =>
       logger_error ("업로드 실행 실패: " +:+ exn_str e) ;;
       ret VNone).

(** [tags or []] *)
Definition tags_or_empty (tags : option (list string)) : value :=
  match tags with
  | Some (tag :: tags) => VList (VStr <$> tag :: tags)
  | _ => VList []
  end.

Definition upload_video (video_path title description : string)
    (tags : option (list string)) (category_id : string) : M value :=
  try_except
    (match youtube_service with
     | None =>
         logger_error "YouTube 서비스가 초기화되지 않았습니다" ;;
         ret VNone
     | Some service =>
         let body : dict :=
           <["snippet" :=
               VDict (<["title" := VStr title]>
                     (<["description" := VStr description]>
                     (<["tags" := tags_or_empty tags]>
                     (<["categoryId" := VStr category_id]> ∅))))]>
           (<["status" :=
               VDict (<["privacyStatus" := VStr "public"]>
                     (<["selfDeclaredMadeForKids" := VBool false]> ∅))]> ∅) in
         lift (MediaFileUpload service video_path) ;;
         insert_request <- lift (videos_insert service "snippet,status" body) ;;
         video_id <- _execute_upload insert_request ;;
         if truthy video_id then
           logger_info ("YouTube 업로드 완료: "
                        +:+ format_with format_other video_id) ;;
           ret video_id
         else ret VNone
     end)
    (fun e =>
       logger_error ("YouTube 업로드 실패: " +:+ exn_str e) ;;
       ret VNone).

End WithService.

End YouTubeUploader.

(** * modules/audio_generator.py: [AudioGenerator] *)

Module AudioGenerator.

(** moviepy as the generator uses it: the duration read when an audio
    file is opened, [audio.fx.speedx(factor)], and
    [adjusted_audio.write_audiofile(path, ...)]. *)
Record Sound : Type := {
  AudioFileClip_duration : string -> reply Q;
  speedx : AudioClip -> Q -> outcome AudioClip;
  write_audiofile : AudioClip -> string -> reply unit
}.

Definition ZeroDivisionError : exn :=
  Exn "ZeroDivisionError" "float division by zero".

Section WithSound.

Variable sound : Sound.

Definition AudioFileClip (path : string) : M AudioClip :=
  d <- perform (AudioFileClip_duration sound path) ;;
  emit (Open (AudioReader path)) ;;
  ret (MkAudioClip (AudioReader path) d []).

Definition close (audio : AudioClip) : M unit :=
  emit (Close (a_reader audio)).

Definition get_audio_duration (audio_path : string) : M Q :=
  try_except
    (audio <- AudioFileClip audio_path ;;
     let duration := duration audio in
     close audio ;;
     ret duration)
    (fun e =>
       logger_error ("오디오 길이 측정 실패: " +:+ exn_str e) ;;
       ret 0%Q).

(** [current_duration / target_duration]: the quotient of two floats is
    taken as the quotient of the rationals, and raises when the divisor is
    zero. *)
Definition divide (a b : Q) : M Q :=
  if Qeq_bool b 0 then raise ZeroDivisionError else ret (a / b)%Q.

(** The module calls [time.time()] without importing [time]; the name
    is taken as bound to the standard module. *)
Definition adjust_speech_speed (audio_path : string) (target_duration : Q)
  : M (option string) :=
  try_except
    (audio <- AudioFileClip audio_path ;;
     let current_duration := duration audio in
     if Qgtb current_duration 0 then
       speed_factor <- divide current_duration target_duration ;;
       let speed_factor := Qmax (1 # 2) (Qmin 2 speed_factor) in
       adjusted_audio <- lift (speedx sound audio speed_factor) ;;
       now <- time_time ;;
       let output_path :=
         "output/audio/adjusted_" +:+ str_of_int (int_of_float now) +:+ ".mp3" in
       perform (write_audiofile sound adjusted_audio output_path) ;;
       close audio ;;
       close adjusted_audio ;;
       logger_info ("음성 속도 조정 완료: " +:+ output_path) ;;
       ret (Some output_path)
     else ret (Some audio_path))
    (fun e =>
       logger_error ("음성 속도 조정 실패: " +:+ exn_str e) ;;
       ret (Some audio_path)).

End WithSound.

End AudioGenerator.

(** The collaborators' methods a trace shows called, the earliest
    first. *)
Definition calls (t : list event) : list collaborator :=
  omap (fun e => match e with Call c => Some c | _ => None end) (reverse t).

(** [needle in text] *)
Fixpoint contains (text needle : string) : bool :=
  String.prefix needle text ||
  match text with
  | EmptyString => false
  | String _ rest => contains rest needle
  end.

(** * A scenario: one product, end to end

    The product is a widget at 10000; the script has three scenes of 30
    seconds in all, the speech lasts 28 seconds and the video 32.  What
    varies from run to run is given as arguments. *)

Module Scenario.

Definition url : string := "https://www.coupang.com/vp/products/1".

Definition product_info : dict :=
  <["title" := VStr "Widget"]>
  (<["price" := VStr "10000"]>
  (<["images" := VList []]> ∅)).

Definition scene (n duration : Z) : value :=
  VDict (<["scene" := VInt n]>
        (<["description" := VStr "a scene"]>
        (<["duration" := VInt duration]> ∅))).

Definition script_data : dict :=
  <["title" := VStr "Widget"]>
  (<["description" := VStr "A widget."]>
  (<["script" := VStr "Meet the widget."]>
  (<["hashtags" := VList [VStr "widget"]]>
  (<["video_scenes" := VList [scene 1 5; scene 2 10; scene 3 15]]> ∅)))).

Definition speech : string := "output/audio/speech_0.mp3".
Definition video : string := "output/videos/final_video_0.mp4".
Definition subtitles : string := "output/subtitles/subtitles_0.srt".

Definition at_once {A} (o : outcome A) : reply A := Reply 0 o.

Definition env (product : option dict) (script : dict)
    (subtitle_path : option string)
    (instagram youtube : outcome (option string)) (write : outcome unit)
  : Main.Env := {|
  Main.extract_product_info := fun _ => at_once (Ret product);
  Main.generate_video_script := fun _ => at_once (Ret (Some script));
  Main.generate_speech := fun _ _ => at_once (Ret (Some speech));
  Main.get_audio_duration := fun _ => at_once (Ret 28%Q);
  Main.generate_subtitles_from_script := fun _ _ => at_once (Ret subtitle_path);
  Main.generate_video_from_script := fun _ _ => at_once (Ret (Some video));
  Main.add_subtitles_to_video := fun v path =>
    at_once (Ret (MkVideoClip (v_reader v) (v_duration v) (v_cuts v)
                    (v_audio v) (Some path)));
  Main.instagram_upload_video := fun _ _ _ => at_once instagram;
  Main.youtube_upload_video := fun _ _ _ _ => at_once youtube;
  Main.VideoFileClip_duration := fun _ => at_once (Ret 32%Q);
  Main.AudioFileClip_duration := fun _ => at_once (Ret 28%Q);
  Main.write_videofile := fun _ _ => at_once write;
  Main.os_path_exists := fun path => String.eqb path subtitles
|}.

(** Every stage answers and both uploads go through. *)
Definition happy : Main.Env :=
  env (Some product_info) script_data (Some subtitles)
    (Ret (Some "ig-1")) (Ret (Some "yt-1")) (Ret tt).

(** The extraction answers null. *)
Definition no_product : Main.Env :=
  env None script_data (Some subtitles)
    (Ret (Some "ig-1")) (Ret (Some "yt-1")) (Ret tt).

(** The subtitle generator answers null. *)
Definition no_subtitles : Main.Env :=
  env (Some product_info) script_data None
    (Ret (Some "ig-1")) (Ret (Some "yt-1")) (Ret tt).

(** The final file cannot be written. *)
Definition write_fails : Main.Env :=
  env (Some product_info) script_data None
    (Ret (Some "ig-1")) (Ret (Some "yt-1"))
    (Raise (Exn "OSError" "[Errno 28] No space left on device")).

(** The Instagram upload fails (it returns null), the YouTube one goes
    through. *)
Definition instagram_down : Main.Env :=
  env (Some product_info) script_data (Some subtitles)
    (Ret None) (Ret (Some "yt-1")) (Ret tt).

(** Script data as the model may well answer them: without a title, and
    without a description. *)
Definition untitled_script : dict := delete "title" script_data.
Definition undescribed_script : dict := delete "description" script_data.

(** A response of the language model that carries the script data
    without a title: [{"description": "A widget.", "script": ...}], with
    some words before and after it. *)
Definition quoted (text : string) : string :=
  String Json.quote (text +:+ String Json.quote "").

Definition scene_text (n duration : string) : string :=
  "{" +:+ quoted "scene" +:+ ": " +:+ n +:+ ", "
  +:+ quoted "description" +:+ ": " +:+ quoted "a scene" +:+ ", "
  +:+ quoted "duration" +:+ ": " +:+ duration +:+ "}".

Definition untitled_response : string :=
  "Here is the script: {"
  +:+ quoted "description" +:+ ": " +:+ quoted "A widget." +:+ ", "
  +:+ quoted "script" +:+ ": " +:+ quoted "Meet the widget." +:+ ", "
  +:+ quoted "hashtags" +:+ ": [" +:+ quoted "widget" +:+ "], "
  +:+ quoted "video_scenes" +:+ ": ["
  +:+ scene_text "1" "5" +:+ ", " +:+ scene_text "2" "10" +:+ ", "
  +:+ scene_text "3" "15" +:+ "]} Enjoy!".

Definition untitled : Main.Env :=
  env (Some product_info) untitled_script (Some subtitles)
    (Ret (Some "ig-1")) (Ret (Some "yt-1")) (Ret tt).

Definition final_video : string := "output/videos/final_0.mp4".

Definition start : world := World 0 [].

(** The run of a program from [start]: what it returned and the world it
    left. *)
Definition returned {A} (run : outcome A * world) (default : A) : A :=
  match fst run with
  | Ret a => a
  | Raise _ => default
  end.

End Scenario.

(** * The vocabulary of the properties *)

(** The stages of [process_coupang_link] whose answer is checked. *)
Inductive stage : Type := Extract | Script | Speech | Video.

(** The message a failed stage raises with. *)
Definition stage_message (s : stage) : string :=
  match s with
  | Extract => "상품 정보 추출 실패"
  | Script => "스크립트 생성 실패"
  | Speech => "음성 생성 실패"
  | Video => "영상 생성 실패"
  end.

(** The collaborators called up to and with a stage. *)
Definition stage_calls (s : stage) : list collaborator :=
  match s with
  | Extract => [Scraper_extract_product_info]
  | Script => [Scraper_extract_product_info; Gemini_generate_video_script]
  | Speech =>
      [Scraper_extract_product_info; Gemini_generate_video_script;
       AudioGen_generate_speech]
  | Video =>
      [Scraper_extract_product_info; Gemini_generate_video_script;
       AudioGen_generate_speech; AudioGen_get_audio_duration;
       SubtitleGen_generate_subtitles_from_script;
       VideoGen_generate_video_from_script]
  end.

(** A collaborator returns null, or something as false as null. *)
Definition fails {A} `{Truthy A} (r : reply (option A)) : Prop :=
  exists o, result r = Ret o /\ truthy o = false.

Section Stages.

Variable env : Main.Env.

Definition extracted (url : string) (product_info : dict) : Prop :=
  result (Main.extract_product_info env url) = Ret (Some product_info) /\
  truthy product_info = true.

Definition scripted (product_info script_data : dict) (script : value) : Prop :=
  result (Main.generate_video_script env product_info) = Ret (Some script_data) /\
  truthy script_data = true /\
  script_data !! "script" = Some script.

Definition spoken (script : value) (audio_path : string) : Prop :=
  result (Main.generate_speech env script "alloy") = Ret (Some audio_path) /\
  truthy audio_path = true.

Definition subtitled (script : value) (audio_path : string)
    (subtitle_path : option string) : Prop :=
  exists audio_duration,
    result (Main.get_audio_duration env audio_path) = Ret audio_duration /\
    result (Main.generate_subtitles_from_script env script audio_duration)
      = Ret subtitle_path.

Definition images_of (product_info : dict) : value :=
  dict_get product_info "images" (VList []).

(** The stage [s] is reached and its collaborator fails. *)
Definition stage_fails (url : string) (s : stage) : Prop :=
  match s with
  | Extract => fails (Main.extract_product_info env url)
  | Script =>
      exists product_info,
        extracted url product_info /\
        fails (Main.generate_video_script env product_info)
  | Speech =>
      exists product_info script_data script,
        extracted url product_info /\
        scripted product_info script_data script /\
        fails (Main.generate_speech env script "alloy")
  | Video =>
      exists product_info script_data script audio_path subtitle_path,
        extracted url product_info /\
        scripted product_info script_data script /\
        spoken script audio_path /\
        subtitled script audio_path subtitle_path /\
        fails (Main.generate_video_from_script env script_data
                 (images_of product_info))
  end.

End Stages.

(** The two shapes of a result. *)
Definition success (product_info script_data : dict) (video_path : string)
    (upload_results : dict) (t : Q) : dict :=
  <["success" := VBool true]>
  (<["product_info" := VDict product_info]>
  (<["script_data" := VDict script_data]>
  (<["video_path" := VStr video_path]>
  (<["upload_results" := VDict upload_results]>
  (<["processing_time" := VFloat t]> ∅))))).

Definition failure (msg : string) (t : Q) : dict :=
  <["success" := VBool false]>
  (<["error" := VStr msg]>
  (<["processing_time" := VFloat t]> ∅)).

Definition is_success (r : dict) : Prop :=
  exists product_info script_data video_path upload_results t,
    r = success product_info script_data video_path upload_results t.

Definition is_failure (r : dict) : Prop :=
  exists msg t, r = failure msg t.



(** The subtitle step is skipped: no path, an empty one, or no file. *)
Definition subtitle_absent (env : Main.Env) (subtitle_path : option string)
  : Prop :=
  match Main.if_path subtitle_path with
  | Some p => Main.os_path_exists env p = false
  | None => True
  end.

(** The name of the final file, and the clips as loaded. *)
Definition output_path_at (now : Q) : string :=
  "output/videos/final_" +:+ str_of_int (int_of_float now) +:+ ".mp4".

Definition loaded_video (path : string) (d : Q) : VideoClip :=
  MkVideoClip (VideoReader path) d [] None None.

Definition loaded_audio (path : string) (d : Q) : AudioClip :=
  MkAudioClip (AudioReader path) d [].

Definition hashtags_of (script_data : dict) : value :=
  dict_get script_data "hashtags" (VList []).

(** What a poller reads from the [n]-th answer. *)

(** The status code does not make [raise_for_status] raise. *)
Definition ok_status (code : Z) : Prop :=
  (400 <=? code) && (code <? 600) = false.

(** The [n]-th query of a container's status comes back after [t]
    milliseconds with a JSON object whose [status_code] is [status]. *)
Definition container_reports (net : Net) (container_id : string) (n : nat)
    (t : N) (status : string) : Prop :=
  exists code body,
    requests_get net (InstagramUploader.container_url container_id) n
      = Reply t (Ret (MkResponse code (Ret (VDict body)))) /\
    ok_status code /\
    body !! "status_code" = Some (VStr status).

(** The [n]-th query of a task comes back after [t] milliseconds with
    status code 200 and the JSON object [body]. *)
Definition task_reports (net : Net) (task_id : string) (n : nat)
    (t : N) (body : dict) : Prop :=
  requests_get net (VideoGenerator.task_url task_id) n
    = Reply t (Ret (MkResponse 200 (Ret (VDict body)))).

(** The [n]-th query raises [e] after [t] milliseconds. *)
Definition query_raises (net : Net) (url : string) (n : nat) (t : N) (e : exn)
  : Prop :=
  requests_get net url n = Reply t (Raise e).

(** A status that is neither of the two a poller ends on. *)
Definition pending (done failed status : string) : Prop :=
  String.eqb status done = false /\ String.eqb status failed = false.

(** The queries a trace shows, and the sleeps, the earliest first. *)
Definition queries (t : list event) : nat := count is_http_get t.

Definition sleeps (t : list event) : list Q :=
  omap (fun e => match e with Sleep s => Some s | _ => None end) (reverse t).

(** A network for the examples: the answers of a poll are read off a
    list, and the last one is repeated when the list is used up. *)
Module Examples.

Definition status_body (key status : string) : value :=
  VDict (<[key := VStr status]> ∅).

Definition scripted_net (key : string) (statuses : list string) (last : string)
  : Net := {|
  requests_get := fun _ n =>
    Reply 250 (Ret (MkResponse 200
      (Ret (status_body key (nth n statuses last)))));
  format_value := fun _ => ""
|}.

End Examples.

(** * The vocabulary of the further properties *)

(** ** The URLs of the scraper *)


(** Every character of a string passes a test. *)
Fixpoint all_chars (p : ascii -> bool) (s : string) : bool :=
  match s with
  | EmptyString => true
  | String c rest => p c && all_chars p rest
  end.

Definition not_newline (c : ascii) : bool := negb (Re.is_newline c).

(** The shape of the URLs the scraper takes: a scheme, [://], anything on
    one line, and then either the path of a product with the first digit
    of its number, or the path of a search; whatever follows is free. *)
Inductive coupang_url : string -> Prop :=
| product_url scheme middle d tail :
    scheme = "http" \/ scheme = "https" ->
    all_chars not_newline middle = true ->
    Re.is_digit d = true ->
    coupang_url (scheme +:+ "://" +:+ middle +:+ "coupang.com/vp/products/"
                 +:+ String d tail)
| search_url scheme middle tail :
    scheme = "http" \/ scheme = "https" ->
    all_chars not_newline middle = true ->
    coupang_url (scheme +:+ "://" +:+ middle +:+ "coupang.com/np/search"
                 +:+ tail).

(** ** The product of a page *)


(** The product information of a page [soup] fetched from [url]. *)
Definition scraped (url : string) (soup : CoupangScraper.Soup) : dict :=
  <["title" := VStr (CoupangScraper._extract_title soup)]>
  (<["price" := VStr (CoupangScraper._extract_price soup)]>
  (<["original_price" := VStr (CoupangScraper._extract_original_price soup)]>
  (<["rating" := VStr (CoupangScraper._extract_rating soup)]>
  (<["review_count" := VStr (CoupangScraper._extract_review_count soup)]>
  (<["description" := VStr (CoupangScraper._extract_description soup)]>
  (<["images" := VList (VStr <$> CoupangScraper._extract_images soup)]>
  (<["url" := VStr url]> ∅))))))).

(** What the scraper returns for a page that has none of the tags it
    looks for. *)
Definition placeholders (url : string) : dict :=
  <["title" := VStr "상품명 없음"]>
  (<["price" := VStr "가격 정보 없음"]>
  (<["original_price" := VStr ""]>
  (<["rating" := VStr "0"]>
  (<["review_count" := VStr "0"]>
  (<["description" := VStr "상품 설명 없음"]>
  (<["images" := VList []]>
  (<["url" := VStr url]> ∅))))))).

(** A page that answers [status] and has [soup] as its content. *)
Definition page_of (status : Z) (soup : CoupangScraper.Soup) : CoupangScraper.Web :=
  {| CoupangScraper.session_get := fun _ =>
       Reply 120 (Ret {| CoupangScraper.page_status := status;
                         CoupangScraper.page_soup := Ret soup |}) |}.

(** A page with no tag at all. *)
Definition blank_soup : CoupangScraper.Soup :=
  {| CoupangScraper.select_one := fun _ => None;
     CoupangScraper.select := fun _ => [] |}.

(** ** The calls of a run *)

(** The collaborators of a whole run, in the order of the stages; the
    subtitles are burned in between the video and the uploads when there
    are any. *)
Definition pipeline_calls (with_subtitles : bool) : list collaborator :=
  [Scraper_extract_product_info; Gemini_generate_video_script;
   AudioGen_generate_speech; AudioGen_get_audio_duration;
   SubtitleGen_generate_subtitles_from_script;
   VideoGen_generate_video_from_script]
  ++ (if with_subtitles then [SubtitleGen_add_subtitles_to_video] else [])
  ++ [Instagram_upload_video; YouTube_upload_video].

(** ** The queries of a wait *)

(** The most queries a wait of [max_wait] seconds can make: one every ten
    seconds. *)
Definition most_queries (seconds : nat) : nat := (seconds + 9) / 10.

(** ** The script prompt *)

(** The character [c] is nowhere in [s]. *)
Definition lacks (c : ascii) (s : string) : bool :=
  all_chars (fun x => negb (Ascii.eqb x c)) s.

(** The fields of a product the script prompt is made of. *)
Definition prompt_fields : list string :=
  ["title"; "price"; "rating"; "review_count"; "description"].

(** ** The requests of the Instagram uploader *)

(** The form [_create_media_container] posts. *)
Definition container_form (access_token video_path caption : string)
    (hashtags : option (list string)) : dict :=
  <["video_url" :=
      VStr ("https://your-domain.com/uploads/" +:+ basename video_path)]>
  (<["media_type" := VStr "REELS"]>
  (<["caption" := VStr (InstagramUploader.full_caption caption hashtags)]>
  (<["access_token" := VStr access_token]> ∅))).

(** What an uploader reads off the answer to a POST: the [id] of the JSON
    object, or the exception that ends the step. *)
Definition posted_id (r : outcome Response) : outcome value :=
  match r with
  | Raise e => Raise e
  | Ret response =>
      if (400 <=? status_code response) && (status_code response <? 600)
      then Raise (HTTPError (str_of_int (status_code response)))
      else
        match json response with
        | Raise e => Raise e
        | Ret (VDict d) => Ret (dict_get d "id" VNone)
        | Ret _ => Raise (AttributeError "object has no attribute 'get'")
        end
  end.

(** ** The retries of the YouTube uploader *)

(** The calls of [next_chunk] that raise, in a list of answers. *)
Definition failures (answers : list (reply (option Z))) : list exn :=
  omap (fun answer =>
          match result answer with
          | Raise e => Some e
          | Ret _ => None
          end) answers.

(** The sleeps after the failures number [retry + 1] to [retry + k]. *)
Definition backoff (retry : Z) (k : nat) : list Q :=
  map (fun i => inject_Z (2 ^ (retry + Z.of_nat i))) (seq 1 k).

(** ** The scenes of a video *)

(** The form posted to the Runway API for a scene. *)
Definition runway_form (prompt : string) (image_url duration : value) : dict :=
  <["prompt" := VStr prompt]>
  (<["image_url" := image_url]>
  (<["duration" := duration]>
  (<["aspect_ratio" := VStr "16:9"]> ∅))).

(** A scene that is a dictionary without a duration. *)
Definition lacks_duration (scene : value) : Prop :=
  exists d, scene = VDict d /\ d !! "duration" = None.

(** ** The speed of a speech *)


(** ** The events of a computation *)

(** A computation adds no event that passes the test [p]. *)
Definition keeps (p : event -> bool) {A} (c : M A) : Prop :=
  forall w, count p (trace (snd (c w))) = count p (trace w).

(** The tests that only events of file handles pass. *)
Definition of_handles (p : event -> bool) : Prop :=
  forall e, p e = true -> exists h, e = Open h \/ e = Close h.

(** The clips of a list that play from the handle [h]. *)
Definition readers (h : handle) (clips : list VideoClip) : nat :=
  length (List.filter (fun clip => bool_decide (v_reader clip = h)) clips).

(** * Properties *)

(** ** Runs of the monad *)

Lemma try_except_Raise {A} (c : M A) h w e w' :
  c w = (Raise e, w') -> try_except c h w = h e w'.
Proof. unfold try_except. intros ->. reflexivity. Qed.

(** ** Comparisons of durations *)

Lemma Qneb_false a b : Qneb a b = false <-> (a == b)%Q.
Proof.
  unfold Qneb. rewrite negb_false_iff. apply Qeq_bool_iff.
Qed.

Lemma Qneb_true a b : Qneb a b = true <-> ~ (a == b)%Q.
Proof.
  unfold Qneb. rewrite negb_true_iff, <- not_true_iff_false, Qeq_bool_iff.
  reflexivity.
Qed.

Lemma Qgtb_true a b : Qgtb a b = true <-> (b < a)%Q.
Proof.
  unfold Qgtb. rewrite negb_true_iff, <- not_true_iff_false, Qle_bool_iff.
  split; [apply Qnot_le_lt | apply Qlt_not_le].
Qed.

Lemma Qgtb_false a b : Qgtb a b = false <-> (a <= b)%Q.
Proof.
  unfold Qgtb. rewrite negb_false_iff. apply Qle_bool_iff.
Qed.

(** ** The reconciliation of durations *)

Lemma reconcile_audio_longer video audio :
  (duration video < duration audio)%Q ->
  Main.reconcile_durations video audio =
    (video, subclip audio 0 (duration video)).
Proof.
  intros Hlt. unfold Main.reconcile_durations.
  assert (Hne : Qneb (duration audio) (duration video) = true).
  { apply Qneb_true. intros Heq. rewrite Heq in Hlt. exact (Qlt_irrefl _ Hlt). }
  rewrite Hne. apply Qgtb_true in Hlt. rewrite Hlt. reflexivity.
Qed.

Lemma reconcile_audio_shorter video audio :
  (duration audio < duration video)%Q ->
  Main.reconcile_durations video audio =
    (subclip video 0 (duration audio), audio).
Proof.
  intros Hlt. unfold Main.reconcile_durations.
  assert (Hne : Qneb (duration audio) (duration video) = true).
  { apply Qneb_true. intros Heq. rewrite Heq in Hlt. exact (Qlt_irrefl _ Hlt). }
  rewrite Hne.
  assert (Hle : Qgtb (duration audio) (duration video) = false).
  { apply Qgtb_false. apply Qlt_le_weak. exact Hlt. }
  rewrite Hle. reflexivity.
Qed.

Lemma reconcile_equal video audio :
  (duration audio == duration video)%Q ->
  Main.reconcile_durations video audio = (video, audio).
Proof.
  intros Heq. unfold Main.reconcile_durations.
  apply Qneb_false in Heq. rewrite Heq. reflexivity.
Qed.

Lemma reconcile_durations_min video audio :
  let va := Main.reconcile_durations video audio in
  (duration (fst va) == Qmin (duration audio) (duration video))%Q /\
  (duration (snd va) == Qmin (duration audio) (duration video))%Q.
Proof.
  cbv zeta.
  destruct (Q_dec (duration audio) (duration video)) as [[Hlt|Hgt]|Heq].
  - rewrite (reconcile_audio_shorter _ _ Hlt). cbn [fst snd].
    rewrite (Q.min_l _ _ (Qlt_le_weak _ _ Hlt)).
    split; [|reflexivity]. cbn. ring.
  - rewrite (reconcile_audio_longer _ _ Hgt). cbn [fst snd].
    rewrite (Q.min_r _ _ (Qlt_le_weak _ _ Hgt)).
    split; [reflexivity|]. cbn. ring.
  - rewrite (reconcile_equal _ _ Heq). cbn [fst snd].
    assert (Hle : (duration video <= duration audio)%Q)
      by (rewrite Heq; apply Qle_refl).
    rewrite (Q.min_r _ _ Hle). split; [reflexivity | exact Heq].
Qed.

(** ** The compositor *)

Lemma if_path_truthy p : truthy p = true -> Main.if_path (Some p) = Some p.
Proof. intros H. unfold Main.if_path. rewrite H. reflexivity. Qed.

Lemma reconcile_readers video audio :
  v_reader (fst (Main.reconcile_durations video audio)) = v_reader video /\
  a_reader (snd (Main.reconcile_durations video audio)) = a_reader audio.
Proof.
  unfold Main.reconcile_durations.
  destruct (Qneb _ _); [destruct (Qgtb _ _)|]; split; reflexivity.
Qed.

(** What a composition does once both files are open and the subtitle
    step is skipped: it writes the reconciled clip, and closes the two
    readers when, and only when, the write went through. *)
Lemma compose_run env video_path audio_path subtitle_path w tv ta Dv Da :
  Main.VideoFileClip_duration env video_path = Reply tv (Ret Dv) ->
  Main.AudioFileClip_duration env audio_path = Reply ta (Ret Da) ->
  truthy audio_path = true ->
  subtitle_absent env subtitle_path ->
  let va := Main.reconcile_durations (loaded_video video_path Dv)
              (loaded_audio audio_path Da) in
  let video := set_audio (fst va) (snd va) in
  let now := (clock w + seconds_of_ms tv + seconds_of_ms ta)%Q in
  let opened :=
    Open (AudioReader audio_path) :: Open (VideoReader video_path) :: trace w in
  let written := Main.write_videofile env video (output_path_at now) in
  let finish := (now + seconds_of_ms (took written))%Q in
  Main._compose_final_video env video_path (Some audio_path) subtitle_path w =
    match result written with
    | Ret _ =>
        (Ret (Some (output_path_at now)),
         World finish
           (Close (AudioReader audio_path) :: Close (VideoReader video_path)
            :: WriteVideoFile (output_path_at now) video :: opened))
    | Raise e =>
        (Ret None,
         World finish (Log ERROR ("영상 합성 실패: " +:+ exn_str e) :: opened))
    end.
Proof.
  intros Hv Ha Hap Hsub. cbv zeta.
  destruct (reconcile_readers (loaded_video video_path Dv)
              (loaded_audio audio_path Da)) as [Rv Ra].
  unfold Main._compose_final_video, Main.VideoFileClip, Main.AudioFileClip.
  rewrite (if_path_truthy _ Hap), Hv, Ha.
  unfold subtitle_absent in Hsub.
  destruct (Main.if_path subtitle_path) as [p|]; [rewrite Hsub|];
    cbv [try_except bind perform emit elapse lift time_time ret raise
         took result logger_error Main.close_video Main.close_audio];
    cbn [clock trace fst snd];
    fold (loaded_video video_path Dv); fold (loaded_audio audio_path Da);
    fold (output_path_at (clock w + seconds_of_ms tv + seconds_of_ms ta));
    destruct (Main.write_videofile env _ _) as [tw [[]|e]];
    cbn [v_reader set_audio]; rewrite ?Rv, ?Ra; reflexivity.
Qed.

Ltac run :=
  cbv [try_except bind perform call emit elapse lift time_time ret raise
       logger_info logger_error logger_warning getitem Main.require
       Main.failure_result Main.close_video Main.close_audio
       Main.VideoFileClip Main.AudioFileClip Main.upload_error];
  cbn [clock trace fst snd].

(** Case analysis on what the outside answers next. *)
Ltac answer :=
  match goal with
  | |- context [match result ?r with Ret _ => _ | Raise _ => _ end] =>
      let o := fresh "o" in
      let E := fresh "E" in
      destruct (result r) as [o|o] eqn:E
  end.

Lemma compose_never_raises env video_path audio_path subtitle_path w :
  exists r w',
    Main._compose_final_video env video_path audio_path subtitle_path w
    = (Ret r, w').
Proof.
  unfold Main._compose_final_video. run.
  answer; [|eauto].
  destruct (Main.if_path audio_path); run; [answer; [|eauto]|];
    (destruct (Main.if_path subtitle_path);
     [destruct (Main.os_path_exists env _)|]; run;
     repeat (answer; run); eauto).
Qed.



(** C1.  Once both files are open, with durations [Da] and [Dv] that
    are not negative, the reconciliation leaves a video and an audio clip
    that both last [min Da Dv]: the audio is cut to [0, Dv] when it is
    longer, the video to [0, Da] when the audio is shorter, neither is
    touched when the durations are equal, and nothing is ever lengthened;
    the clip a composition writes is that video with that audio. *)
Theorem reconciliation_yields_the_shorter_duration
    env video_path audio_path subtitle_path w tv ta Dv Da :
  Main.VideoFileClip_duration env video_path = Reply tv (Ret Dv) ->
  Main.AudioFileClip_duration env audio_path = Reply ta (Ret Da) ->
  truthy audio_path = true ->
  subtitle_absent env subtitle_path ->
  (0 <= Da)%Q -> (0 <= Dv)%Q ->
  let video0 := loaded_video video_path Dv in
  let audio0 := loaded_audio audio_path Da in
  exists video audio,
    Main.reconcile_durations video0 audio0 = (video, audio) /\
    (duration video == Qmin Da Dv)%Q /\
    (duration audio == Qmin Da Dv)%Q /\
    ((Dv < Da)%Q -> video = video0 /\ audio = subclip audio0 0 Dv) /\
    ((Da < Dv)%Q -> video = subclip video0 0 Da /\ audio = audio0) /\
    ((Da == Dv)%Q -> video = video0 /\ audio = audio0) /\
    (duration (set_audio video audio) == Qmin Da Dv)%Q /\
    forall path w',
      Main._compose_final_video env video_path (Some audio_path)
        subtitle_path w = (Ret (Some path), w') ->
      In (WriteVideoFile path (set_audio video audio)) (trace w').
Proof.
  intros Hv Ha Hap Hsub _ _ video0 audio0.
  pose proof (reconcile_durations_min video0 audio0) as [Hmv Hma].
  cbv zeta in Hmv, Hma.
  destruct (Main.reconcile_durations video0 audio0) as [video audio] eqn:E.
  exists video, audio. cbn [fst snd] in Hmv, Hma.
  split; [reflexivity|]. split; [exact Hmv|]. split; [exact Hma|].
  split; [|split; [|split; [|split]]].
  - intros Hlt. pose proof (reconcile_audio_longer video0 audio0 Hlt) as E'.
    rewrite E in E'. injection E' as -> ->. split; reflexivity.
  - intros Hlt. pose proof (reconcile_audio_shorter video0 audio0 Hlt) as E'.
    rewrite E in E'. injection E' as -> ->. split; reflexivity.
  - intros Heq. pose proof (reconcile_equal video0 audio0 Heq) as E'.
    rewrite E in E'. injection E' as -> ->. split; reflexivity.
  - exact Hmv.
  - intros path w'.
    rewrite (compose_run env video_path audio_path subtitle_path w tv ta Dv Da
               Hv Ha Hap Hsub).
    cbv zeta. fold video0 audio0. rewrite E. cbn [fst snd].
    destruct (result _) as [[]|e]; intros [= <- <-]; cbn [trace In]; auto.
Qed.

(** The scenario's clips: 28 seconds of speech on 32 seconds of video
    leave 28 seconds of both, the video cut. *)
Lemma reconciliation_of_the_scenario :
  exists video audio,
    Main.reconcile_durations (loaded_video Scenario.video 32)
      (loaded_audio Scenario.speech 28) = (video, audio) /\
    (duration video == 28)%Q /\ (duration audio == 28)%Q /\
    v_cuts video = [(0, 28)%Q] /\ a_cuts audio = [].
Proof.
  destruct (reconciliation_yields_the_shorter_duration Scenario.happy
              Scenario.video Scenario.speech None Scenario.start 0 0 32 28
              eq_refl eq_refl eq_refl I
              ltac:(vm_compute; discriminate) ltac:(vm_compute; discriminate))
    as (video & audio & E & Hv & Ha & _ & Hshorter & _).
  exists video, audio.
  destruct (Hshorter ltac:(reflexivity)) as [-> ->].
  repeat split.
Defined.

(** What a composition leaves open when the write fails: both readers,
    whatever the files and the error. *)
Lemma compose_failure_closes_nothing
    env video_path audio_path subtitle_path w tv ta Dv Da e :
  Main.VideoFileClip_duration env video_path = Reply tv (Ret Dv) ->
  Main.AudioFileClip_duration env audio_path = Reply ta (Ret Da) ->
  truthy audio_path = true ->
  subtitle_absent env subtitle_path ->
  (forall video path, result (Main.write_videofile env video path) = Raise e) ->
  exists t,
    Main._compose_final_video env video_path (Some audio_path) subtitle_path w =
      (Ret None,
       World t (Log ERROR ("영상 합성 실패: " +:+ exn_str e)
                :: Open (AudioReader audio_path)
                :: Open (VideoReader video_path) :: trace w)).
Proof.
  intros Hv Ha Hap Hsub Hwrite.
  rewrite (compose_run env video_path audio_path subtitle_path w tv ta Dv Da
             Hv Ha Hap Hsub).
  cbv zeta. rewrite Hwrite. eauto.
Qed.

(** C5: the release of the handles is missing on the failure path.  In the
    scenario, with a write that fails for want of disk space, the
    composition returns null and logs the error, as claimed, but the two
    readers it opened are left open: the calls to [close] stand after the
    write, inside the [try]. *)
Theorem compose_failure_leaves_readers_open :
  let run :=
    Main._compose_final_video Scenario.write_fails Scenario.video
      (Some Scenario.speech) None Scenario.start in
  fst run = Ret None /\
  count (is_log ERROR "영상 합성 실패: [Errno 28] No space left on device")
    (trace (snd run)) = 1%nat /\
  count (is_open (VideoReader Scenario.video)) (trace (snd run)) = 1%nat /\
  count (is_open (AudioReader Scenario.speech)) (trace (snd run)) = 1%nat /\
  count (is_close (VideoReader Scenario.video)) (trace (snd run)) = 0%nat /\
  count (is_close (AudioReader Scenario.speech)) (trace (snd run)) = 0%nat.
Proof. vm_compute. repeat split. Qed.

(** The same composition with a write that goes through closes both. *)
Lemma compose_success_closes_readers :
  let run :=
    Main._compose_final_video Scenario.no_subtitles Scenario.video
      (Some Scenario.speech) None Scenario.start in
  fst run = Ret (Some Scenario.final_video) /\
  count (is_close (VideoReader Scenario.video)) (trace (snd run)) = 1%nat /\
  count (is_close (AudioReader Scenario.speech)) (trace (snd run)) = 1%nat.
Proof. vm_compute. repeat split. Qed.



(** The scenario, end to end: 28 seconds of speech and 32 seconds of
    video give a final file of 28 seconds, with the video cut to it, the
    audio left whole and the subtitles burned in. *)
Theorem scenario_writes_28_seconds :
  let run :=
    Main.process_coupang_link Scenario.happy Scenario.url Scenario.start in
  exists video audio,
    In (WriteVideoFile Scenario.final_video video) (trace (snd run)) /\
    (duration video == 28)%Q /\
    v_cuts video = [(0, 28)%Q] /\
    v_audio video = Some audio /\ a_cuts audio = [] /\
    v_subtitles video = Some Scenario.subtitles /\
    Scenario.returned run ∅ !! "video_path"
      = Some (VStr Scenario.final_video).
Proof.
  cbv zeta. eexists _, _. split.
  - vm_compute. do 8 right. left. reflexivity.
  - repeat split.
Qed.

(** ** The publisher *)

(** What [_upload_to_social_media] returns and whom it calls, case by
    case. *)
Lemma upload_cases env video_path script_data w :
  exists results new w',
    Main._upload_to_social_media env video_path script_data w
      = (Ret results, w') /\
    trace w' = (new ++ trace w)%list /\
    match script_data !! "description" with
    | None =>
        results = <["error" := VStr "'description'"]> ∅ /\ calls new = []
    | Some description =>
        match result (Main.instagram_upload_video env video_path description
                        (hashtags_of script_data)) with
        | Raise e =>
            results = <["error" := VStr (exn_str e)]> ∅ /\
            calls new = [Instagram_upload_video]
        | Ret instagram_id =>
            let instagram := Main.upload_entry "media_id" instagram_id in
            match script_data !! "title" with
            | None =>
                results = <["error" := VStr "'title'"]>
                            (<["instagram" := instagram]> ∅) /\
                calls new = [Instagram_upload_video]
            | Some title =>
                match result (Main.youtube_upload_video env video_path title
                                description (hashtags_of script_data)) with
                | Raise e =>
                    results = <["error" := VStr (exn_str e)]>
                                (<["instagram" := instagram]> ∅) /\
                    calls new = [Instagram_upload_video; YouTube_upload_video]
                | Ret youtube_id =>
                    results =
                      <["youtube" := Main.upload_entry "video_id" youtube_id]>
                        (<["instagram" := instagram]> ∅) /\
                    calls new = [Instagram_upload_video; YouTube_upload_video]
                end
            end
        end
    end.
Proof.
  unfold Main._upload_to_social_media, hashtags_of. run.
  destruct (script_data !! "description") as [description|]; run.
  2: { eexists _, [_; _], _. repeat split. }
  answer; run.
  2: { eexists _, [_; _; _], _. repeat split. }
  destruct (script_data !! "title") as [title|]; run.
  2: { eexists _, [_; _; _; _], _. repeat split. }
  answer; run.
  - eexists _, [_; _; _; _], _. repeat split.
  - eexists _, [_; _; _; _; _], _. repeat split.
Qed.

Lemma upload_never_raises env video_path script_data w :
  exists results w',
    Main._upload_to_social_media env video_path script_data w
      = (Ret results, w').
Proof.
  destruct (upload_cases env video_path script_data w) as (r & _ & w' & H & _).
  eauto.
Qed.

(** ** The orchestrator *)

Lemma success_is_no_failure r : is_success r -> ~ is_failure r.
Proof.
  intros (pi & sd & vp & ur & t & ->) (msg & t' & H).
  apply (f_equal (fun d : dict => d !! "success")) in H.
  unfold success, failure in H. rewrite !lookup_insert_eq in H. congruence.
Qed.

Lemma failure_is_no_success r : is_failure r -> ~ is_success r.
Proof. intros Hf Hs. exact (success_is_no_failure r Hs Hf). Qed.

(** The keys of the two shapes. *)
Lemma success_keys product_info script_data video_path upload_results t :
  dom (success product_info script_data video_path upload_results t) =
    {[ "success"; "product_info"; "script_data"; "video_path";
       "upload_results"; "processing_time" ]}.
Proof. unfold success. rewrite !dom_insert_L, dom_empty_L. set_solver. Qed.

Lemma failure_keys msg t :
  dom (failure msg t) = {[ "success"; "error"; "processing_time" ]}.
Proof. unfold failure. rewrite !dom_insert_L, dom_empty_L. set_solver. Qed.

Ltac stop_failed :=
  do 2 eexists; split; [reflexivity|];
  right; split; [do 2 eexists; reflexivity|];
  split; [apply failure_is_no_success; do 2 eexists; reflexivity | reflexivity].

Ltac stage :=
  answer; run; [|stop_failed];
  match goal with
  | o : option _ |- _ => destruct o as [?|]; [|stop_failed]
  end;
  match goal with
  | |- context [if truthy ?a then _ else _] =>
      destruct (truthy a) eqn:?; [|stop_failed]
  end.

(** C6.  Whatever the collaborators answer or raise, a run returns, and
    what it returns has exactly one of the two shapes: the success shape
    (product info, script data, final video path, upload results and the
    time, with [success] true) or the failure shape (an error message and
    the time, with [success] false), never both; and an exception raised
    anywhere in the body gives the failure shape with its text as
    message. *)
Theorem process_returns_one_shape env url w :
  (exists r w',
     Main.process_coupang_link env url w = (Ret r, w') /\
     ((is_success r /\ ~ is_failure r /\ r !! "success" = Some (VBool true)) \/
      (is_failure r /\ ~ is_success r /\ r !! "success" = Some (VBool false)))) /\
  (forall e w1,
     Main.process_coupang_link_body env url w = (Raise e, w1) ->
     Main.process_coupang_link env url w =
       (Ret (failure (exn_str e) (clock w1)),
        World (clock w1)
          (Log ERROR ("처리 중 오류 발생: " +:+ exn_str e) :: trace w1))).
Proof.
  split.
  2: { intros e w1 H. unfold Main.process_coupang_link.
       rewrite (try_except_Raise _ _ _ _ _ H). reflexivity. }
  unfold Main.process_coupang_link, Main.process_coupang_link_body. run.
  stage. stage.
  destruct (_ !! "script") as [script|]; run; [|stop_failed].
  stage.
  answer; run; [|stop_failed].
  answer; run; [|stop_failed].
  stage.
  match goal with
  | |- context [Main._compose_final_video ?e ?v ?a ?s ?w0] =>
      destruct (compose_never_raises e v a s w0) as (r1 & w1 & ->)
  end.
  destruct r1 as [final_video_path|]; [|stop_failed].
  destruct (truthy final_video_path); [|stop_failed].
  match goal with
  | |- context [Main._upload_to_social_media ?e ?v ?s ?w0] =>
      destruct (upload_never_raises e v s w0) as (r2 & w2 & ->)
  end.
  do 2 eexists; split; [reflexivity|].
  left. split; [do 5 eexists; reflexivity|].
  split; [apply success_is_no_failure; do 5 eexists; reflexivity | reflexivity].
Qed.

Lemma fails_option {A} `{Truthy A} (r : reply (option A)) :
  fails r ->
  result r = Ret None \/ exists a, result r = Ret (Some a) /\ truthy a = false.
Proof.
  intros ([a|] & Hr & Ht); [right; eauto | left; exact Hr].
Qed.

Ltac fail_here H :=
  destruct (fails_option _ H) as [-> | (? & -> & ->)]; run.

(** C2, as the code has it.  When the extraction, the script, the speech
    or the video stage returns null (or a value as false as null), the
    result has [success] false and the message of that stage as [error],
    and no collaborator of a later stage is called.  The subtitle stage is
    not among them: its answer is not checked. *)
Theorem stage_failure_short_circuits env url w s :
  stage_fails env url s ->
  exists t new w',
    Main.process_coupang_link env url w
      = (Ret (failure (stage_message s) t), w') /\
    trace w' = (new ++ trace w)%list /\
    calls new = stage_calls s.
Proof.
  unfold Main.process_coupang_link, Main.process_coupang_link_body.
  destruct s; cbn [stage_fails stage_message stage_calls].
  - intros H. run. fail_here H.
    + eexists _, [_; _; _; _], _. repeat split.
    + eexists _, [_; _; _; _], _. repeat split.
  - intros (pi & [Hpi Tpi] & H). run. rewrite Hpi. run. rewrite Tpi.
    fail_here H.
    + eexists _, [_; _; _; _; _; _], _. repeat split.
    + eexists _, [_; _; _; _; _; _], _. repeat split.
  - intros (pi & sd & script & [Hpi Tpi] & (Hsd & Tsd & Hscript) & H).
    run. rewrite Hpi. run. rewrite Tpi, Hsd. run. rewrite Tsd, Hscript.
    fail_here H.
    + eexists _, [_; _; _; _; _; _; _; _], _. repeat split.
    + eexists _, [_; _; _; _; _; _; _; _], _. repeat split.
  - intros (pi & sd & script & ap & sp & [Hpi Tpi] & (Hsd & Tsd & Hscript)
            & [Hap Tap] & (d & Hd & Hsp) & H).
    unfold images_of in H.
    run. rewrite Hpi. run. rewrite Tpi, Hsd. run. rewrite Tsd, Hscript.
    rewrite Hap. run. rewrite Tap, Hd, Hsp.
    fail_here H.
    + eexists _, [_; _; _; _; _; _; _; _; _; _; _; _; _], _. repeat split.
    + eexists _, [_; _; _; _; _; _; _; _; _; _; _; _; _], _. repeat split.
Qed.

(** In the scenario with an extraction that answers null: the run fails
    with the message of the extraction stage after that one call. *)
Lemma extraction_failure_in_the_scenario :
  stage_fails Scenario.no_product Scenario.url Extract /\
  exists t new w',
    Main.process_coupang_link Scenario.no_product Scenario.url Scenario.start
      = (Ret (failure "상품 정보 추출 실패" t), w') /\
    trace w' = (new ++ [])%list /\
    calls new = [Scraper_extract_product_info].
Proof.
  assert (H : stage_fails Scenario.no_product Scenario.url Extract)
    by (exists None; split; reflexivity).
  split; [exact H|].
  exact (stage_failure_short_circuits Scenario.no_product Scenario.url
           Scenario.start Extract H).
Defined.

(** Against C2 as stated.  With a subtitle generator that answers null,
    and every other stage as in the scenario, the run goes on to the video,
    the composition and both uploads and ends with [success] true; and the
    message of a failed extraction does not contain [extract]. *)
Lemma null_subtitles_do_not_fail_the_run :
  let run :=
    Main.process_coupang_link Scenario.no_subtitles Scenario.url
      Scenario.start in
  result (Main.generate_subtitles_from_script Scenario.no_subtitles
            (VStr "Meet the widget.") 28) = Ret None /\
  (exists r, fst run = Ret r /\ r !! "success" = Some (VBool true)) /\
  calls (trace (snd run)) =
    [Scraper_extract_product_info; Gemini_generate_video_script;
     AudioGen_generate_speech; AudioGen_get_audio_duration;
     SubtitleGen_generate_subtitles_from_script;
     VideoGen_generate_video_from_script;
     Instagram_upload_video; YouTube_upload_video] /\
  (exists r,
     fst (Main.process_coupang_link Scenario.no_product Scenario.url
            Scenario.start) = Ret r /\
     r !! "error" = Some (VStr (stage_message Extract)) /\
     contains (stage_message Extract) "extract" = false).
Proof.
  cbv zeta. split; [reflexivity|]. split; [|split].
  - eexists. split; [vm_compute; reflexivity | reflexivity].
  - vm_compute. reflexivity.
  - eexists. split; [vm_compute; reflexivity|]. split; reflexivity.
Qed.

(** ** Runs that reach the publisher *)







(** C4, as the code has it.  With a description and a title in the script
    data and two upload calls that return, an id or null, the publisher
    calls Instagram and then YouTube and returns an entry for each, marked
    by whether its id is there: a null from one target neither stops the
    other nor changes its entry. *)
Theorem publisher_records_each_returned_upload
    env video_path script_data w description title instagram_id youtube_id :
  script_data !! "description" = Some description ->
  script_data !! "title" = Some title ->
  result (Main.instagram_upload_video env video_path description
            (hashtags_of script_data)) = Ret instagram_id ->
  result (Main.youtube_upload_video env video_path title description
            (hashtags_of script_data)) = Ret youtube_id ->
  exists new w',
    Main._upload_to_social_media env video_path script_data w =
      (Ret (<["youtube" := Main.upload_entry "video_id" youtube_id]>
              (<["instagram" := Main.upload_entry "media_id" instagram_id]> ∅)),
       w') /\
    trace w' = (new ++ trace w)%list /\
    calls new = [Instagram_upload_video; YouTube_upload_video].
Proof.
  intros Hd Ht Hig Hyt.
  destruct (upload_cases env video_path script_data w)
    as (ur & new & w' & Hup & Htrace & Hcases).
  rewrite Hd, Hig in Hcases. cbv zeta in Hcases. rewrite Ht, Hyt in Hcases.
  destruct Hcases as [-> Hcalls]. eauto.
Qed.

(** The entry of an upload that returned null, and of one that returned
    an id. *)
Lemma upload_entry_null id_key :
  Main.upload_entry id_key None =
    VDict (<["success" := VBool false]> (<[id_key := VNone]> ∅)).
Proof. reflexivity. Qed.

Lemma upload_entry_id id_key id :
  Main.upload_entry id_key (Some id) =
    VDict (<["success" := VBool true]> (<[id_key := VStr id]> ∅)).
Proof. reflexivity. Qed.



(** In the scenario with Instagram down: both targets are called, and the
    mapping marks Instagram failed and YouTube successful with its id. *)
Lemma publisher_with_instagram_down :
  exists new w',
    Main._upload_to_social_media Scenario.instagram_down Scenario.final_video
      Scenario.script_data Scenario.start =
      (Ret (<["youtube" := VDict (<["success" := VBool true]>
                                   (<["video_id" := VStr "yt-1"]> ∅))]>
           (<["instagram" := VDict (<["success" := VBool false]>
                                     (<["media_id" := VNone]> ∅))]> ∅)),
       w') /\
    trace w' = (new ++ [])%list /\
    calls new = [Instagram_upload_video; YouTube_upload_video].
Proof.
  exact (publisher_records_each_returned_upload Scenario.instagram_down
           Scenario.final_video Scenario.script_data Scenario.start
           (VStr "A widget.") (VStr "Widget") None (Some "yt-1")
           eq_refl eq_refl eq_refl eq_refl).
Defined.

(** Against C4 as stated.  With script data that have no description,
    the publisher calls neither target, though both uploads would go
    through, and returns the error alone; with script data that have no
    title, Instagram is recorded and YouTube gets no entry, failed or
    not. *)
Lemma missing_key_stops_the_publisher :
  let undescribed :=
    Main._upload_to_social_media Scenario.happy Scenario.final_video
      Scenario.undescribed_script Scenario.start in
  let untitled :=
    Main._upload_to_social_media Scenario.happy Scenario.final_video
      Scenario.untitled_script Scenario.start in
  (fst undescribed = Ret (<["error" := VStr "'description'"]> ∅) /\
   calls (trace (snd undescribed)) = []) /\
  (fst untitled =
     Ret (<["error" := VStr "'title'"]>
          (<["instagram" := VDict (<["success" := VBool true]>
                                   (<["media_id" := VStr "ig-1"]> ∅))]> ∅)) /\
   calls (trace (snd untitled)) = [Instagram_upload_video]).
Proof. vm_compute. repeat split. Qed.

(** ** The loops of the pollers *)

Lemma video_wait_loop_unfold net task_id max_wait start_time n w :
  VideoGenerator.video_wait_loop net task_id max_wait start_time n w =
    if Qlt_le_dec (clock w - start_time) (inject_Z max_wait) then
      match VideoGenerator.poll_task net task_id n w with
      | (Ret (Some v), w') => (Ret v, w')
      | (Ret None, w') =>
          VideoGenerator.video_wait_loop net task_id max_wait start_time (S n) w'
      | (Raise e, w') => (Raise e, w')
      end
    else (logger_warning "영상 생성 시간 초과" ;; ret VNone) w.
Proof.
  funelim (VideoGenerator.video_wait_loop net task_id max_wait start_time n w);
    try rewrite <- Heqcall;
    try match goal with
        | H : Qlt_le_dec _ _ = _ |- _ => rewrite H
        end;
    try match goal with
        | H : VideoGenerator.poll_task _ _ _ _ = _ |- _ => rewrite H
        end;
    reflexivity.
Qed.

Lemma upload_wait_loop_unfold net container_id max_wait start_time n w :
  InstagramUploader.upload_wait_loop net container_id max_wait start_time n w =
    if Qlt_le_dec (clock w - start_time) (inject_Z max_wait) then
      match InstagramUploader.poll_container net container_id n w with
      | (Ret (Some b), w') => (Ret b, w')
      | (Ret None, w') =>
          InstagramUploader.upload_wait_loop net container_id max_wait
            start_time (S n) w'
      | (Raise e, w') => (Raise e, w')
      end
    else (logger_warning "업로드 시간 초과" ;; ret false) w.
Proof.
  funelim (InstagramUploader.upload_wait_loop net container_id max_wait
             start_time n w);
    try rewrite <- Heqcall;
    try match goal with
        | H : Qlt_le_dec _ _ = _ |- _ => rewrite H
        end;
    try match goal with
        | H : InstagramUploader.poll_container _ _ _ _ = _ |- _ => rewrite H
        end;
    reflexivity.
Qed.

(** ** Loops with a deadline *)

Section DeadlineLoop.

Context {R : Type}.
Variable turn : nat -> M (option R).
Variable late : M R.
Variable loop : Z -> Q -> nat -> world -> outcome R * world.

Hypothesis loop_unfold : forall max_wait start_time n w,
  loop max_wait start_time n w =
    if Qlt_le_dec (clock w - start_time) (inject_Z max_wait) then
      match turn n w with
      | (Ret (Some r), w') => (Ret r, w')
      | (Ret None, w') => loop max_wait start_time (S n) w'
      | (Raise e, w') => (Raise e, w')
      end
    else late w.

Hypothesis turn_advances : forall n w w',
  turn n w = (Ret None, w') -> (clock w + 10 <= clock w')%Q.

Lemma loop_late max_wait start_time n w :
  (inject_Z max_wait <= clock w - start_time)%Q ->
  loop max_wait start_time n w = late w.
Proof.
  intros Hle. rewrite loop_unfold.
  destruct (Qlt_le_dec _ _) as [Hlt|_]; [|reflexivity].
  exfalso. exact (Qlt_not_le _ _ Hlt Hle).
Qed.

Lemma loop_returns max_wait start_time n w r w' :
  (clock w - start_time < inject_Z max_wait)%Q ->
  turn n w = (Ret (Some r), w') ->
  loop max_wait start_time n w = (Ret r, w').
Proof.
  intros Hlt Hturn. rewrite loop_unfold, Hturn.
  destruct (Qlt_le_dec _ _) as [_|Hle]; [reflexivity|].
  exfalso. exact (Qlt_not_le _ _ Hlt Hle).
Qed.

Lemma loop_continues max_wait start_time n w w' :
  (clock w - start_time < inject_Z max_wait)%Q ->
  turn n w = (Ret None, w') ->
  loop max_wait start_time n w = loop max_wait start_time (S n) w'.
Proof.
  intros Hlt Hturn. rewrite loop_unfold, Hturn.
  destruct (Qlt_le_dec _ _) as [_|Hle]; [reflexivity|].
  exfalso. exact (Qlt_not_le _ _ Hlt Hle).
Qed.

(** The loop ends: it returns when no turn raises. *)
Lemma loop_never_raises max_wait start_time :
  (forall n w e w', turn n w <> (Raise e, w')) ->
  (forall w, exists r w', late w = (Ret r, w')) ->
  forall n w, exists r w', loop max_wait start_time n w = (Ret r, w').
Proof.
  intros Hturn Hlate n w.
  remember (time_left max_wait start_time w) as k eqn:Hk.
  revert n w Hk. induction k as [k IH] using lt_wf_ind. intros n w Hk.
  rewrite loop_unfold. destruct (Qlt_le_dec _ _) as [Hlt|_]; [|apply Hlate].
  destruct (turn n w) as [[[r|]|e] w'] eqn:E.
  - eauto.
  - apply (IH (time_left max_wait start_time w')); [|reflexivity].
    subst k. apply time_left_decreases; [exact Hlt|].
    exact (turn_advances _ _ _ E).
  - exfalso. exact (Hturn _ _ _ _ E).
Qed.

(** When every turn goes on, the loop is left at the deadline, not
    before. *)
Lemma loop_times_out max_wait start_time :
  (forall n w, exists w', turn n w = (Ret None, w')) ->
  forall n w,
    exists w1,
      loop max_wait start_time n w = late w1 /\
      (inject_Z max_wait <= clock w1 - start_time)%Q /\
      (clock w <= clock w1)%Q.
Proof.
  intros Hturn n w.
  remember (time_left max_wait start_time w) as k eqn:Hk.
  revert n w Hk. induction k as [k IH] using lt_wf_ind. intros n w Hk.
  rewrite loop_unfold. destruct (Qlt_le_dec _ _) as [Hlt|Hle].
  - destruct (Hturn n w) as (w' & E). rewrite E.
    pose proof (turn_advances _ _ _ E) as Hadv.
    destruct (IH (time_left max_wait start_time w')) with (n := S n) (w := w')
      as (w1 & Hloop & Hdead & Hmono); [|reflexivity|].
    + subst k. apply time_left_decreases; assumption.
    + exists w1. repeat split; [exact Hloop | exact Hdead | lra].
  - exists w. repeat split; [exact Hle | apply Qle_refl].
Qed.

End DeadlineLoop.

(** ** The poller of the Instagram uploader *)

Ltac turn :=
  cbv [try_except bind perform get emit elapse lift time_sleep raise_for_status
       logger_error logger_info py_get ret raise took result
       dict_get eq_str];
  cbn [clock trace].

Section UploadPoller.

Variable net : Net.
Variable container_id : string.

Let url := InstagramUploader.container_url container_id.
Let poll := InstagramUploader.poll_container net container_id.

Lemma poll_container_finished n t w :
  container_reports net container_id n t "FINISHED" ->
  poll n w =
    (Ret (Some true),
     World (clock w + seconds_of_ms t)
       (Log INFO "업로드 완료" :: HttpGet url :: trace w)).
Proof.
  intros (code & body & Hreply & Hok & Hstatus).
  unfold poll, InstagramUploader.poll_container, get. rewrite Hreply.
  turn. cbn [status_code json]. unfold ok_status in Hok.
  rewrite Hok, Hstatus. reflexivity.
Qed.

Lemma poll_container_error n t w :
  container_reports net container_id n t "ERROR" ->
  poll n w =
    (Ret (Some false),
     World (clock w + seconds_of_ms t)
       (Log ERROR "업로드 오류 발생" :: HttpGet url :: trace w)).
Proof.
  intros (code & body & Hreply & Hok & Hstatus).
  unfold poll, InstagramUploader.poll_container, get. rewrite Hreply.
  turn. cbn [status_code json]. unfold ok_status in Hok.
  rewrite Hok, Hstatus. reflexivity.
Qed.

Lemma poll_container_pending n t status w :
  container_reports net container_id n t status ->
  pending "FINISHED" "ERROR" status ->
  poll n w =
    (Ret None,
     World (clock w + seconds_of_ms t + 10)
       (Sleep 10 :: HttpGet url :: trace w)).
Proof.
  intros (code & body & Hreply & Hok & Hstatus) [Hf He].
  unfold poll, InstagramUploader.poll_container, get. rewrite Hreply.
  turn. cbn [status_code json]. unfold ok_status in Hok.
  rewrite Hok, Hstatus, Hf, He. reflexivity.
Qed.

Lemma poll_container_transient n t e w :
  query_raises net url n t e ->
  poll n w =
    (Ret None,
     World (clock w + seconds_of_ms t + 10)
       (Sleep 10 :: Log ERROR ("상태 확인 중 오류: " +:+ exn_str e)
        :: HttpGet url :: trace w)).
Proof.
  intros Hreply.
  unfold poll, InstagramUploader.poll_container, get.
  unfold query_raises, url in Hreply. rewrite Hreply.
  turn. reflexivity.
Qed.

Lemma poll_container_no_raise n w e w' : poll n w <> (Raise e, w').
Proof.
  unfold poll, InstagramUploader.poll_container, get.
  destruct (requests_get net _ n) as [t [response|e0]]; turn; [|congruence].
  destruct ((400 <=? _) && _); [congruence|].
  destruct (json response) as [[]|]; try congruence;
    repeat match goal with
           | |- context [match ?x with _ => _ end] => destruct x
           end; congruence.
Qed.

End UploadPoller.

Section UploadPollerRuns.

Variable net : Net.
Variable container_id : string.

Let url := InstagramUploader.container_url container_id.
Let wait := InstagramUploader._wait_for_upload_completion net container_id.
Let loop := InstagramUploader.upload_wait_loop net container_id.
Let unfold_loop := upload_wait_loop_unfold net container_id.
Let advances := InstagramUploader.poll_container_advances net container_id.

Lemma wait_for_upload_is_loop max_wait w :
  wait max_wait w = loop max_wait (clock w) 0%nat w.
Proof. reflexivity. Qed.

(** Pending, pending, finished: success at the third query. *)
Lemma upload_finished_at_third_query max_wait w t0 t1 t2 s0 s1 :
  container_reports net container_id 0 t0 s0 ->
  pending "FINISHED" "ERROR" s0 ->
  container_reports net container_id 1 t1 s1 ->
  pending "FINISHED" "ERROR" s1 ->
  container_reports net container_id 2 t2 "FINISHED" ->
  (seconds_of_ms t0 + seconds_of_ms t1 + 20 < inject_Z max_wait)%Q ->
  wait max_wait w =
    (Ret true,
     World (clock w + seconds_of_ms t0 + 10 + seconds_of_ms t1 + 10
            + seconds_of_ms t2)
       (Log INFO "업로드 완료" :: HttpGet url
        :: Sleep 10 :: HttpGet url
        :: Sleep 10 :: HttpGet url :: trace w)).
Proof.
  intros H0 P0 H1 P1 H2 Hdeadline.
  pose proof (seconds_of_ms_nonneg t0). pose proof (seconds_of_ms_nonneg t1).
  rewrite wait_for_upload_is_loop. unfold loop.
  erewrite (loop_continues _ _ _ unfold_loop);
    [| cbn [clock]; lra | exact (poll_container_pending _ _ _ _ _ _ H0 P0)].
  erewrite (loop_continues _ _ _ unfold_loop);
    [| cbn [clock]; lra | exact (poll_container_pending _ _ _ _ _ _ H1 P1)].
  erewrite (loop_returns _ _ _ unfold_loop);
    [| cbn [clock]; lra | exact (poll_container_finished _ _ _ _ _ H2)].
  reflexivity.
Qed.

(** An error status at the first query: failure at once. *)
Lemma upload_error_at_first_query max_wait w t0 :
  container_reports net container_id 0 t0 "ERROR" ->
  0 < max_wait ->
  wait max_wait w =
    (Ret false,
     World (clock w + seconds_of_ms t0)
       (Log ERROR "업로드 오류 발생" :: HttpGet url :: trace w)).
Proof.
  intros H0 Hpos. rewrite wait_for_upload_is_loop. unfold loop.
  assert (0 < inject_Z max_wait)%Q
    by (rewrite (Zlt_Qlt 0) in Hpos; exact Hpos).
  erewrite (loop_returns _ _ _ unfold_loop);
    [| cbn [clock]; lra | exact (poll_container_error _ _ _ _ _ H0)].
  reflexivity.
Qed.

(** A query that raises is logged, and the loop goes on ten seconds
    later with the next one. *)
Lemma upload_query_error_goes_on max_wait start_time n w t e :
  query_raises net url n t e ->
  (clock w - start_time < inject_Z max_wait)%Q ->
  loop max_wait start_time n w =
  loop max_wait start_time (S n)
    (World (clock w + seconds_of_ms t + 10)
       (Sleep 10 :: Log ERROR ("상태 확인 중 오류: " +:+ exn_str e)
        :: HttpGet url :: trace w)).
Proof.
  intros Hq Hlt. unfold loop.
  erewrite (loop_continues _ _ _ unfold_loop);
    [reflexivity | exact Hlt | exact (poll_container_transient _ _ _ _ _ _ Hq)].
Qed.

Lemma wait_for_upload_never_raises max_wait w :
  exists b w', wait max_wait w = (Ret b, w').
Proof.
  rewrite wait_for_upload_is_loop.
  apply (loop_never_raises _ _ _ unfold_loop advances).
  - apply poll_container_no_raise.
  - intros w0. eexists _, _. reflexivity.
Qed.

(** Queries that never bring an end (a pending status, or an error of
    the query): the loop is left at the deadline, with the time-out
    logged. *)
Lemma upload_times_out max_wait w :
  (forall n,
     (exists t s, container_reports net container_id n t s /\
                  pending "FINISHED" "ERROR" s) \/
     (exists t e, query_raises net url n t e)) ->
  exists w1,
    wait max_wait w =
      (Ret false, World (clock w1) (Log WARNING "업로드 시간 초과" :: trace w1)) /\
    (inject_Z max_wait <= clock w1 - clock w)%Q.
Proof.
  intros Hnever. rewrite wait_for_upload_is_loop.
  destruct (loop_times_out _ _ _ unfold_loop advances max_wait (clock w))
    with (n := 0%nat) (w := w) as (w1 & Hloop & Hdead & _).
  - intros n w0. destruct (Hnever n) as [(t & s & Hr & Hp) | (t & e & Hq)].
    + eexists. exact (poll_container_pending _ _ _ _ _ _ Hr Hp).
    + eexists. exact (poll_container_transient _ _ _ _ _ _ Hq).
  - exists w1. split; [|exact Hdead]. unfold loop. rewrite Hloop. reflexivity.
Qed.

End UploadPollerRuns.

(** ** The poller of the video generator *)

Section VideoPoller.

Variable net : Net.
Variable task_id : string.

Let url := VideoGenerator.task_url task_id.
Let poll := VideoGenerator.poll_task net task_id.

Lemma poll_task_completed n t body w :
  task_reports net task_id n t body ->
  body !! "status" = Some (VStr "completed") ->
  poll n w =
    (Ret (Some (dict_get body "video_url" VNone)),
     World (clock w + seconds_of_ms t) (HttpGet url :: trace w)).
Proof.
  intros Hreply Hstatus.
  unfold poll, VideoGenerator.poll_task, get.
  unfold task_reports in Hreply. rewrite Hreply.
  turn. cbn [status_code json]. rewrite Hstatus. reflexivity.
Qed.

Lemma poll_task_failed n t body w :
  task_reports net task_id n t body ->
  body !! "status" = Some (VStr "failed") ->
  poll n w =
    (Ret (Some VNone),
     World (clock w + seconds_of_ms t)
       (Log ERROR ("영상 생성 실패: "
                   +:+ format_value net (dict_get body "error" VNone))
        :: HttpGet url :: trace w)).
Proof.
  intros Hreply Hstatus.
  unfold poll, VideoGenerator.poll_task, get.
  unfold task_reports in Hreply. rewrite Hreply.
  turn. cbn [status_code json]. rewrite Hstatus. reflexivity.
Qed.

Lemma poll_task_pending n t body status w :
  task_reports net task_id n t body ->
  body !! "status" = Some (VStr status) ->
  pending "completed" "failed" status ->
  poll n w =
    (Ret None,
     World (clock w + seconds_of_ms t + 10)
       (Sleep 10 :: HttpGet url :: trace w)).
Proof.
  intros Hreply Hstatus [Hc Hf].
  unfold poll, VideoGenerator.poll_task, get.
  unfold task_reports in Hreply. rewrite Hreply.
  turn. cbn [status_code json]. rewrite Hstatus, Hc, Hf. reflexivity.
Qed.

Lemma poll_task_transient n t e w :
  query_raises net url n t e ->
  poll n w =
    (Ret None,
     World (clock w + seconds_of_ms t + 10)
       (Sleep 10 :: Log ERROR ("상태 확인 중 오류: " +:+ exn_str e)
        :: HttpGet url :: trace w)).
Proof.
  intros Hreply.
  unfold poll, VideoGenerator.poll_task, get.
  unfold query_raises, url in Hreply. rewrite Hreply.
  turn. reflexivity.
Qed.

Lemma poll_task_no_raise n w e w' : poll n w <> (Raise e, w').
Proof.
  unfold poll, VideoGenerator.poll_task, get.
  destruct (requests_get net _ n) as [t [response|e0]]; turn; [|congruence].
  destruct (status_code response =? 200); [|congruence].
  destruct (json response) as [[]|]; try congruence;
    repeat match goal with
           | |- context [match ?x with _ => _ end] => destruct x
           end; congruence.
Qed.

Let wait := VideoGenerator._wait_for_video_completion net task_id.
Let loop := VideoGenerator.video_wait_loop net task_id.
Let unfold_loop := video_wait_loop_unfold net task_id.
Let advances := VideoGenerator.poll_task_advances net task_id.

Lemma wait_for_video_is_loop max_wait w :
  wait max_wait w = loop max_wait (clock w) 0%nat w.
Proof. reflexivity. Qed.

(** Pending, pending, completed: the video's URL at the third query. *)
Lemma video_completed_at_third_query max_wait w t0 t1 t2 b0 b1 b2 s0 s1 :
  task_reports net task_id 0 t0 b0 -> b0 !! "status" = Some (VStr s0) ->
  pending "completed" "failed" s0 ->
  task_reports net task_id 1 t1 b1 -> b1 !! "status" = Some (VStr s1) ->
  pending "completed" "failed" s1 ->
  task_reports net task_id 2 t2 b2 ->
  b2 !! "status" = Some (VStr "completed") ->
  (seconds_of_ms t0 + seconds_of_ms t1 + 20 < inject_Z max_wait)%Q ->
  wait max_wait w =
    (Ret (dict_get b2 "video_url" VNone),
     World (clock w + seconds_of_ms t0 + 10 + seconds_of_ms t1 + 10
            + seconds_of_ms t2)
       (HttpGet url
        :: Sleep 10 :: HttpGet url
        :: Sleep 10 :: HttpGet url :: trace w)).
Proof.
  intros H0 S0 P0 H1 S1 P1 H2 S2 Hdeadline.
  pose proof (seconds_of_ms_nonneg t0). pose proof (seconds_of_ms_nonneg t1).
  rewrite wait_for_video_is_loop. unfold loop.
  erewrite (loop_continues _ _ _ unfold_loop);
    [| cbn [clock]; lra | exact (poll_task_pending _ _ _ _ _ H0 S0 P0)].
  erewrite (loop_continues _ _ _ unfold_loop);
    [| cbn [clock]; lra | exact (poll_task_pending _ _ _ _ _ H1 S1 P1)].
  erewrite (loop_returns _ _ _ unfold_loop);
    [| cbn [clock]; lra | exact (poll_task_completed _ _ _ _ H2 S2)].
  reflexivity.
Qed.

(** A failed status at the first query: failure at once. *)
Lemma video_failed_at_first_query max_wait w t0 b0 :
  task_reports net task_id 0 t0 b0 ->
  b0 !! "status" = Some (VStr "failed") ->
  0 < max_wait ->
  wait max_wait w =
    (Ret VNone,
     World (clock w + seconds_of_ms t0)
       (Log ERROR ("영상 생성 실패: "
                   +:+ format_value net (dict_get b0 "error" VNone))
        :: HttpGet url :: trace w)).
Proof.
  intros H0 S0 Hpos. rewrite wait_for_video_is_loop. unfold loop.
  assert (0 < inject_Z max_wait)%Q
    by (rewrite (Zlt_Qlt 0) in Hpos; exact Hpos).
  erewrite (loop_returns _ _ _ unfold_loop);
    [| cbn [clock]; lra | exact (poll_task_failed _ _ _ _ H0 S0)].
  reflexivity.
Qed.

Lemma video_query_error_goes_on max_wait start_time n w t e :
  query_raises net url n t e ->
  (clock w - start_time < inject_Z max_wait)%Q ->
  loop max_wait start_time n w =
  loop max_wait start_time (S n)
    (World (clock w + seconds_of_ms t + 10)
       (Sleep 10 :: Log ERROR ("상태 확인 중 오류: " +:+ exn_str e)
        :: HttpGet url :: trace w)).
Proof.
  intros Hq Hlt. unfold loop.
  erewrite (loop_continues _ _ _ unfold_loop);
    [reflexivity | exact Hlt | exact (poll_task_transient _ _ _ _ Hq)].
Qed.

Lemma wait_for_video_never_raises max_wait w :
  exists v w', wait max_wait w = (Ret v, w').
Proof.
  rewrite wait_for_video_is_loop.
  apply (loop_never_raises _ _ _ unfold_loop advances).
  - apply poll_task_no_raise.
  - intros w0. eexists _, _. reflexivity.
Qed.

Lemma video_times_out max_wait w :
  (forall n,
     (exists t body s, task_reports net task_id n t body /\
                       body !! "status" = Some (VStr s) /\
                       pending "completed" "failed" s) \/
     (exists t e, query_raises net url n t e)) ->
  exists w1,
    wait max_wait w =
      (Ret VNone,
       World (clock w1) (Log WARNING "영상 생성 시간 초과" :: trace w1)) /\
    (inject_Z max_wait <= clock w1 - clock w)%Q.
Proof.
  intros Hnever. rewrite wait_for_video_is_loop.
  destruct (loop_times_out _ _ _ unfold_loop advances max_wait (clock w))
    with (n := 0%nat) (w := w) as (w1 & Hloop & Hdead & _).
  - intros n w0.
    destruct (Hnever n) as [(t & body & s & Hr & Hs & Hp) | (t & e & Hq)].
    + eexists. exact (poll_task_pending _ _ _ _ _ Hr Hs Hp).
    + eexists. exact (poll_task_transient _ _ _ _ Hq).
  - exists w1. split; [|exact Hdead]. unfold loop. rewrite Hloop. reflexivity.
Qed.

End VideoPoller.

(** ** The contract of the two pollers *)

(** C3.  Both pollers wait 300 seconds by default; they never raise; with
    two pending answers and then a finished one they return success after
    exactly three queries, ten seconds apart; with a failed answer to the
    first query they return failure after that one query, without
    sleeping; at a loop head past the deadline they return the timed-out
    outcome, with a warning logged, and so they do, no sooner than the
    deadline, when no answer ever ends the wait; and a query that raises
    is logged, followed by the ten seconds' sleep and the next query. *)
Theorem pollers_keep_interval_and_deadline net id max_wait w :
  let upload := InstagramUploader._wait_for_upload_completion net id in
  let upload_loop := InstagramUploader.upload_wait_loop net id max_wait in
  let upload_url := InstagramUploader.container_url id in
  let video := VideoGenerator._wait_for_video_completion net id in
  let video_loop := VideoGenerator.video_wait_loop net id max_wait in
  let video_url := VideoGenerator.task_url id in
  (InstagramUploader.max_wait_default = 300 /\
   VideoGenerator.max_wait_default = 300) /\
  ((exists b w', upload max_wait w = (Ret b, w')) /\
   (forall t0 t1 t2 s0 s1,
      container_reports net id 0 t0 s0 -> pending "FINISHED" "ERROR" s0 ->
      container_reports net id 1 t1 s1 -> pending "FINISHED" "ERROR" s1 ->
      container_reports net id 2 t2 "FINISHED" ->
      (seconds_of_ms t0 + seconds_of_ms t1 + 20 < inject_Z max_wait)%Q ->
      exists new t,
        upload max_wait w = (Ret true, World t (new ++ trace w)%list) /\
        queries new = 3%nat /\ sleeps new = [10; 10]%Q) /\
   (forall t0,
      container_reports net id 0 t0 "ERROR" -> 0 < max_wait ->
      exists new t,
        upload max_wait w = (Ret false, World t (new ++ trace w)%list) /\
        queries new = 1%nat /\ sleeps new = []) /\
   (forall start_time n w0,
      (inject_Z max_wait <= clock w0 - start_time)%Q ->
      upload_loop start_time n w0 =
        (Ret false,
         World (clock w0) (Log WARNING "업로드 시간 초과" :: trace w0))) /\
   ((forall n,
       (exists t s, container_reports net id n t s /\
                    pending "FINISHED" "ERROR" s) \/
       (exists t e, query_raises net upload_url n t e)) ->
    exists w1,
      upload max_wait w =
        (Ret false,
         World (clock w1) (Log WARNING "업로드 시간 초과" :: trace w1)) /\
      (inject_Z max_wait <= clock w1 - clock w)%Q) /\
   (forall start_time n w0 t e,
      query_raises net upload_url n t e ->
      (clock w0 - start_time < inject_Z max_wait)%Q ->
      upload_loop start_time n w0 =
      upload_loop start_time (S n)
        (World (clock w0 + seconds_of_ms t + 10)
           (Sleep 10 :: Log ERROR ("상태 확인 중 오류: " +:+ exn_str e)
            :: HttpGet upload_url :: trace w0)))) /\
  ((exists v w', video max_wait w = (Ret v, w')) /\
   (forall t0 t1 t2 b0 b1 b2 s0 s1,
      task_reports net id 0 t0 b0 -> b0 !! "status" = Some (VStr s0) ->
      pending "completed" "failed" s0 ->
      task_reports net id 1 t1 b1 -> b1 !! "status" = Some (VStr s1) ->
      pending "completed" "failed" s1 ->
      task_reports net id 2 t2 b2 ->
      b2 !! "status" = Some (VStr "completed") ->
      (seconds_of_ms t0 + seconds_of_ms t1 + 20 < inject_Z max_wait)%Q ->
      exists new t,
        video max_wait w =
          (Ret (dict_get b2 "video_url" VNone),
           World t (new ++ trace w)%list) /\
        queries new = 3%nat /\ sleeps new = [10; 10]%Q) /\
   (forall t0 b0,
      task_reports net id 0 t0 b0 ->
      b0 !! "status" = Some (VStr "failed") -> 0 < max_wait ->
      exists new t,
        video max_wait w = (Ret VNone, World t (new ++ trace w)%list) /\
        queries new = 1%nat /\ sleeps new = []) /\
   (forall start_time n w0,
      (inject_Z max_wait <= clock w0 - start_time)%Q ->
      video_loop start_time n w0 =
        (Ret VNone,
         World (clock w0) (Log WARNING "영상 생성 시간 초과" :: trace w0))) /\
   ((forall n,
       (exists t body s, task_reports net id n t body /\
                         body !! "status" = Some (VStr s) /\
                         pending "completed" "failed" s) \/
       (exists t e, query_raises net video_url n t e)) ->
    exists w1,
      video max_wait w =
        (Ret VNone,
         World (clock w1) (Log WARNING "영상 생성 시간 초과" :: trace w1)) /\
      (inject_Z max_wait <= clock w1 - clock w)%Q) /\
   (forall start_time n w0 t e,
      query_raises net video_url n t e ->
      (clock w0 - start_time < inject_Z max_wait)%Q ->
      video_loop start_time n w0 =
      video_loop start_time (S n)
        (World (clock w0 + seconds_of_ms t + 10)
           (Sleep 10 :: Log ERROR ("상태 확인 중 오류: " +:+ exn_str e)
            :: HttpGet video_url :: trace w0)))).
Proof.
  cbv zeta. split; [split; reflexivity|]. split.
  - split; [apply wait_for_upload_never_raises|].
    split; [|split; [|split; [|split]]].
    + intros t0 t1 t2 s0 s1 H0 P0 H1 P1 H2 Hd.
      rewrite (upload_finished_at_third_query net id max_wait w t0 t1 t2 s0 s1
                 H0 P0 H1 P1 H2 Hd).
      eexists [_; _; _; _; _; _], _. repeat split.
    + intros t0 H0 Hpos.
      rewrite (upload_error_at_first_query net id max_wait w t0 H0 Hpos).
      eexists [_; _], _. repeat split.
    + intros start_time n w0 Hle.
      apply (loop_late _ _ _ (upload_wait_loop_unfold net id) _ _ _ _ Hle).
    + apply upload_times_out.
    + intros start_time n w0 t e Hq Hlt.
      apply upload_query_error_goes_on; assumption.
  - split; [apply wait_for_video_never_raises|].
    split; [|split; [|split; [|split]]].
    + intros t0 t1 t2 b0 b1 b2 s0 s1 H0 S0 P0 H1 S1 P1 H2 S2 Hd.
      rewrite (video_completed_at_third_query net id max_wait w t0 t1 t2
                 b0 b1 b2 s0 s1 H0 S0 P0 H1 S1 P1 H2 S2 Hd).
      eexists [_; _; _; _; _], _. repeat split.
    + intros t0 b0 H0 S0 Hpos.
      rewrite (video_failed_at_first_query net id max_wait w t0 b0 H0 S0 Hpos).
      eexists [_; _], _. repeat split.
    + intros start_time n w0 Hle.
      apply (loop_late _ _ _ (video_wait_loop_unfold net id) _ _ _ _ Hle).
    + apply video_times_out.
    + intros start_time n w0 t e Hq Hlt.
      apply video_query_error_goes_on; assumption.
Qed.

(** A container that is in progress twice and then finished: the upload
    poller returns true after three queries and two sleeps of ten
    seconds. *)
Lemma upload_poll_of_three_answers :
  let net :=
    Examples.scripted_net "status_code" ["IN_PROGRESS"; "IN_PROGRESS"]
      "FINISHED" in
  exists new t,
    InstagramUploader._wait_for_upload_completion net "17900000000000000"
      InstagramUploader.max_wait_default Scenario.start
      = (Ret true, World t (new ++ [])%list) /\
    queries new = 3%nat /\ sleeps new = [10; 10]%Q.
Proof.
  cbv zeta.
  refine (proj1 (proj2 (proj1 (proj2
            (pollers_keep_interval_and_deadline
               (Examples.scripted_net "status_code"
                  ["IN_PROGRESS"; "IN_PROGRESS"] "FINISHED")
               "17900000000000000" InstagramUploader.max_wait_default
               Scenario.start))))
            250%N 250%N 250%N "IN_PROGRESS" "IN_PROGRESS" _ _ _ _ _ _).
  - eexists _, _. repeat split.
  - split; reflexivity.
  - eexists _, _. repeat split.
  - split; reflexivity.
  - eexists _, _. repeat split.
  - reflexivity.
Defined.

(** ** The parser of the script response *)

Lemma rfind_from_lower_bound c s i last :
  -1 <= last -> 0 <= i -> -1 <= rfind_from c s i last.
Proof.
  revert i last. induction s as [|c' s IH]; intros i last Hlast Hi; cbn.
  - exact Hlast.
  - apply IH; [destruct (Ascii.eqb c' c)|]; lia.
Qed.

Lemma end_idx_is_never_minus_one s c : (rfind s c + 1 =? -1) = false.
Proof.
  apply Z.eqb_neq. pose proof (rfind_from_lower_bound c s 0 (-1)).
  unfold rfind. lia.
Qed.


Lemma first_chars_prefix s n : String.prefix (first_chars s n) s = true.
Proof.
  unfold first_chars. revert n. induction s as [|c s IH]; intros [|n]; cbn;
    try reflexivity.
  destruct (ascii_dec c c); [apply IH | congruence].
Qed.




(** The response of the scenario that has no title is decoded to the
    script data without a title, and returned as such. *)
Example untitled_response_is_returned_as_decoded :
  GeminiHandler._parse_script_response Json.loads Scenario.untitled_response
    Scenario.start
  = (Ret (VDict Scenario.untitled_script), Scenario.start).
Proof. vm_compute. reflexivity. Qed.

(** A text that is no JSON gives the fallback. *)
Example prose_gives_the_fallback :
  GeminiHandler._parse_script_response Json.loads "Sorry, {no} script today."
    Scenario.start
  = (Ret (GeminiHandler._fallback_parse "Sorry, {no} script today."),
     Scenario.start).
Proof. vm_compute. reflexivity. Qed.

(** ** The scraper *)

Example product_url_is_valid :
  CoupangScraper._is_valid_coupang_url
    "https://www.coupang.com/vp/products/7654321?itemId=1" = true.
Proof. vm_compute. reflexivity. Qed.

Example search_url_is_valid :
  CoupangScraper._is_valid_coupang_url
    "http://coupang.com/np/search?q=widget" = true.
Proof. vm_compute. reflexivity. Qed.

Example product_url_needs_a_number :
  CoupangScraper._is_valid_coupang_url
    "https://www.coupang.com/vp/products/" = false.
Proof. vm_compute. reflexivity. Qed.

Example other_site_is_not_valid :
  CoupangScraper._is_valid_coupang_url "https://example.com/vp/products/1"
    = false.
Proof. vm_compute. reflexivity. Qed.

Ltac scrape :=
  cbv [try_except bind perform emit elapse lift ret raise logger_info
       logger_error];
  cbn [clock trace].

(** C10.  The scraper never raises.  On a URL that matches neither
    pattern it returns null, with nothing fetched; and when the request
    raises, when the status is an error, or when the page cannot be
    parsed, it returns null as well, with the error logged. *)
Theorem scraper_never_raises web url w :
  (exists r w', CoupangScraper.extract_product_info web url w = (Ret r, w')) /\
  (CoupangScraper._is_valid_coupang_url url = false ->
   CoupangScraper.extract_product_info web url w =
     (Ret None,
      World (clock w)
        (Log ERROR "상품 정보 추출 실패: 유효하지 않은 쿠팡 URL입니다"
         :: trace w))) /\
  (CoupangScraper._is_valid_coupang_url url = true ->
   let reply := CoupangScraper.session_get web url in
   let fetched := World (clock w + seconds_of_ms (took reply))
                    (HttpGet url :: trace w) in
   let failed (e : exn) :=
     (Ret None,
      World (clock fetched)
        (Log ERROR ("상품 정보 추출 실패: " +:+ exn_str e) :: trace fetched)) in
   (forall e, result reply = Raise e ->
      CoupangScraper.extract_product_info web url w = failed e) /\
   (forall page, result reply = Ret page ->
      (400 <=? CoupangScraper.page_status page)
      && (CoupangScraper.page_status page <? 600) = true ->
      CoupangScraper.extract_product_info web url w =
        failed (HTTPError (str_of_int (CoupangScraper.page_status page)))) /\
   (forall page e, result reply = Ret page ->
      (400 <=? CoupangScraper.page_status page)
      && (CoupangScraper.page_status page <? 600) = false ->
      CoupangScraper.page_soup page = Raise e ->
      CoupangScraper.extract_product_info web url w = failed e)).
Proof.
  unfold CoupangScraper.extract_product_info. split; [|split].
  - destruct (CoupangScraper._is_valid_coupang_url url); cbn [negb]; scrape;
      [|eauto].
    destruct (result _) as [page|e]; [|eauto].
    destruct (_ && _); [eauto|].
    destruct (CoupangScraper.page_soup page); eauto.
  - intros ->. reflexivity.
  - intros ->. cbv zeta. cbn [negb clock trace]. scrape. repeat split.
    + intros e ->. reflexivity.
    + intros page -> ->. reflexivity.
    + intros page e -> -> ->. reflexivity.
Qed.

(** * Further properties *)

(** ** The URLs the scraper takes *)

Lemma append_cons c (s t : string) : String c s +:+ t = String c (s +:+ t).
Proof. reflexivity. Qed.

Lemma append_empty_l (s : string) : "" +:+ s = s.
Proof. reflexivity. Qed.

Lemma append_empty_r (s : string) : s +:+ "" = s.
Proof.
  induction s as [|c s IH]; [reflexivity|].
  rewrite append_cons, IH. reflexivity.
Qed.

Lemma append_assoc (a b c : string) : (a +:+ b) +:+ c = a +:+ (b +:+ c).
Proof.
  induction a as [|x a IH]; [reflexivity|].
  rewrite !append_cons, IH. reflexivity.
Qed.














(** ** What the scraper returns *)





Lemma scraped_keys url soup :
  dom (scraped url soup) =
    {[ "title"; "price"; "original_price"; "rating"; "review_count";
       "description"; "images"; "url" ]}.
Proof. unfold scraped. rewrite !dom_insert_L, dom_empty_L. set_solver. Qed.

Lemma scrape_of_a_fetched_page web url w page soup :
  CoupangScraper._is_valid_coupang_url url = true ->
  result (CoupangScraper.session_get web url) = Ret page ->
  ok_status (CoupangScraper.page_status page) ->
  CoupangScraper.page_soup page = Ret soup ->
  CoupangScraper.extract_product_info web url w =
    (Ret (Some (scraped url soup)),
     World (clock w + seconds_of_ms (took (CoupangScraper.session_get web url)))
       (Log INFO ("상품 정보 추출 완료: " +:+ CoupangScraper._extract_title soup)
        :: HttpGet url :: trace w)).
Proof.
  intros Hvalid Hpage Hok Hsoup.
  unfold CoupangScraper.extract_product_info. rewrite Hvalid. cbn [negb].
  scrape. rewrite Hpage. unfold ok_status in Hok. rewrite Hok, Hsoup.
  reflexivity.
Qed.

(** A page that is fetched and parsed is never turned down: from a valid
    URL, a status that is no error and a page that parses, the scraper
    returns the eight fields, whatever the page holds, after one request
    and with one line logged. *)
Theorem scraper_returns_eight_fields web url w page soup :
  CoupangScraper._is_valid_coupang_url url = true ->
  result (CoupangScraper.session_get web url) = Ret page ->
  ok_status (CoupangScraper.page_status page) ->
  CoupangScraper.page_soup page = Ret soup ->
  CoupangScraper.extract_product_info web url w =
    (Ret (Some (scraped url soup)),
     World (clock w + seconds_of_ms (took (CoupangScraper.session_get web url)))
       (Log INFO ("상품 정보 추출 완료: " +:+ CoupangScraper._extract_title soup)
        :: HttpGet url :: trace w)) /\
  dom (scraped url soup) =
    {[ "title"; "price"; "original_price"; "rating"; "review_count";
       "description"; "images"; "url" ]} /\
  scraped url soup !! "url" = Some (VStr url) /\
  truthy (scraped url soup) = true.
Proof.
  intros Hvalid Hpage Hok Hsoup. split; [|split; [|split]].
  - apply (scrape_of_a_fetched_page web url w page soup); assumption.
  - apply scraped_keys.
  - unfold scraped. rewrite !lookup_insert_ne by discriminate.
    apply lookup_insert_eq.
  - unfold truthy, truthy_dict. rewrite scraped_keys.
    apply negb_true_iff, bool_decide_eq_false. set_solver.
Qed.

Lemma url_of_the_scenario_is_scraped :
  CoupangScraper.extract_product_info (page_of 200 blank_soup) Scenario.url
    Scenario.start =
    (Ret (Some (scraped Scenario.url blank_soup)),
     World (0 + seconds_of_ms 120)
       [Log INFO "상품 정보 추출 완료: 상품명 없음"; HttpGet Scenario.url]) /\
  scraped Scenario.url blank_soup !! "url" = Some (VStr Scenario.url).
Proof.
  pose proof (scraper_returns_eight_fields (page_of 200 blank_soup) Scenario.url
                Scenario.start _ blank_soup eq_refl eq_refl eq_refl eq_refl)
    as (H1 & _ & H2 & _).
  split; [exact H1 | exact H2].
Defined.

Lemma blank_page_is_scraped_to_placeholders url soup :
  (forall selector, CoupangScraper.select_one soup selector = None) ->
  (forall selector, CoupangScraper.select soup selector = []) ->
  scraped url soup = placeholders url /\
  CoupangScraper._extract_title soup = "상품명 없음".
Proof.
  intros Hone Hall.
  unfold scraped, placeholders, CoupangScraper._extract_title,
    CoupangScraper._extract_price, CoupangScraper._extract_original_price,
    CoupangScraper._extract_rating, CoupangScraper._extract_review_count,
    CoupangScraper._extract_description, CoupangScraper._extract_images.
  cbn [CoupangScraper.first_selected flat_map]. rewrite !Hone, !Hall.
  split; reflexivity.
Qed.

(** The scraper cannot tell a page without a product from a product: a
    page that is fetched and parsed and has none of the tags the scraper
    looks for gives the placeholders, logged as extracted, and they count
    as product information for the caller. *)
Theorem page_without_tags_gives_placeholders web url w page soup :
  CoupangScraper._is_valid_coupang_url url = true ->
  result (CoupangScraper.session_get web url) = Ret page ->
  ok_status (CoupangScraper.page_status page) ->
  CoupangScraper.page_soup page = Ret soup ->
  (forall selector, CoupangScraper.select_one soup selector = None) ->
  (forall selector, CoupangScraper.select soup selector = []) ->
  CoupangScraper.extract_product_info web url w =
    (Ret (Some (placeholders url)),
     World (clock w + seconds_of_ms (took (CoupangScraper.session_get web url)))
       (Log INFO "상품 정보 추출 완료: 상품명 없음" :: HttpGet url :: trace w)) /\
  truthy (placeholders url) = true.
Proof.
  intros Hvalid Hpage Hok Hsoup Hone Hall. split.
  - rewrite (scrape_of_a_fetched_page web url w page soup Hvalid Hpage Hok Hsoup).
    destruct (blank_page_is_scraped_to_placeholders url soup Hone Hall)
      as [-> ->].
    reflexivity.
  - unfold truthy, truthy_dict, placeholders.
    rewrite !dom_insert_L, dom_empty_L.
    apply negb_true_iff, bool_decide_eq_false. set_solver.
Qed.

Lemma blank_page_gives_placeholders :
  CoupangScraper.extract_product_info (page_of 200 blank_soup) Scenario.url
    Scenario.start =
    (Ret (Some (placeholders Scenario.url)),
     World (0 + seconds_of_ms 120)
       [Log INFO "상품 정보 추출 완료: 상품명 없음"; HttpGet Scenario.url]) /\
  truthy (placeholders Scenario.url) = true.
Proof.
  exact (page_without_tags_gives_placeholders (page_of 200 blank_soup)
           Scenario.url Scenario.start _ blank_soup eq_refl eq_refl eq_refl
           eq_refl (fun _ => eq_refl) (fun _ => eq_refl)).
Defined.

(** ** Whole runs of the orchestrator *)

Ltac timed :=
  do 2 eexists; split; [reflexivity|]; reflexivity.

Ltac timed_stage :=
  answer; run; [|timed];
  match goal with
  | o : option _ |- _ => destruct o as [?|]; [|timed]
  end;
  match goal with
  | |- context [if truthy ?a then _ else _] =>
      destruct (truthy a) eqn:?; [|timed]
  end.

(** The [processing_time] of a result, of either shape, is the reading of
    the clock when the run ended: a time of day, not the time the run
    took. *)
Theorem processing_time_is_the_time_of_day env url w :
  exists r w',
    Main.process_coupang_link env url w = (Ret r, w') /\
    r !! "processing_time" = Some (VFloat (clock w')).
Proof.
  unfold Main.process_coupang_link, Main.process_coupang_link_body. run.
  timed_stage. timed_stage.
  destruct (_ !! "script") as [script|]; run; [|timed].
  timed_stage.
  answer; run; [|timed].
  answer; run; [|timed].
  timed_stage.
  match goal with
  | |- context [Main._compose_final_video ?e ?v ?a ?s ?w0] =>
      destruct (compose_never_raises e v a s w0) as (r1 & w1 & ->)
  end.
  destruct r1 as [final_video_path|]; [|timed].
  destruct (truthy final_video_path); [|timed].
  match goal with
  | |- context [Main._upload_to_social_media ?e ?v ?s ?w0] =>
      destruct (upload_never_raises e v s w0) as (r2 & w2 & ->)
  end.
  timed.
Qed.

Lemma calls_app a b : calls (a ++ b) = (calls b ++ calls a)%list.
Proof. unfold calls. rewrite reverse_app, omap_app. reflexivity. Qed.

Lemma calls_cons e t :
  calls (e :: t) =
    (calls t ++ match e with Call c => [c] | _ => [] end)%list.
Proof.
  change (e :: t) with ([e] ++ t)%list. rewrite calls_app.
  destruct e; reflexivity.
Qed.

Ltac made_calls :=
  cbn [trace]; rewrite ?calls_cons, ?calls_app; cbn [trace];
  rewrite <- ?app_assoc; cbn [app]; rewrite ?app_nil_r.

Lemma compose_calls env video_path audio_path subtitle_path w :
  exists r w',
    Main._compose_final_video env video_path audio_path subtitle_path w
      = (Ret r, w') /\
    (calls (trace w') = calls (trace w) \/
     calls (trace w') =
       (calls (trace w) ++ [SubtitleGen_add_subtitles_to_video])%list).
Proof.
  unfold Main._compose_final_video. run.
  answer; [|eexists _, _; split; [reflexivity|]; left; made_calls; reflexivity].
  destruct (Main.if_path audio_path); run;
    [answer; [|eexists _, _; split; [reflexivity|]; left; made_calls; reflexivity]|];
    (destruct (Main.if_path subtitle_path);
     [destruct (Main.os_path_exists env _)|]; run;
     repeat (answer; run);
     eexists _, _; (split; [reflexivity|]); made_calls;
     first [left; reflexivity | right; reflexivity]).
Qed.

Lemma upload_calls env video_path script_data w :
  exists results w' made,
    Main._upload_to_social_media env video_path script_data w
      = (Ret results, w') /\
    calls (trace w') = (calls (trace w) ++ made)%list /\
    made `prefix_of` [Instagram_upload_video; YouTube_upload_video].
Proof.
  destruct (upload_cases env video_path script_data w)
    as (results & new & w' & Hrun & Htrace & Hcases).
  exists results, w', (calls new). split; [exact Hrun|].
  split; [rewrite Htrace; apply calls_app|].
  destruct (script_data !! "description"); [|destruct Hcases as [_ ->]; eexists; reflexivity].
  destruct (result _); [|destruct Hcases as [_ ->]; eexists; reflexivity].
  cbv zeta in Hcases.
  destruct (script_data !! "title"); [|destruct Hcases as [_ ->]; eexists; reflexivity].
  destruct (result _); destruct Hcases as [_ ->]; eexists; reflexivity.
Qed.

Ltac in_order :=
  do 2 eexists; split; [reflexivity|]; made_calls;
  first [ eexists _, false; split; [reflexivity | eexists; reflexivity]
        | eexists _, true; split; [reflexivity | eexists; reflexivity] ].

Ltac ordered_stage :=
  answer; run; [|in_order];
  match goal with
  | o : option _ |- _ => destruct o as [?|]; [|in_order]
  end;
  match goal with
  | |- context [if truthy ?a then _ else _] =>
      destruct (truthy a) eqn:?; [|in_order]
  end.

(** Whatever happens in a run, the collaborators are called in the order
    of the stages, each at most once, none before the one that precedes
    it: the calls a run makes are a prefix of the pipeline. *)
Theorem calls_follow_the_pipeline env url w :
  exists r w',
    Main.process_coupang_link env url w = (Ret r, w') /\
    exists made with_subtitles,
      calls (trace w') = (calls (trace w) ++ made)%list /\
      made `prefix_of` pipeline_calls with_subtitles.
Proof.
  unfold Main.process_coupang_link, Main.process_coupang_link_body. run.
  ordered_stage. ordered_stage.
  destruct (_ !! "script") as [script|]; run; [|in_order].
  ordered_stage.
  answer; run; [|in_order].
  answer; run; [|in_order].
  ordered_stage.
  match goal with
  | |- context [Main._compose_final_video ?e ?v ?a ?s ?w0] =>
      destruct (compose_calls e v a s w0) as (r1 & w1 & -> & Hc1)
  end.
  revert Hc1. made_calls. intros Hc1.
  assert (Hfailed : forall e : exn,
            exists made with_subtitles,
              calls (Log ERROR ("처리 중 오류 발생: " +:+ exn_str e) :: trace w1)
                = (calls (trace w) ++ made)%list /\
              made `prefix_of` pipeline_calls with_subtitles).
  { intros e. made_calls.
    destruct Hc1 as [-> | ->];
      [eexists _, false | eexists _, true];
      (split; [reflexivity | eexists; reflexivity]). }
  destruct r1 as [final_video_path|];
    [|do 2 eexists; split; [reflexivity | apply Hfailed]].
  destruct (truthy final_video_path);
    [|do 2 eexists; split; [reflexivity | apply Hfailed]].
  match goal with
  | |- context [Main._upload_to_social_media ?e ?v ?s ?w0] =>
      destruct (upload_calls e v s w0) as (r2 & w2 & made2 & -> & Hc2 & [k Hk])
  end.
  revert Hc2. made_calls. intros Hc2.
  do 2 eexists. split; [reflexivity|]. made_calls. rewrite Hc2.
  destruct Hc1 as [-> | ->]; rewrite <- ?app_assoc; cbn [app];
    [eexists _, false | eexists _, true];
    (split; [reflexivity|]); exists k; unfold pipeline_calls; cbn [app];
    rewrite Hk; reflexivity.
Qed.




Lemma length_append (a b : string) :
  String.length (a +:+ b) = (String.length a + String.length b)%nat.
Proof.
  induction a as [|c a IH]; [reflexivity|].
  rewrite append_cons. cbn [String.length]. rewrite IH. reflexivity.
Qed.





(** ** The shapes of the upload results *)

(** The results of the publisher have one of three shapes: an entry for
    each target; the entry of Instagram and an error; or an error alone.
    So the entry of YouTube is never there without that of Instagram, and
    there is an error exactly when the entry of YouTube is missing. *)
Theorem upload_results_have_three_shapes env video_path script_data w :
  exists results w',
    Main._upload_to_social_media env video_path script_data w
      = (Ret results, w') /\
    (dom results = {[ "instagram"; "youtube" ]} \/
     dom results = {[ "instagram"; "error" ]} \/
     dom results = {[ "error" ]}) /\
    ("youtube" ∈ dom results -> "instagram" ∈ dom results) /\
    ("error" ∈ dom results <-> "youtube" ∉ dom results).
Proof.
  destruct (upload_cases env video_path script_data w)
    as (results & new & w' & Hrun & _ & Hcases).
  exists results, w'. split; [exact Hrun|].
  assert (Hdom : dom results = {[ "instagram"; "youtube" ]} \/
                 dom results = {[ "instagram"; "error" ]} \/
                 dom results = {[ "error" ]}).
  { destruct (script_data !! "description").
    2: { destruct Hcases as [-> _]. right. right.
         rewrite dom_insert_L, dom_empty_L. set_solver. }
    destruct (result _).
    2: { destruct Hcases as [-> _]. right. right.
         rewrite dom_insert_L, dom_empty_L. set_solver. }
    cbv zeta in Hcases. destruct (script_data !! "title").
    2: { destruct Hcases as [-> _]. right. left.
         rewrite !dom_insert_L, dom_empty_L. set_solver. }
    destruct (result _); destruct Hcases as [-> _]; [left | right; left];
      rewrite !dom_insert_L, dom_empty_L; set_solver. }
  split; [exact Hdom|].
  destruct Hdom as [-> | [-> | ->]];
    rewrite ?elem_of_union, ?elem_of_singleton; intuition discriminate.
Qed.

(** ** The queries of the pollers *)

Lemma time_left_drops max_wait start_time w w' :
  (clock w - start_time < inject_Z max_wait)%Q ->
  (clock w + 10 <= clock w')%Q ->
  (most_queries (time_left max_wait start_time w') + 1
   <= most_queries (time_left max_wait start_time w))%nat.
Proof.
  intros Hlt Hadv. unfold time_left.
  generalize (inject_Z max_wait) (clock w) (clock w') Hlt Hadv.
  clear. intros M c c' Hlt Hadv. rename start_time into s.
  pose proof (Qle_ceiling (M - (c - s))) as Hx.
  pose proof (Qceiling_lt (M - (c' - s))) as Hy.
  set (a := Qceiling (M - (c - s))) in *.
  set (b := Qceiling (M - (c' - s))) in *.
  clearbody a b.
  unfold Z.sub in Hy. rewrite inject_Z_plus, inject_Z_opp in Hy.
  change (inject_Z 1) with 1%Q in Hy.
  assert (H0 : (0 < a)%Z).
  { rewrite Zlt_Qlt. change (inject_Z 0) with 0%Q. lra. }
  assert (H1 : (b + 9 < a)%Z).
  { rewrite Zlt_Qlt, inject_Z_plus. change (inject_Z 9) with 9%Q. lra. }
  unfold most_queries.
  destruct (Z_le_gt_dec b 0) as [Hb|Hb].
  - replace (Z.to_nat b) with 0%nat by lia.
    change ((0 + 9) / 10)%nat with 0%nat.
    assert (10 <= Z.to_nat a + 9)%nat by lia.
    pose proof (Nat.Div0.div_le_mono 10 (Z.to_nat a + 9) 10 H) as Hd.
    change (10 / 10)%nat with 1%nat in Hd. lia.
  - assert (Z.to_nat b + 9 + 1 * 10 <= Z.to_nat a + 9)%nat as H by lia.
    pose proof (Nat.Div0.div_le_mono _ _ 10 H) as Hd.
    rewrite Nat.div_add in Hd by lia. lia.
Qed.

Section QueriesOfALoop.

Context {R : Type}.
Variable turn : nat -> M (option R).
Variable late : M R.
Variable loop : Z -> Q -> nat -> world -> outcome R * world.

Hypothesis loop_unfold : forall max_wait start_time n w,
  loop max_wait start_time n w =
    if Qlt_le_dec (clock w - start_time) (inject_Z max_wait) then
      match turn n w with
      | (Ret (Some r), w') => (Ret r, w')
      | (Ret None, w') => loop max_wait start_time (S n) w'
      | (Raise e, w') => (Raise e, w')
      end
    else late w.

Hypothesis turn_advances : forall n w w',
  turn n w = (Ret None, w') -> (clock w + 10 <= clock w')%Q.

Hypothesis turn_queries : forall n w,
  queries (trace (snd (turn n w))) = S (queries (trace w)).

Hypothesis late_queries : forall w,
  queries (trace (snd (late w))) = queries (trace w).

Lemma loop_queries max_wait start_time n w :
  (queries (trace (snd (loop max_wait start_time n w)))
   <= queries (trace w) + most_queries (time_left max_wait start_time w))%nat.
Proof.
  remember (time_left max_wait start_time w) as k eqn:Hk.
  revert n w Hk. induction k as [k IH] using lt_wf_ind. intros n w Hk.
  rewrite loop_unfold. destruct (Qlt_le_dec _ _) as [Hlt|_].
  2: { rewrite late_queries. lia. }
  pose proof (turn_queries n w) as Hq.
  destruct (turn n w) as [[[r|]|e] w'] eqn:E; cbn [snd] in Hq |- *.
  - assert (1 <= most_queries k)%nat; [|lia].
    subst k. unfold most_queries, time_left.
    pose proof (Qle_ceiling (inject_Z max_wait - (clock w - start_time))) as Hx.
    assert (0 < Qceiling (inject_Z max_wait - (clock w - start_time)))%Z.
    { rewrite Zlt_Qlt. change (inject_Z 0) with 0%Q. lra. }
    assert (10 <= Z.to_nat (Qceiling (inject_Z max_wait - (clock w - start_time))) + 9)%nat
      as H10 by lia.
    pose proof (Nat.Div0.div_le_mono _ _ 10 H10) as Hd.
    change (10 / 10)%nat with 1%nat in Hd. exact Hd.
  - pose proof (turn_advances _ _ _ E) as Hadv.
    pose proof (time_left_drops max_wait start_time w w' Hlt Hadv) as Hdrop.
    pose proof (time_left_decreases max_wait start_time w w' Hlt Hadv) as Hdec.
    specialize (IH (time_left max_wait start_time w')).
    rewrite <- Hk in Hdec. specialize (IH Hdec (S n) w' eq_refl).
    subst k. lia.
  - assert (1 <= most_queries k)%nat; [|lia].
    subst k. unfold most_queries, time_left.
    pose proof (Qle_ceiling (inject_Z max_wait - (clock w - start_time))) as Hx.
    assert (0 < Qceiling (inject_Z max_wait - (clock w - start_time)))%Z.
    { rewrite Zlt_Qlt. change (inject_Z 0) with 0%Q. lra. }
    assert (10 <= Z.to_nat (Qceiling (inject_Z max_wait - (clock w - start_time))) + 9)%nat
      as H10 by lia.
    pose proof (Nat.Div0.div_le_mono _ _ 10 H10) as Hd.
    change (10 / 10)%nat with 1%nat in Hd. exact Hd.
Qed.

End QueriesOfALoop.

Lemma time_left_at_start max_wait w :
  time_left max_wait (clock w) w = Z.to_nat max_wait.
Proof.
  unfold time_left. f_equal.
  rewrite <- (Qceiling_Z max_wait) at 2. apply Qceiling_comp. ring.
Qed.

Lemma poll_container_queries net id n w :
  queries (trace (snd (InstagramUploader.poll_container net id n w)))
  = S (queries (trace w)).
Proof.
  unfold InstagramUploader.poll_container, get.
  destruct (requests_get net _ n) as [t [response|e0]]; turn; [|reflexivity].
  destruct ((400 <=? _) && _); [reflexivity|].
  destruct (json response) as [[]|]; try reflexivity;
    repeat match goal with
           | |- context [if ?b then _ else _] => destruct b
           end; reflexivity.
Qed.

Lemma poll_task_queries net id n w :
  queries (trace (snd (VideoGenerator.poll_task net id n w)))
  = S (queries (trace w)).
Proof.
  unfold VideoGenerator.poll_task, get.
  destruct (requests_get net _ n) as [t [response|e0]]; turn; [|reflexivity].
  destruct (status_code response =? 200); [|reflexivity].
  destruct (json response) as [[]|]; try reflexivity;
    repeat match goal with
           | |- context [if ?b then _ else _] => destruct b
           end; reflexivity.
Qed.

(** Neither poller asks more often than once in ten seconds of its wait,
    whatever the network answers and however fast: a wait of [max_wait]
    seconds makes at most [max_wait / 10] queries, rounded up, and none at
    all when [max_wait] is zero or less. *)
Theorem pollers_query_at_most_every_ten_seconds net id max_wait w :
  let upload := InstagramUploader._wait_for_upload_completion net id max_wait w in
  let video := VideoGenerator._wait_for_video_completion net id max_wait w in
  (queries (trace (snd upload))
   <= queries (trace w) + most_queries (Z.to_nat max_wait))%nat /\
  (queries (trace (snd video))
   <= queries (trace w) + most_queries (Z.to_nat max_wait))%nat /\
  most_queries (Z.to_nat InstagramUploader.max_wait_default) = 30%nat /\
  most_queries (Z.to_nat VideoGenerator.max_wait_default) = 30%nat /\
  (max_wait <= 0 -> most_queries (Z.to_nat max_wait) = 0%nat).
Proof.
  cbv zeta. split; [|split; [|split; [|split]]].
  - unfold InstagramUploader._wait_for_upload_completion, bind, time_time.
    rewrite <- (time_left_at_start max_wait w).
    apply (loop_queries _ _ _ (upload_wait_loop_unfold net id)
             (InstagramUploader.poll_container_advances net id)
             (poll_container_queries net id)).
    intros w0. reflexivity.
  - unfold VideoGenerator._wait_for_video_completion, bind, time_time.
    rewrite <- (time_left_at_start max_wait w).
    apply (loop_queries _ _ _ (video_wait_loop_unfold net id)
             (VideoGenerator.poll_task_advances net id)
             (poll_task_queries net id)).
    intros w0. reflexivity.
  - reflexivity.
  - reflexivity.
  - intros H. replace (Z.to_nat max_wait) with 0%nat by lia. reflexivity.
Qed.

(** ** The script and prompt generators *)

Lemma find_from_spec c s i :
  (find_from c s i = -1 /\ lacks c s = true) \/
  (exists before rest,
     s = before +:+ String c rest /\ lacks c before = true /\
     find_from c s i = i + Z.of_nat (String.length before)) \/
  i < 0.
Proof.
  destruct (Z_lt_ge_dec i 0) as [Hneg|Hi]; [right; right; exact Hneg|].
  revert i Hi. induction s as [|x s IH]; intros i Hi; cbn [find_from].
  - left. split; reflexivity.
  - destruct (Ascii.eqb_spec x c) as [->|Hne].
    + right. left. exists "", s. repeat split. cbn. lia.
    + destruct (IH (i + 1) ltac:(lia)) as [[E L] | [(before & rest & -> & L & E) | Hneg]];
        [| |lia].
      * left. split; [exact E|]. unfold lacks. cbn [all_chars].
        fold (lacks c s). rewrite L.
        destruct (Ascii.eqb_spec x c); [contradiction | reflexivity].
      * right. left. exists (String x before), rest.
        split; [reflexivity|]. split.
        -- unfold lacks. cbn [all_chars]. fold (lacks c before). rewrite L.
           destruct (Ascii.eqb_spec x c); [contradiction | reflexivity].
        -- rewrite E. cbn [String.length]. lia.
Qed.

Lemma rfind_from_spec c s i last :
  (rfind_from c s i last = last /\ lacks c s = true) \/
  (exists before rest,
     s = before +:+ String c rest /\ lacks c rest = true /\
     rfind_from c s i last = i + Z.of_nat (String.length before)).
Proof.
  revert i last. induction s as [|x s IH]; intros i last; cbn [rfind_from].
  - left. split; reflexivity.
  - destruct (IH (i + 1) (if Ascii.eqb x c then i else last))
      as [[E L] | (before & rest & -> & L & E)].
    + destruct (Ascii.eqb_spec x c) as [->|Hne].
      * right. exists "", s. split; [reflexivity|]. split; [exact L|].
        rewrite E. cbn. lia.
      * left. split; [exact E|]. unfold lacks. cbn [all_chars].
        fold (lacks c s). rewrite L.
        destruct (Ascii.eqb_spec x c); [contradiction | reflexivity].
    + right. exists (String x before), rest.
      split; [reflexivity|]. split; [exact L|].
      rewrite E. cbn [String.length]. lia.
Qed.

Lemma substring_skip (a b : string) n :
  substring (String.length a) n (a +:+ b) = substring 0 n b.
Proof.
  induction a as [|x a IH]; [reflexivity|].
  rewrite append_cons. cbn [String.length substring]. exact IH.
Qed.

Lemma substring_whole (a b : string) :
  substring 0 (String.length a) (a +:+ b) = a.
Proof.
  induction a as [|x a IH]; [destruct b; reflexivity|].
  rewrite append_cons. cbn [String.length substring]. f_equal. exact IH.
Qed.

Lemma substring_none n (s : string) : substring n 0 s = "".
Proof.
  revert n. induction s as [|x s IH]; intros [|n]; cbn [substring];
    try reflexivity. apply IH.
Qed.

Lemma append_split (a x b y : string) :
  a +:+ x = b +:+ y ->
  (String.length a < String.length b)%nat ->
  exists m, b = a +:+ m /\ x = m +:+ y /\ m <> "".
Proof.
  revert b. induction a as [|c a IH]; intros [|c' b] H Hlen;
    cbn [String.length] in Hlen; try lia.
  - exists (String c' b). rewrite append_empty_l in H. repeat split; [exact H | discriminate].
  - rewrite !append_cons in H. injection H as -> H.
    destruct (IH b H ltac:(lia)) as (m & -> & -> & Hm).
    exists m. repeat split. exact Hm.
Qed.

(** The text between the first [open] and the last [close] of a text
    that has an [open]: nothing when no [close] follows that first
    [open]; otherwise the text from the one to the other, both
    included. *)
Lemma part_between text open close :
  open <> close ->
  find text open <> -1 ->
  let part := slice text (find text open) (rfind text close + 1) in
  (part = "" /\ rfind text close < find text open) \/
  (exists before inner after,
     text = before +:+ part +:+ after /\
     part = String open inner +:+ String close "" /\
     lacks open before = true /\ lacks close after = true).
Proof.
  intros Hne Hfound. cbv zeta. unfold find, rfind in *.
  destruct (find_from_spec open text 0)
    as [[E _] | [(before & rest & Htext & Lb & Ei) | Hneg]]; [congruence| |lia].
  destruct (rfind_from_spec close text 0 (-1))
    as [[Ej _] | (pre & after & Htext' & La & Ej)].
  - left. rewrite Ej, Ei. unfold slice.
    replace (Z.to_nat (-1 + 1 - _)) with 0%nat by lia.
    split; [apply substring_none | lia].
  - rewrite Ei, Ej. unfold slice.
    destruct (Nat.lt_trichotomy (String.length before) (String.length pre))
      as [Hlt | [Heq | Hgt]].
    + right. rewrite Htext in Htext'.
      destruct (append_split _ _ _ _ Htext' Hlt) as (m & -> & Hrest & Hm).
      destruct m as [|x inner]; [congruence|]. rewrite append_cons in Hrest.
      injection Hrest as <- ->.
      exists before, inner, after.
      replace (Z.to_nat (0 + Z.of_nat (String.length before)))
        with (String.length before) by lia.
      rewrite length_append. cbn [String.length].
      replace (Z.to_nat _)
        with (String.length (String open inner +:+ String close "")).
      2: { rewrite length_append. cbn [String.length]. lia. }
      rewrite Htext, substring_skip.
      replace (String open (inner +:+ String close after))
        with ((String open inner +:+ String close "") +:+ after)
        by (rewrite append_assoc; reflexivity).
      rewrite substring_whole. repeat split; assumption.
    + exfalso. rewrite Htext in Htext'.
      assert (before = pre /\ String open rest = String close after) as [_ H].
      { clear -Htext' Heq. revert pre Htext' Heq.
        induction before as [|x b IH]; intros [|y p] H Hl;
          cbn [String.length] in Hl; try lia.
        - split; [reflexivity | exact H].
        - rewrite !append_cons in H. injection H as -> H.
          destruct (IH p H ltac:(lia)) as [-> ->]. split; reflexivity. }
      congruence.
    + left. split; [|lia].
      replace (Z.to_nat (0 + Z.of_nat (String.length pre) + 1
                         - (0 + Z.of_nat (String.length before))))
        with 0%nat by lia.
      apply substring_none.
Qed.

(** What the parser of the script response hands to [json.loads] when
    the text has an opening brace: the text from the first opening brace
    to the last closing one, both included, or the empty text when no
    closing brace follows that opening brace; and [json.loads] rejecting
    the empty text, as it does, the latter gives the fallback. *)
Theorem parser_decodes_first_brace_to_last json_loads response_text w :
  find response_text "{" <> -1 ->
  let json_text :=
    slice response_text (find response_text "{") (rfind response_text "}" + 1) in
  let fallback := GeminiHandler._fallback_parse response_text in
  GeminiHandler._parse_script_response json_loads response_text w =
    match json_loads json_text with
    | Ret decoded => (Ret decoded, w)
    | Raise e =>
        if String.eqb (exn_class e) "JSONDecodeError"
        then (Ret fallback, w)
        else (Raise e, w)
    end /\
  ((json_text = "" /\ rfind response_text "}" < find response_text "{") \/
   (exists before inner after,
      response_text = before +:+ json_text +:+ after /\
      json_text = String "{" inner +:+ "}" /\
      lacks "{" before = true /\ lacks "}" after = true)) /\
  (forall msg,
     json_loads "" = Raise (JSONDecodeError msg) ->
     rfind response_text "}" < find response_text "{" ->
     GeminiHandler._parse_script_response json_loads response_text w
       = (Ret fallback, w)).
Proof.
  intros Hfound. cbv zeta.
  assert (Hrun :
    GeminiHandler._parse_script_response json_loads response_text w =
      match json_loads (slice response_text (find response_text "{")
                          (rfind response_text "}" + 1)) with
      | Ret decoded => (Ret decoded, w)
      | Raise e =>
          if String.eqb (exn_class e) "JSONDecodeError"
          then (Ret (GeminiHandler._fallback_parse response_text), w)
          else (Raise e, w)
      end).
  { unfold GeminiHandler._parse_script_response.
    rewrite end_idx_is_never_minus_one, andb_true_r.
    apply Z.eqb_neq in Hfound. rewrite Hfound. cbn [negb].
    unfold try_except_class, lift, ret.
    destruct (json_loads _) as [v|e]; reflexivity. }
  pose proof (part_between response_text "{" "}" ltac:(discriminate) Hfound)
    as Hpart.
  cbv zeta in Hpart.
  split; [exact Hrun|]. split; [exact Hpart|].
  intros msg Hempty Hlt. rewrite Hrun.
  destruct Hpart as [[-> _] | (before & inner & after & Htext & Hjson & Lb & La)].
  - rewrite Hempty. reflexivity.
  - exfalso. revert Hjson. unfold slice.
    replace (Z.to_nat (rfind response_text "}" + 1 - find response_text "{"))
      with 0%nat by lia.
    rewrite substring_none. discriminate.
Qed.

(** A text whose only closing brace comes before its opening brace: the
    decoder is handed the empty text, and the parser returns the
    fallback. *)
Lemma braces_the_wrong_way_round :
  GeminiHandler._parse_script_response Json.loads "} and {" Scenario.start
    = (Ret (GeminiHandler._fallback_parse "} and {"), Scenario.start).
Proof.
  refine (proj2 (proj2 (parser_decodes_first_brace_to_last Json.loads "} and {"
                          Scenario.start _))
            "Expecting value" eq_refl _).
  - vm_compute. discriminate.
  - vm_compute. reflexivity.
Defined.

Ltac run_gemini :=
  cbv [GeminiHandler.generate_video_script GeminiHandler._create_script_prompt
       try_except bind perform emit elapse lift ret raise getitem
       logger_info logger_error];
  cbn [clock trace].

(** The script generator never raises.  When the product lacks one of
    the five fields of the prompt, it returns null with the first missing
    field logged, and the language model is not asked at all; otherwise
    the model is asked once, with the prompt made of the five fields, and
    the generator returns null when the model or the parser raises, and
    what the parser returns otherwise. *)
Theorem script_generation_cases
    json_loads generate_content format_other product_info w :
  let generate := GeminiHandler.generate_video_script json_loads in
  let failed (e : exn) (w1 : world) : outcome (option value) * world :=
    (Ret None,
     World (clock w1) (Log ERROR ("스크립트 생성 실패: " +:+ exn_str e) :: trace w1)) in
  (exists r w',
     generate generate_content format_other product_info w = (Ret r, w')) /\
  ((exists key, key ∈ prompt_fields /\ product_info !! key = None) ->
   exists missing,
     missing ∈ prompt_fields /\ product_info !! missing = None /\
     forall any_model,
       generate any_model format_other product_info w
         = failed (KeyError missing) w) /\
  (forall title price rating review_count description,
     product_info !! "title" = Some title ->
     product_info !! "price" = Some price ->
     product_info !! "rating" = Some rating ->
     product_info !! "review_count" = Some review_count ->
     product_info !! "description" = Some description ->
     let print := format_with format_other in
     let answer :=
       generate_content
         (GeminiHandler.script_prompt (print title) (print price)
            (print rating) (print review_count) (print description)) in
     let answered := World (clock w + seconds_of_ms (took answer)) (trace w) in
     generate generate_content format_other product_info w =
       match result answer with
       | Raise e => failed e answered
       | Ret response_text =>
           match GeminiHandler._parse_script_response json_loads response_text
                   answered with
           | (Ret script_data, w1) =>
               (Ret (Some script_data),
                World (clock w1) (Log INFO "영상 스크립트 생성 완료" :: trace w1))
           | (Raise e, w1) => failed e w1
           end
       end).
Proof.
  cbv zeta. split; [|split].
  - run_gemini.
    repeat match goal with
           | |- context [product_info !! ?k] => destruct (product_info !! k)
           end; eauto.
    destruct (result _) as [text|e]; [|eauto].
    destruct (GeminiHandler._parse_script_response _ _ _) as [[?|?] ?]; eauto.
  - intros (key & Hin & Hnone).
    destruct (product_info !! "title") eqn:E1;
      [|exists "title"; split; [repeat constructor|]; split; [exact E1|];
        intros any; run_gemini; rewrite E1; reflexivity].
    destruct (product_info !! "price") eqn:E2;
      [|exists "price"; split; [repeat constructor|]; split; [exact E2|];
        intros any; run_gemini; rewrite E1, E2; reflexivity].
    destruct (product_info !! "rating") eqn:E3;
      [|exists "rating"; split; [repeat constructor|]; split; [exact E3|];
        intros any; run_gemini; rewrite E1, E2, E3; reflexivity].
    destruct (product_info !! "review_count") eqn:E4;
      [|exists "review_count"; split; [repeat constructor|]; split; [exact E4|];
        intros any; run_gemini; rewrite E1, E2, E3, E4; reflexivity].
    destruct (product_info !! "description") eqn:E5;
      [|exists "description"; split; [repeat constructor|]; split; [exact E5|];
        intros any; run_gemini; rewrite E1, E2, E3, E4, E5; reflexivity].
    exfalso. unfold prompt_fields in Hin.
    repeat (apply elem_of_cons in Hin as [-> | Hin]; [congruence|]).
    inversion Hin.
  - intros title price rating review_count description E1 E2 E3 E4 E5.
    run_gemini. rewrite E1, E2, E3, E4, E5.
    destruct (result _) as [text|e]; [|reflexivity].
    destruct (GeminiHandler._parse_script_response _ _ _) as [[?|?] ?];
      reflexivity.
Qed.

(** What the scraper returns can always be made into a prompt: the five
    fields are there, as strings, whatever the page, so that the script
    generator goes on to ask the model, with the fields as the scraper
    extracted them. *)
Theorem scraped_product_reaches_the_model
    json_loads generate_content format_other url soup w :
  let answer :=
    generate_content
      (GeminiHandler.script_prompt
         (CoupangScraper._extract_title soup)
         (CoupangScraper._extract_price soup)
         (CoupangScraper._extract_rating soup)
         (CoupangScraper._extract_review_count soup)
         (CoupangScraper._extract_description soup)) in
  let answered := World (clock w + seconds_of_ms (took answer)) (trace w) in
  GeminiHandler._create_script_prompt format_other (scraped url soup) w =
    (Ret (GeminiHandler.script_prompt
            (CoupangScraper._extract_title soup)
            (CoupangScraper._extract_price soup)
            (CoupangScraper._extract_rating soup)
            (CoupangScraper._extract_review_count soup)
            (CoupangScraper._extract_description soup)), w) /\
  GeminiHandler.generate_video_script json_loads generate_content format_other
    (scraped url soup) w =
    match result answer with
    | Raise e =>
        (Ret None,
         World (clock answered)
           (Log ERROR ("스크립트 생성 실패: " +:+ exn_str e) :: trace answered))
    | Ret response_text =>
        match GeminiHandler._parse_script_response json_loads response_text
                answered with
        | (Ret script_data, w1) =>
            (Ret (Some script_data),
             World (clock w1) (Log INFO "영상 스크립트 생성 완료" :: trace w1))
        | (Raise e, w1) =>
            (Ret None,
             World (clock w1)
               (Log ERROR ("스크립트 생성 실패: " +:+ exn_str e) :: trace w1))
        end
    end.
Proof.
  cbv zeta. split; [reflexivity|].
  unfold GeminiHandler.generate_video_script. unfold try_except at 1.
  unfold bind at 1.
  change (GeminiHandler._create_script_prompt format_other (scraped url soup) w)
    with (Ret (GeminiHandler.script_prompt
                 (CoupangScraper._extract_title soup)
                 (CoupangScraper._extract_price soup)
                 (CoupangScraper._extract_rating soup)
                 (CoupangScraper._extract_review_count soup)
                 (CoupangScraper._extract_description soup)), w).
  cbv [bind perform elapse lift ret logger_info logger_error emit].
  cbn [clock trace].
  destruct (result _) as [text|e]; [|reflexivity].
  destruct (GeminiHandler._parse_script_response _ _ _) as [[?|?] ?];
    reflexivity.
Qed.

Ltac run_prompts :=
  cbv [GeminiHandler.generate_image_prompts try_except bind perform emit
       elapse lift ret raise logger_info logger_error];
  cbn [clock trace].

Lemma parse_prompts_without_bracket json_loads response_text w :
  find response_text "[" = -1 ->
  GeminiHandler._parse_prompts_response json_loads response_text w
    = (Ret GeminiHandler.default_prompts, w).
Proof.
  intros H. unfold GeminiHandler._parse_prompts_response. rewrite H.
  reflexivity.
Qed.

(** The generator of the image prompts never raises and has two
    defaults: when the model or [json.dumps] raises, it returns the one
    prompt of its handler, with the error logged; when the model answers a
    text with no opening bracket, it returns the one prompt of its parser,
    and logs that one prompt was generated. *)
Theorem image_prompts_have_two_defaults
    json_loads json_dumps generate_content format_other script_data w :
  let generate :=
    GeminiHandler.generate_image_prompts json_loads json_dumps
      generate_content format_other script_data in
  let handler_default :=
    VList [VStr "product showcase, professional lighting, high quality"] in
  let parser_default :=
    VList [VStr "professional product photography, high quality, commercial use"] in
  (exists prompts w', generate w = (Ret prompts, w')) /\
  (forall e,
     json_dumps (dict_get script_data "video_scenes" (VList [])) = Raise e ->
     generate w =
       (Ret handler_default,
        World (clock w)
          (Log ERROR ("이미지 프롬프트 생성 실패: " +:+ exn_str e) :: trace w))) /\
  (forall video_scenes,
     json_dumps (dict_get script_data "video_scenes" (VList []))
       = Ret video_scenes ->
     let answer :=
       generate_content
         (GeminiHandler.image_prompts_prompt
            (format_with format_other (dict_get script_data "script" (VStr "")))
            video_scenes) in
     let answered := World (clock w + seconds_of_ms (took answer)) (trace w) in
     (forall e,
        result answer = Raise e ->
        generate w =
          (Ret handler_default,
           World (clock answered)
             (Log ERROR ("이미지 프롬프트 생성 실패: " +:+ exn_str e)
              :: trace answered))) /\
     (forall response_text,
        result answer = Ret response_text ->
        find response_text "[" = -1 ->
        generate w =
          (Ret parser_default,
           World (clock answered)
             (Log INFO "이미지 프롬프트 1개 생성 완료" :: trace answered)))).
Proof.
  cbv zeta. split; [|split].
  - run_prompts. destruct (json_dumps _) as [scenes|e]; [|eauto].
    destruct (result _) as [text|e]; [|eauto].
    destruct (GeminiHandler._parse_prompts_response _ _ _) as [[p|e] w1];
      [|eauto].
    destruct p; cbn [py_len]; run_prompts; eauto.
  - intros e H. run_prompts. rewrite H. reflexivity.
  - intros scenes H. split.
    + intros e E. run_prompts. rewrite H, E. reflexivity.
    + intros text E Hnone. run_prompts. rewrite H, E.
      rewrite (parse_prompts_without_bracket _ _ _ Hnone). reflexivity.
Qed.

(** ** The Instagram uploader *)

Ltac run_graph :=
  cbv [InstagramUploader._create_media_container InstagramUploader._upload_to_cdn
       InstagramUploader._publish_media
       try_except bind perform emit elapse lift ret raise raise_for_status
       py_get logger_info logger_error Main.if_path];
  cbn [clock trace].

Lemma substring_all (s : string) : substring 0 (String.length s) s = s.
Proof.
  pose proof (substring_whole s "") as H. rewrite append_empty_r in H. exact H.
Qed.

Lemma basename_splits path :
  exists dir, path = dir +:+ basename path /\ lacks "/" (basename path) = true.
Proof.
  unfold basename, rfind.
  destruct (rfind_from_spec "/" path 0 (-1))
    as [[E L] | (before & rest & Hpath & L & E)]; rewrite E.
  - exists "". change (Z.to_nat (-1 + 1)) with 0%nat.
    rewrite Nat.sub_0_r, substring_all. split; [reflexivity | exact L].
  - exists (before +:+ "/").
    replace (Z.to_nat (0 + Z.of_nat (String.length before) + 1))
      with (String.length (before +:+ "/"))
      by (rewrite length_append; cbn [String.length]; lia).
    assert (Hp : path = (before +:+ "/") +:+ rest)
      by (rewrite append_assoc; exact Hpath).
    clear Hpath E. subst path. rewrite substring_skip.
    replace (String.length ((before +:+ "/") +:+ rest)
             - String.length (before +:+ "/"))%nat
      with (String.length rest)
      by (rewrite (length_append (before +:+ "/") rest); lia).
    rewrite substring_all. split; [reflexivity | exact L].
Qed.

Lemma path_is_no_empty_string (s : string) :
  truthy ("https://your-domain.com/uploads/" +:+ s) = true.
Proof. reflexivity. Qed.

Lemma create_container_run
    net requests_post access_token user_id video_path caption hashtags w :
  let answer :=
    requests_post (InstagramUploader.base_url +:+ "/" +:+ user_id +:+ "/media")
      (container_form access_token video_path caption hashtags) in
  let answered := World (clock w + seconds_of_ms (took answer)) (trace w) in
  InstagramUploader._create_media_container net requests_post access_token
    user_id video_path caption hashtags w =
    match posted_id (result answer) with
    | Ret container_id =>
        (Ret container_id,
         World (clock answered)
           (Log INFO ("미디어 컨테이너 생성: "
                      +:+ format_with (format_value net) container_id)
            :: trace answered))
    | Raise e =>
        (Ret VNone,
         World (clock answered)
           (Log ERROR ("미디어 컨테이너 생성 실패: " +:+ exn_str e)
            :: trace answered))
    end.
Proof.
  cbv zeta. run_graph. rewrite path_is_no_empty_string. unfold container_form.
  destruct (requests_post _ _) as [t [response|e]]; cbn [took result posted_id];
    [|reflexivity].
  destruct (_ && _); [reflexivity|].
  destruct (json response) as [[]|]; reflexivity.
Qed.

(** The container is always asked for, and with a placeholder: no file
    is sent anywhere, and the address of the video in the form is the
    file's name under [https://your-domain.com/uploads/], whatever the
    path; the caption of the form is the caption with the hashtags.  The
    step gives the [id] of the answer, or null, with the error logged,
    when the request fails, and it never raises. *)
Theorem container_is_asked_with_a_placeholder
    net requests_post access_token user_id video_path caption hashtags w :
  let answer :=
    requests_post (InstagramUploader.base_url +:+ "/" +:+ user_id +:+ "/media")
      (container_form access_token video_path caption hashtags) in
  let answered := World (clock w + seconds_of_ms (took answer)) (trace w) in
  InstagramUploader._upload_to_cdn video_path w =
    (Ret (Some ("https://your-domain.com/uploads/" +:+ basename video_path)), w) /\
  (exists dir, video_path = dir +:+ basename video_path /\
               lacks "/" (basename video_path) = true) /\
  InstagramUploader._create_media_container net requests_post access_token
    user_id video_path caption hashtags w =
    match posted_id (result answer) with
    | Ret container_id =>
        (Ret container_id,
         World (clock answered)
           (Log INFO ("미디어 컨테이너 생성: "
                      +:+ format_with (format_value net) container_id)
            :: trace answered))
    | Raise e =>
        (Ret VNone,
         World (clock answered)
           (Log ERROR ("미디어 컨테이너 생성 실패: " +:+ exn_str e)
            :: trace answered))
    end.
Proof.
  cbv zeta. split; [reflexivity|]. split; [apply basename_splits|].
  apply create_container_run.
Qed.

Lemma create_never_raises
    net requests_post access_token user_id video_path caption hashtags w :
  exists r w',
    InstagramUploader._create_media_container net requests_post access_token
      user_id video_path caption hashtags w = (Ret r, w').
Proof.
  rewrite create_container_run. cbv zeta. destruct (posted_id _); eauto.
Qed.

Lemma publish_cases requests_post access_token user_id container_id w :
  let answer :=
    requests_post
      (InstagramUploader.base_url +:+ "/" +:+ user_id +:+ "/media_publish")
      (<["creation_id" := container_id]>
       (<["access_token" := VStr access_token]> ∅)) in
  let answered := World (clock w + seconds_of_ms (took answer)) (trace w) in
  InstagramUploader._publish_media requests_post access_token user_id
    container_id w =
    match posted_id (result answer) with
    | Ret media_id => (Ret media_id, answered)
    | Raise e =>
        (Ret VNone,
         World (clock answered)
           (Log ERROR ("미디어 게시 실패: " +:+ exn_str e) :: trace answered))
    end.
Proof.
  cbv zeta. run_graph.
  destruct (requests_post _ _) as [t [response|e]]; cbn [took result posted_id];
    [|reflexivity].
  destruct (_ && _); [reflexivity|].
  destruct (json response) as [[]|]; reflexivity.
Qed.

Lemma publish_never_raises requests_post access_token user_id container_id w :
  exists r w',
    InstagramUploader._publish_media requests_post access_token user_id
      container_id w = (Ret r, w').
Proof.
  rewrite publish_cases. cbv zeta. destruct (posted_id _); eauto.
Qed.

(** An upload to Instagram is three steps, the container, the wait and
    the publication, and stops at the first that fails: it never raises;
    it returns null, with nothing done after it, when the container has no
    id, and when the wait ends without the container finished; and it
    returns the id of the publication when there is one, and null when
    there is none. *)
Theorem instagram_upload_stops_at_the_first_failed_step
    net requests_post access_token user_id video_path caption hashtags w :
  let create :=
    InstagramUploader._create_media_container net requests_post access_token
      user_id video_path caption hashtags in
  let wait (container_id : value) :=
    InstagramUploader._wait_for_upload_completion net
      (format_with (format_value net) container_id)
      InstagramUploader.max_wait_default in
  let publish :=
    InstagramUploader._publish_media requests_post access_token user_id in
  let upload :=
    InstagramUploader.upload_video net requests_post access_token user_id
      video_path caption hashtags in
  (exists r w', upload w = (Ret r, w') /\ (r = VNone \/ truthy r = true)) /\
  (forall container_id wa,
     create w = (Ret container_id, wa) ->
     truthy container_id = false ->
     upload w = (Ret VNone, wa)) /\
  (forall container_id wa wb,
     create w = (Ret container_id, wa) ->
     truthy container_id = true ->
     wait container_id wa = (Ret false, wb) ->
     upload w = (Ret VNone, wb)) /\
  (forall container_id wa wb media_id wc,
     create w = (Ret container_id, wa) ->
     truthy container_id = true ->
     wait container_id wa = (Ret true, wb) ->
     publish container_id wb = (Ret media_id, wc) ->
     upload w =
       if truthy media_id then
         (Ret media_id,
          World (clock wc)
            (Log INFO ("Instagram 업로드 완료: "
                       +:+ format_with (format_value net) media_id)
             :: trace wc))
       else (Ret VNone, wc)).
Proof.
  cbv zeta. unfold InstagramUploader.upload_video.
  split; [|split; [|split]].
  - unfold try_except, bind.
    destruct (create_never_raises net requests_post access_token user_id
                video_path caption hashtags w) as (cid & wa & ->).
    destruct (truthy cid); cbn [negb]; [|eexists _, _; split; [reflexivity | left; reflexivity]].
    destruct (wait_for_upload_never_raises net
                (format_with (format_value net) cid)
                InstagramUploader.max_wait_default wa) as (b & wb & ->).
    destruct b; cbn [negb]; [|eexists _, _; split; [reflexivity | left; reflexivity]].
    destruct (publish_never_raises requests_post access_token user_id cid wb)
      as (mid & wc & ->).
    destruct (truthy mid) eqn:T.
    + eexists _, _. split; [reflexivity | right; exact T].
    + eexists _, _. split; [reflexivity | left; reflexivity].
  - intros cid wa Hc T. unfold try_except, bind. rewrite Hc, T. reflexivity.
  - intros cid wa wb Hc T Hw. unfold try_except, bind. rewrite Hc, T.
    cbn [negb]. rewrite Hw. reflexivity.
  - intros cid wa wb mid wc Hc T Hw Hp. unfold try_except, bind.
    rewrite Hc, T. cbn [negb]. rewrite Hw. cbn [negb]. rewrite Hp.
    destruct (truthy mid); reflexivity.
Qed.

(** The caption that is posted starts with the caption that was given,
    and is that caption and nothing more exactly when there are no
    hashtags, none given or an empty list. *)
Theorem caption_is_kept_as_given caption hashtags :
  String.prefix caption (InstagramUploader.full_caption caption hashtags) = true /\
  (InstagramUploader.full_caption caption hashtags = caption <->
   hashtags = None \/ hashtags = Some []).
Proof.
  assert (Hprefix : forall a b, String.prefix a (a +:+ b) = true).
  { intros a b. induction a as [|c a IH]; [destruct b; reflexivity|].
    rewrite append_cons. cbn [String.prefix].
    destruct (ascii_dec c c); [exact IH | congruence]. }
  destruct hashtags as [[|tag tags]|]; cbn [InstagramUploader.full_caption].
  - split; [|split; auto]. rewrite <- (append_empty_r caption) at 2. apply Hprefix.
  - split; [apply Hprefix|]. split.
    + intros H. apply (f_equal String.length) in H.
      rewrite length_append, !append_cons in H. cbn [String.length] in H. lia.
    + intros [H|H]; discriminate H.
  - split; [|split; auto]. rewrite <- (append_empty_r caption) at 2. apply Hprefix.
Qed.

(** ** The YouTube uploader *)

Lemma sleeps_app a b : sleeps (a ++ b) = (sleeps b ++ sleeps a)%list.
Proof. unfold sleeps. rewrite reverse_app, omap_app. reflexivity. Qed.

Lemma backoff_next retry k :
  backoff retry (S k) = inject_Z (2 ^ (retry + 1)) :: backoff (retry + 1) k.
Proof.
  unfold backoff. cbn [seq map]. f_equal.
  rewrite <- seq_shift, map_map. apply map_ext. intros i. do 2 f_equal. lia.
Qed.

Ltac run_chunk :=
  cbv [try_except bind perform emit elapse lift ret raise time_sleep
       logger_info logger_warning logger_error YouTubeUploader.log_progress];
  cbn [clock trace took result].

(** The loop of an upload, from any count of retries: it sleeps after
    each failure while the count is below three, twice as long each time,
    and raises at the failure that comes with the count at three. *)
Lemma next_chunks_run answers last_took last_status response :
  forall retry w, 0 <= retry <= 3 ->
  let allowed := Z.to_nat (3 - retry) in
  exists o new w',
    YouTubeUploader.next_chunks answers last_took last_status response retry w
      = (o, w') /\
    trace w' = (new ++ trace w)%list /\
    sleeps new = backoff retry (Nat.min (length (failures answers)) allowed) /\
    if (length (failures answers) <=? allowed)%nat
    then o = Ret response
    else o = Raise (nth allowed (failures answers) (Exception "")).
Proof.
  induction answers as [|[t [status|e]] answers IH]; intros retry w Hretry;
    cbn [YouTubeUploader.next_chunks]; cbv zeta.
  - run_chunk.
    destruct last_status; [eexists _, [_], _ | eexists _, [], _];
      (split; [reflexivity|]); repeat split.
  - destruct (IH retry
                (let w1 := World (clock w + seconds_of_ms t) (trace w) in
                 match status with
                 | Some progress =>
                     World (clock w1)
                       (Log INFO ("업로드 진행률: " +:+ str_of_int progress +:+ "%")
                        :: trace w1)
                 | None => w1
                 end) Hretry) as (o & new & w' & Hrun & Htrace & Hsleeps & Ho).
    cbv zeta in Hrun, Htrace.
    unfold bind at 1. unfold try_except. run_chunk.
    destruct status as [progress|]; cbn [clock trace] in *.
    + unfold bind in Hrun |- *. rewrite Hrun.
      exists o, (new ++ [Log INFO ("업로드 진행률: " +:+ str_of_int progress +:+ "%")])%list, w'.
      split; [reflexivity|]. split; [rewrite Htrace, <- app_assoc; reflexivity|].
      split; [rewrite sleeps_app; exact Hsleeps | exact Ho].
    + unfold bind in Hrun |- *. rewrite Hrun.
      exists o, new, w'. repeat split; assumption.
  - unfold bind at 1. unfold try_except. run_chunk.
    cbn [failures omap list_omap result]. fold (failures answers).
    cbn [length].
    destruct (Z.ltb_spec retry 3) as [Hlt|Hge].
    + destruct (IH (retry + 1)
                  (World (clock w + seconds_of_ms t + inject_Z (2 ^ (retry + 1)))
                     (Sleep (inject_Z (2 ^ (retry + 1)))
                      :: Log WARNING ("업로드 재시도 " +:+ str_of_int (retry + 1)
                                      +:+ "/3: " +:+ exn_str e)
                      :: trace w)) ltac:(lia))
        as (o & new & w' & Hrun & Htrace & Hsleeps & Ho).
      cbv zeta in Hsleeps, Ho. run_chunk. unfold bind in Hrun |- *. rewrite Hrun.
      exists o,
        (new ++ [Sleep (inject_Z (2 ^ (retry + 1)));
                 Log WARNING ("업로드 재시도 " +:+ str_of_int (retry + 1)
                              +:+ "/3: " +:+ exn_str e)])%list, w'.
      split; [reflexivity|].
      split; [rewrite Htrace; cbn [trace]; rewrite <- app_assoc; reflexivity|].
      replace (Z.to_nat (3 - retry)) with (S (Z.to_nat (3 - (retry + 1)))) by lia.
      split.
      * rewrite sleeps_app, Hsleeps. rewrite <- Nat.succ_min_distr, backoff_next.
        reflexivity.
      * cbn [Nat.leb nth]. exact Ho.
    + assert (retry = 3) as -> by lia. run_chunk.
      eexists _, [], _. split; [reflexivity|]. repeat split.
Qed.

Lemma backoff_of_three k :
  backoff 0 (Nat.min k 3) = take k [2; 4; 8]%Q.
Proof. destruct k as [|[|[|[|k]]]]; reflexivity. Qed.

Lemma execute_upload_run format_other insert_request w :
  let failed := failures (YouTubeUploader.chunks insert_request) in
  exists r new w',
    YouTubeUploader._execute_upload format_other insert_request w = (Ret r, w') /\
    trace w' = (new ++ trace w)%list /\
    sleeps new = take (length failed) [2; 4; 8]%Q /\
    r = (if (length failed <=? 3)%nat
         then dict_get (YouTubeUploader.response insert_request) "id" VNone
         else VNone) /\
    ((3 < length failed)%nat ->
     In (Log ERROR ("업로드 실행 실패: "
                    +:+ exn_str (nth 3 failed (Exception "")))) new).
Proof.
  cbv zeta. unfold YouTubeUploader._execute_upload.
  destruct (next_chunks_run (YouTubeUploader.chunks insert_request)
              (YouTubeUploader.last_took insert_request)
              (YouTubeUploader.last_status insert_request)
              (YouTubeUploader.response insert_request) 0 w ltac:(lia))
    as (o & new & w' & Hrun & Htrace & Hsleeps & Ho).
  cbv zeta in Hsleeps, Ho. change (Z.to_nat (3 - 0)) with 3%nat in *.
  rewrite backoff_of_three in Hsleeps.
  unfold try_except, bind. rewrite Hrun.
  destruct (Nat.leb_spec (length (failures (YouTubeUploader.chunks insert_request))) 3)
    as [Hle|Hgt]; subst o.
  - unfold dict_get.
    destruct (YouTubeUploader.response insert_request !! "id") as [id|]; run_chunk.
    + exists id, new, w'. repeat split; try assumption. lia.
    + eexists VNone, (_ :: new), _. split; [reflexivity|].
      split; [cbn [trace]; rewrite Htrace; reflexivity|].
      split; [change (?e :: new) with ([e] ++ new)%list;
              rewrite sleeps_app, app_nil_r; exact Hsleeps|].
      split; [reflexivity | lia].
  - run_chunk. eexists VNone, (_ :: new), _. split; [reflexivity|].
    split; [cbn [trace]; rewrite Htrace; reflexivity|].
    split; [change (?e :: new) with ([e] ++ new)%list;
            rewrite sleeps_app, app_nil_r; exact Hsleeps|].
    split; [reflexivity|]. intros _. left. reflexivity.
Qed.


Lemma execute_upload_never_raises format_other insert_request w :
  exists r w',
    YouTubeUploader._execute_upload format_other insert_request w = (Ret r, w').
Proof.
  destruct (execute_upload_run format_other insert_request w)
    as (r & _ & w' & H & _).
  eauto.
Qed.

(** An uploader whose service was not initialised uploads nothing: it
    returns null at once, with that logged.  A file that cannot be opened
    ends the upload before any request is made.  And the upload never
    raises: it returns an id or null. *)
Theorem youtube_upload_needs_its_service
    youtube_service format_other video_path title description tags
    category_id w :
  let upload service :=
    YouTubeUploader.upload_video service format_other video_path title
      description tags category_id w in
  (exists r w',
     upload youtube_service = (Ret r, w') /\ (r = VNone \/ truthy r = true)) /\
  upload None =
    (Ret VNone,
     World (clock w)
       (Log ERROR "YouTube 서비스가 초기화되지 않았습니다" :: trace w)) /\
  (forall service e,
     YouTubeUploader.MediaFileUpload service video_path = Raise e ->
     upload (Some service) =
       (Ret VNone,
        World (clock w) (Log ERROR ("YouTube 업로드 실패: " +:+ exn_str e)
                         :: trace w))).
Proof.
  cbv zeta. unfold YouTubeUploader.upload_video. split; [|split].
  - destruct youtube_service as [service|]; run_chunk;
      [|eexists _, _; split; [reflexivity | left; reflexivity]].
    destruct (YouTubeUploader.MediaFileUpload service video_path) as [[]|e];
      [|eexists _, _; split; [reflexivity | left; reflexivity]].
    destruct (YouTubeUploader.videos_insert service _ _) as [request|e];
      [|eexists _, _; split; [reflexivity | left; reflexivity]].
    destruct (execute_upload_never_raises format_other request w)
      as (id & w' & ->).
    destruct (truthy id) eqn:T; eexists _, _;
      (split; [reflexivity|]); [right; exact T | left; reflexivity].
  - reflexivity.
  - intros service e H. run_chunk. rewrite H. reflexivity.
Qed.

(** ** The scenes of the video generator *)

Ltac run_studio :=
  cbv [VideoGenerator._create_default_video VideoGenerator._generate_with_veo
       VideoGenerator._generate_video_from_text VideoGenerator._download_video
       try_except bind perform get emit elapse lift ret raise raise_for_status
       time_time logger_info logger_warning logger_error];
  cbn [clock trace].

Lemma default_video_never_raises studio duration w :
  exists r w',
    VideoGenerator._create_default_video studio duration w = (Ret r, w').
Proof.
  run_studio. destruct (result _) as [[]|e]; [|eauto].
  destruct (result _) as [[]|e]; eauto.
Qed.

Lemma veo_scene_is_default studio prompt duration w :
  VideoGenerator._generate_with_veo studio prompt duration w
    = VideoGenerator._create_default_video studio duration w.
Proof.
  unfold VideoGenerator._generate_with_veo, try_except.
  destruct (default_video_never_raises studio duration w) as (r & w' & ->).
  reflexivity.
Qed.

Lemma text_scene_is_default studio veo_api_key prompt duration w :
  VideoGenerator._generate_video_from_text studio veo_api_key prompt duration w
    = VideoGenerator._create_default_video studio duration w.
Proof.
  unfold VideoGenerator._generate_video_from_text, try_except.
  destruct (truthy veo_api_key); [rewrite veo_scene_is_default|];
    destruct (default_video_never_raises studio duration w) as (r & w' & ->);
    reflexivity.
Qed.

(** A scene made from a text is the default scene: neither the prompt
    nor the key of the Veo API changes what is made, what is returned or
    what is logged. *)
Theorem text_scenes_are_default_scenes studio veo_api_key prompt duration w :
  VideoGenerator._generate_video_from_text studio veo_api_key prompt duration w
    = VideoGenerator._create_default_video studio duration w /\
  VideoGenerator._generate_with_veo studio prompt duration w
    = VideoGenerator._create_default_video studio duration w.
Proof. split; [apply text_scene_is_default | apply veo_scene_is_default]. Qed.

Lemma download_never_raises net studio video_url w :
  exists r w', VideoGenerator._download_video net studio video_url w = (Ret r, w').
Proof.
  run_studio. destruct (result _) as [response|e]; [|eauto].
  destruct (_ && _); [eauto|].
  destruct (result _) as [[]|e]; eauto.
Qed.

Ltac run_image :=
  cbv [try_except bind perform elapse lift ret raise py_get
       logger_error logger_warning emit];
  cbn [clock trace].

Ltac defaulted :=
  repeat match goal with
         | |- context [VideoGenerator._create_default_video ?s ?d ?w0] =>
             destruct (default_video_never_raises s d w0) as (? & ? & ->)
         end.

Lemma image_scene_without_key net requests_post studio prompt image_url duration w :
  VideoGenerator._generate_video_from_image net requests_post studio None
    prompt image_url duration w =
  VideoGenerator._create_default_video studio duration
    (World (clock w)
       (Log WARNING "Runway API 키가 없습니다. 기본 영상을 생성합니다." :: trace w)).
Proof.
  unfold VideoGenerator._generate_video_from_image. cbn [negb truthy truthy_option].
  run_image. defaulted. reflexivity.
Qed.

(** A scene made from an image.  Without a key of the Runway API it is
    the default scene, with a warning; with a key it is the default scene
    as well when the request raises, when its status is not 200 and when the
    task ends without a video; but when the task gives a video, the scene
    is what the download returns, null included: a download that fails
    leaves the scene out, with no default scene in its place.  The method
    never raises. *)
Theorem image_scene_cases
    net requests_post studio runway_api_key prompt image_url duration w :
  let default := VideoGenerator._create_default_video studio duration in
  let generate :=
    VideoGenerator._generate_video_from_image net requests_post studio
      runway_api_key prompt image_url duration in
  let answer :=
    requests_post VideoGenerator.generate_url
      (runway_form prompt image_url duration) in
  let answered := World (clock w + seconds_of_ms (took answer)) (trace w) in
  (exists r w', generate w = (Ret r, w')) /\
  (truthy runway_api_key = false ->
   generate w =
     default (World (clock w)
                (Log WARNING "Runway API 키가 없습니다. 기본 영상을 생성합니다."
                 :: trace w))) /\
  (truthy runway_api_key = true ->
   (forall e,
      result answer = Raise e ->
      generate w =
        default (World (clock answered)
                   (Log ERROR ("이미지 기반 영상 생성 실패: " +:+ exn_str e)
                    :: trace answered))) /\
   (forall response,
      result answer = Ret response ->
      status_code response <> 200 ->
      generate w = default answered) /\
   (forall response body video_url wa,
      result answer = Ret response ->
      status_code response = 200 ->
      json response = Ret (VDict body) ->
      VideoGenerator._wait_for_video_completion net
        (VideoGenerator.formatted net (dict_get body "task_id" VNone))
        VideoGenerator.max_wait_default answered = (Ret video_url, wa) ->
      generate w =
        if truthy video_url
        then VideoGenerator._download_video net studio video_url wa
        else default wa)).
Proof.
  cbv zeta. unfold VideoGenerator._generate_video_from_image.
  fold (runway_form prompt image_url duration).
  split; [|split].
  - destruct (truthy runway_api_key); cbn [negb]; run_image.
    + destruct (result (requests_post _ _)) as [response|e]; [|defaulted; eauto].
      destruct (status_code response =? 200); [|defaulted; eauto].
      destruct (json response) as [[]|e]; try (defaulted; eauto).
      match goal with
      | |- context [VideoGenerator._wait_for_video_completion ?n ?t ?m ?w0] =>
          destruct (wait_for_video_never_raises n t m w0) as (url & wa & ->)
      end.
      destruct (truthy url); [|defaulted; eauto].
      destruct (download_never_raises net studio url wa) as (p & wb & ->).
      eauto.
    + defaulted. eauto.
  - intros ->. cbn [negb]. run_image. defaulted. reflexivity.
  - intros ->. cbn [negb]. split; [|split].
    + intros e He. run_image. rewrite He. reflexivity.
    + intros response Hr Hs. apply Z.eqb_neq in Hs.
      run_image. rewrite Hr, Hs. defaulted. reflexivity.
    + intros response body url wa Hr Hs Hj Hw. apply Z.eqb_eq in Hs.
      run_image. rewrite Hr, Hs, Hj. cbn [clock trace] in Hw. rewrite Hw.
      destruct (truthy url).
      * destruct (download_never_raises net studio url wa) as (p & wb & ->).
        reflexivity.
      * defaulted. reflexivity.
Qed.

Lemma scene_without_duration_raises
    net requests_post studio runway_api_key veo_api_key script_data
    product_images scenes :
  Exists lacks_duration scenes ->
  forall i video_clips w,
    exists e w',
      VideoGenerator.scenes_from net requests_post studio runway_api_key
        veo_api_key script_data product_images scenes i video_clips w
      = (Raise e, w').
Proof.
  induction 1 as [scene scenes (d & -> & Hd) | scene scenes _ IH];
    intros i video_clips w; cbn [VideoGenerator.scenes_from].
  - unfold VideoGenerator._create_scene_prompt, py_get_or, py_getitem, getitem.
    rewrite Hd. unfold bind, ret, raise.
    destruct (product_images !! i); eauto.
  - unfold bind at 1.
    destruct (VideoGenerator._create_scene_prompt _ _ _ _) as [[prompt|e] w1];
      [|eauto].
    unfold bind at 1.
    match goal with
    | |- context [match ?c w1 with _ => _ end] =>
        destruct (c w1) as [[video_path|e] w2]; [|eauto]
    end.
    unfold bind at 1.
    match goal with
    | |- context [match ?c w2 with _ => _ end] =>
        destruct (c w2) as [[clips|e] w3]; [|eauto]
    end.
    apply IH.
Qed.

(** The video of a script is all or nothing.  The generator never
    raises; a script with no scenes gives null, with nothing done; and one
    scene without a duration, wherever it stands among the scenes, makes
    the generator return null for the whole video. *)
Theorem video_of_a_script_is_all_or_nothing
    net requests_post studio runway_api_key veo_api_key script_data
    product_images w :
  let generate :=
    VideoGenerator.generate_video_from_script net requests_post studio
      runway_api_key veo_api_key script_data product_images in
  (exists r w', generate w = (Ret r, w')) /\
  (dict_get script_data "video_scenes" (VList []) = VList [] ->
   generate w = (Ret None, w)) /\
  (forall scenes,
     script_data !! "video_scenes" = Some (VList scenes) ->
     Exists lacks_duration scenes ->
     exists w', generate w = (Ret None, w')).
Proof.
  cbv zeta. unfold VideoGenerator.generate_video_from_script.
  split; [|split].
  - unfold try_except.
    match goal with
    | |- context [match ?c w with _ => _ end] =>
        destruct (c w) as [[r|e] w1]; [eauto|]
    end.
    unfold logger_error, emit, bind, ret. eauto.
  - intros ->. reflexivity.
  - intros scenes Hscenes Hbad. unfold dict_get. rewrite Hscenes.
    unfold py_iter. unfold try_except, bind at 1. unfold ret at 1.
    unfold bind at 1.
    destruct (scene_without_duration_raises net requests_post studio
                runway_api_key veo_api_key script_data product_images scenes
                Hbad 0%nat [] w) as (e & w' & ->).
    unfold logger_error, emit, bind, ret. eauto.
Qed.

Lemma bind_cong {A B} (c1 c2 : M A) (k1 k2 : A -> M B) w :
  c1 w = c2 w ->
  (forall a w', k1 a w' = k2 a w') ->
  bind c1 k1 w = bind c2 k2 w.
Proof.
  intros Hc Hk. unfold bind. rewrite Hc.
  destruct (c2 w) as [[a|e] w']; [apply Hk | reflexivity].
Qed.

Lemma scenes_without_key
    requests_get1 requests_get2 format_value requests_post1 requests_post2
    studio veo_api_key script_data product_images scenes :
  forall i video_clips w,
    VideoGenerator.scenes_from (Build_Net requests_get1 format_value)
      requests_post1 studio None veo_api_key script_data product_images
      scenes i video_clips w =
    VideoGenerator.scenes_from (Build_Net requests_get2 format_value)
      requests_post2 studio None veo_api_key script_data product_images
      scenes i video_clips w.
Proof.
  induction scenes as [|scene scenes IH]; intros i video_clips w;
    cbn [VideoGenerator.scenes_from]; [reflexivity|].
  apply bind_cong; [reflexivity|]. intros prompt w1.
  apply bind_cong.
  - destruct (product_images !! i); [|reflexivity].
    apply bind_cong; [reflexivity|]. intros duration w2.
    rewrite !image_scene_without_key. reflexivity.
  - intros video_path w2. apply bind_cong; [reflexivity|].
    intros clips w3. apply IH.
Qed.

(** Without a key of the Runway API the generator never uses the
    network: whatever the status queries and the posts would answer, it
    does the same and returns the same. *)
Theorem no_runway_key_no_network
    requests_get1 requests_get2 format_value requests_post1 requests_post2
    studio veo_api_key script_data product_images w :
  VideoGenerator.generate_video_from_script
    (Build_Net requests_get1 format_value) requests_post1 studio None
    veo_api_key script_data product_images w =
  VideoGenerator.generate_video_from_script
    (Build_Net requests_get2 format_value) requests_post2 studio None
    veo_api_key script_data product_images w.
Proof.
  unfold VideoGenerator.generate_video_from_script, try_except.
  match goal with
  | |- (let (_, _) := ?c1 w in _) = (let (_, _) := ?c2 w in _) =>
      assert (H : c1 w = c2 w); [|rewrite H; reflexivity]
  end.
  apply bind_cong; [reflexivity|]. intros scenes w1.
  apply bind_cong; [apply scenes_without_key|]. intros clips w2. reflexivity.
Qed.

(** ** The clips of the video generator *)

Section Keeps.

Variable p : event -> bool.

Lemma keeps_ret {A} (a : A) : keeps p (ret a).
Proof. intros w. reflexivity. Qed.

Lemma keeps_raise {A} e : keeps p (raise (A := A) e).
Proof. intros w. reflexivity. Qed.

Lemma keeps_lift {A} (o : outcome A) : keeps p (lift o).
Proof. intros w. reflexivity. Qed.

Lemma keeps_time_time : keeps p time_time.
Proof. intros w. reflexivity. Qed.

Lemma keeps_elapse s : keeps p (elapse s).
Proof. intros w. reflexivity. Qed.

Lemma keeps_emit e : p e = false -> keeps p (emit e).
Proof.
  intros H w. unfold emit, count. cbn [snd trace List.filter]. rewrite H. reflexivity.
Qed.

Lemma keeps_bind {A B} (c : M A) (k : A -> M B) :
  keeps p c -> (forall a, keeps p (k a)) -> keeps p (bind c k).
Proof.
  intros Hc Hk w. unfold bind. specialize (Hc w).
  destruct (c w) as [[a|e] w']; cbn [snd] in *; [|exact Hc].
  rewrite Hk. exact Hc.
Qed.

Lemma keeps_try_except {A} (c : M A) (h : exn -> M A) :
  keeps p c -> (forall e, keeps p (h e)) -> keeps p (try_except c h).
Proof.
  intros Hc Hh w. unfold try_except. specialize (Hc w).
  destruct (c w) as [[a|e] w']; cbn [snd] in *; [exact Hc|].
  rewrite Hh. exact Hc.
Qed.

Lemma keeps_perform {A} (r : reply A) : keeps p (perform r).
Proof. apply keeps_bind; [apply keeps_elapse | intros _; apply keeps_lift]. Qed.

End Keeps.

Lemma of_handles_is_open h : of_handles (is_open h).
Proof. intros [] H; try discriminate H; eauto. Qed.

Lemma of_handles_is_close h : of_handles (is_close h).
Proof. intros [] H; try discriminate H; eauto. Qed.

Section KeepsHandles.

Variable p : event -> bool.
Hypothesis Hp : of_handles p.

Lemma other_event e :
  (forall h, e <> Open h) -> (forall h, e <> Close h) -> p e = false.
Proof.
  intros Ho Hc. destruct (p e) eqn:E; [|reflexivity].
  destruct (Hp e E) as (h & [-> | ->]); [destruct (Ho h) | destruct (Hc h)];
    reflexivity.
Qed.

Lemma keeps_log lvl msg : keeps p (emit (Log lvl msg)).
Proof. apply keeps_emit, other_event; discriminate. Qed.

Lemma keeps_time_sleep s : keeps p (time_sleep s).
Proof.
  apply keeps_bind; [|intros _; apply keeps_elapse].
  apply keeps_emit, other_event; discriminate.
Qed.

Lemma keeps_get net url n : keeps p (get net url n).
Proof.
  apply keeps_bind; [|intros _; apply keeps_perform].
  apply keeps_emit, other_event; discriminate.
Qed.

Lemma keeps_raise_for_status response : keeps p (raise_for_status response).
Proof.
  unfold raise_for_status. destruct (_ && _); [apply keeps_raise | apply keeps_ret].
Qed.

Lemma keeps_py_get v key : keeps p (py_get v key).
Proof. destruct v; first [apply keeps_ret | apply keeps_raise]. Qed.

Lemma keeps_py_get_or v key default : keeps p (py_get_or v key default).
Proof. destruct v; first [apply keeps_ret | apply keeps_raise]. Qed.

Lemma keeps_py_getitem v key : keeps p (py_getitem v key).
Proof.
  destruct v; try apply keeps_raise. unfold py_getitem, getitem.
  destruct (_ !! _); [apply keeps_ret | apply keeps_raise].
Qed.

End KeepsHandles.

Ltac keeps_step Hp :=
  first
    [ apply keeps_ret
    | apply keeps_raise
    | apply keeps_lift
    | apply keeps_time_time
    | apply keeps_elapse
    | apply keeps_perform
    | apply (keeps_log _ Hp)
    | apply (keeps_time_sleep _ Hp)
    | apply (keeps_get _ Hp)
    | apply keeps_raise_for_status
    | apply keeps_py_get
    | apply keeps_py_get_or
    | apply keeps_py_getitem
    | apply keeps_bind; [|intros ?]
    | apply keeps_try_except; [|intros ?]
    | match goal with
      | |- keeps _ (if ?b then _ else _) => destruct b
      | |- keeps _ (match ?x with _ => _ end) => destruct x
      end ].

Section VideoGeneratorHandles.

Variable p : event -> bool.
Hypothesis Hp : of_handles p.

Variable net : Net.
Variable requests_post : string -> dict -> reply Response.
Variable studio : VideoGenerator.Studio.
Variable runway_api_key : option string.
Variable veo_api_key : option string.

Lemma keeps_poll_task task_id n :
  keeps p (VideoGenerator.poll_task net task_id n).
Proof.
  unfold VideoGenerator.poll_task, logger_error. repeat keeps_step Hp.
Qed.

Lemma keeps_wait_for_video task_id max_wait :
  keeps p (VideoGenerator._wait_for_video_completion net task_id max_wait).
Proof.
  unfold VideoGenerator._wait_for_video_completion.
  apply keeps_bind; [apply keeps_time_time|]. intros start_time w.
  generalize 0%nat as n.
  remember (time_left max_wait start_time w) as k eqn:Hk.
  revert w Hk. induction k as [k IH] using lt_wf_ind. intros w Hk n.
  rewrite video_wait_loop_unfold. destruct (Qlt_le_dec _ _) as [Hlt|_].
  2: { unfold logger_warning. apply keeps_bind;
         [apply (keeps_log _ Hp) | intros _; apply keeps_ret]. }
  pose proof (keeps_poll_task task_id n w) as Hturn.
  destruct (VideoGenerator.poll_task net task_id n w) as [[[v|]|e] w'] eqn:E;
    cbn [snd] in Hturn |- *; try exact Hturn.
  rewrite <- Hturn.
  apply (IH (time_left max_wait start_time w')); [|reflexivity].
  subst k. apply time_left_decreases; [exact Hlt|].
  exact (VideoGenerator.poll_task_advances net task_id n w w' E).
Qed.

Lemma keeps_default_video duration :
  keeps p (VideoGenerator._create_default_video studio duration).
Proof.
  unfold VideoGenerator._create_default_video, logger_error.
  repeat keeps_step Hp.
Qed.

Lemma keeps_download video_url :
  keeps p (VideoGenerator._download_video net studio video_url).
Proof.
  unfold VideoGenerator._download_video, logger_error.
  repeat keeps_step Hp.
Qed.

Lemma keeps_text_scene prompt duration :
  keeps p (VideoGenerator._generate_video_from_text studio veo_api_key prompt
             duration).
Proof.
  intros w.
  rewrite text_scene_is_default.
  apply keeps_default_video.
Qed.

Lemma keeps_image_scene prompt image_url duration :
  keeps p (VideoGenerator._generate_video_from_image net requests_post studio
             runway_api_key prompt image_url duration).
Proof.
  unfold VideoGenerator._generate_video_from_image, logger_error, logger_warning.
  repeat first [ apply keeps_default_video
               | apply keeps_download
               | apply keeps_wait_for_video
               | keeps_step Hp ].
Qed.

Lemma keeps_scene_prompt scene script_data :
  keeps p (VideoGenerator._create_scene_prompt net scene script_data).
Proof.
  unfold VideoGenerator._create_scene_prompt. repeat keeps_step Hp.
Qed.

End VideoGeneratorHandles.

Lemma readers_app h a b : readers h (a ++ b) = (readers h a + readers h b)%nat.
Proof. unfold readers. rewrite List.filter_app, length_app. reflexivity. Qed.

Section ScenesAndHandles.

Variable net : Net.
Variable requests_post : string -> dict -> reply Response.
Variable studio : VideoGenerator.Studio.
Variable runway_api_key : option string.
Variable veo_api_key : option string.
Variable script_data : dict.
Variable product_images : list value.

Lemma keeps_scene_path p (Hp : of_handles p) scene prompt i :
  keeps p
    (match product_images !! i with
     | Some image_url =>
         duration <- py_getitem scene "duration" ;;
         VideoGenerator._generate_video_from_image net requests_post studio
           runway_api_key prompt image_url duration
     | None =>
         duration <- py_getitem scene "duration" ;;
         VideoGenerator._generate_video_from_text studio veo_api_key prompt
           duration
     end).
Proof.
  destruct (product_images !! i);
    (apply keeps_bind; [apply keeps_py_getitem | intros duration]).
  - apply keeps_image_scene. exact Hp.
  - apply keeps_text_scene. exact Hp.
Qed.

Lemma scenes_close_nothing h scenes :
  forall i video_clips,
    keeps (is_close h)
      (VideoGenerator.scenes_from net requests_post studio runway_api_key
         veo_api_key script_data product_images scenes i video_clips).
Proof.
  pose proof (of_handles_is_close h) as Hp.
  induction scenes as [|scene scenes IH]; intros i video_clips;
    cbn [VideoGenerator.scenes_from]; [apply keeps_ret|].
  apply keeps_bind; [apply keeps_scene_prompt; exact Hp|]. intros prompt.
  apply keeps_bind; [apply keeps_scene_path; exact Hp|]. intros video_path.
  apply keeps_bind; [|intros clips; apply IH].
  destruct (Main.if_path video_path); [|apply keeps_ret].
  apply keeps_bind; [|intros clip; apply keeps_ret].
  unfold VideoGenerator.VideoFileClip.
  apply keeps_bind; [apply keeps_perform|]. intros d.
  apply keeps_bind; [apply keeps_emit; reflexivity|]. intros _.
  apply keeps_ret.
Qed.

Lemma kept {A} p (c : M A) w o w' :
  keeps p c -> c w = (o, w') -> count p (trace w') = count p (trace w).
Proof. intros H E. specialize (H w). rewrite E in H. exact H. Qed.

Lemma scenes_open_their_clips h scenes :
  forall i video_clips w video_clips' w',
    VideoGenerator.scenes_from net requests_post studio runway_api_key
      veo_api_key script_data product_images scenes i video_clips w
    = (Ret video_clips', w') ->
    (count (is_open h) (trace w') + readers h video_clips
     = count (is_open h) (trace w) + readers h video_clips')%nat.
Proof.
  pose proof (of_handles_is_open h) as Hp.
  induction scenes as [|scene scenes IH]; intros i clips w clips' w';
    cbn [VideoGenerator.scenes_from].
  - intros [= <- <-]. lia.
  - unfold bind at 1.
    destruct (VideoGenerator._create_scene_prompt _ _ _ _) as [[prompt|e] w1]
      eqn:E1; [|discriminate].
    assert (K1 : keeps (is_open h)
                   (VideoGenerator._create_scene_prompt net scene script_data))
      by (apply keeps_scene_prompt; try exact Hp).
    apply (kept _ _ _ _ _ K1) in E1.
    unfold bind at 1.
    match goal with
    | |- context [match ?c w1 with _ => _ end] =>
        destruct (c w1) as [[video_path|e] w2] eqn:E2; [|discriminate];
        apply (kept _ _ _ _ _ (keeps_scene_path _ Hp scene prompt i)) in E2
    end.
    unfold bind at 1.
    destruct (Main.if_path video_path) as [path|].
    + unfold VideoGenerator.VideoFileClip, bind, perform, elapse, lift, emit, ret.
      cbn [clock trace].
      destruct (result _) as [d|e]; [|discriminate].
      intros H. apply IH in H. rewrite readers_app in H.
      unfold count in *. cbn [trace List.filter is_open] in H.
      unfold readers at 2 in H. cbn [List.filter v_reader] in H.
      destruct (bool_decide (VideoReader path = h)); cbn [length] in H; lia.
    + unfold ret at 1. intros H. apply IH in H. lia.
Qed.

Lemma close_all_closes h video_clips w :
  exists w',
    VideoGenerator.close_all video_clips w = (Ret tt, w') /\
    clock w' = clock w /\
    count (is_close h) (trace w')
      = (count (is_close h) (trace w) + readers h video_clips)%nat /\
    count (is_open h) (trace w') = count (is_open h) (trace w).
Proof.
  revert w. induction video_clips as [|clip clips IH]; intros w;
    cbn [VideoGenerator.close_all].
  - exists w. unfold readers. cbn. repeat split. lia.
  - unfold bind, VideoGenerator.close, emit.
    destruct (IH (World (clock w) (Close (v_reader clip) :: trace w)))
      as (w' & -> & Hc & Hcl & Hop).
    exists w'. split; [reflexivity|]. split; [exact Hc|].
    split; [|exact Hop].
    rewrite Hcl. unfold count, readers. cbn [trace List.filter is_close].
    destruct (bool_decide (v_reader clip = h)); cbn [length]; lia.
Qed.

Lemma py_iter_world v w o w' : py_iter v w = (o, w') -> w' = w.
Proof. destruct v; unfold py_iter, ret, raise; intros [= _ <-]; reflexivity. Qed.

(** The generator closes the clips it opened when it has written the
    video, all of them, and closes none when it returns null: a video that
    cannot be written, and a scene that fails after others were made,
    leave the clips of the scenes made so far open. *)
Theorem generator_closes_its_clips_only_on_success h w :
  let run :=
    VideoGenerator.generate_video_from_script net requests_post studio
      runway_api_key veo_api_key script_data product_images w in
  let opened t := count (is_open h) t in
  let closed t := count (is_close h) t in
  match fst run with
  | Ret (Some _) =>
      (closed (trace (snd run)) + opened (trace w)
       = closed (trace w) + opened (trace (snd run)))%nat
  | _ => closed (trace (snd run)) = closed (trace w)
  end.
Proof.
  cbv zeta. unfold VideoGenerator.generate_video_from_script.
  cbv [try_except bind].
  destruct (py_iter _ w) as [[scenes|e] w0] eqn:E0;
    apply py_iter_world in E0; subst w0.
  2: { reflexivity. }
  pose proof (scenes_close_nothing h scenes 0%nat [] w) as Hclose.
  destruct (VideoGenerator.scenes_from _ _ _ _ _ _ _ scenes 0%nat [] w)
    as [[clips|e] w1] eqn:E1;
    cbn [snd] in Hclose.
  2: { cbn [fst snd]. exact Hclose. }
  apply (scenes_open_their_clips h) in E1. unfold readers at 1 in E1.
  cbn [List.filter length] in E1.
  destruct (truthy clips); [|cbn [ret fst snd]; exact Hclose].
  cbv [perform bind elapse lift time_time].
  destruct (result (VideoGenerator.concatenate_videoclips studio clips))
    as [[]|e]; [|cbn [fst snd]; exact Hclose].
  destruct (result (VideoGenerator.write_concatenated studio clips _))
    as [[]|e]; [|cbn [fst snd]; exact Hclose].
  match goal with
  | |- context [VideoGenerator.close_all clips ?w2] =>
      destruct (close_all_closes h clips w2) as (w3 & -> & _ & Hcl & Hop)
  end.
  cbn [fst snd trace clock logger_info emit ret] in *. unfold count in *.
  cbn [List.filter is_close is_open] in *. lia.
Qed.

End ScenesAndHandles.

(** ** The audio generator *)

Ltac run_sound :=
  cbv [AudioGenerator.get_audio_duration AudioGenerator.adjust_speech_speed
       AudioGenerator.AudioFileClip AudioGenerator.close AudioGenerator.divide
       try_except bind perform emit elapse lift ret raise time_time
       logger_info logger_error duration Clip_AudioClip a_duration];
  cbn [clock trace].



(** Reading the duration of an audio file never raises and leaves no
    file open: the file that is opened is closed, and a file that cannot
    be opened gives zero seconds, with the error logged. *)
Theorem audio_duration_of_an_unreadable_file_is_zero sound audio_path w :
  let answer := AudioGenerator.AudioFileClip_duration sound audio_path in
  let read := World (clock w + seconds_of_ms (took answer)) (trace w) in
  AudioGenerator.get_audio_duration sound audio_path w =
    match result answer with
    | Ret duration =>
        (Ret duration,
         World (clock read)
           (Close (AudioReader audio_path) :: Open (AudioReader audio_path)
            :: trace read))
    | Raise e =>
        (Ret 0%Q,
         World (clock read)
           (Log ERROR ("오디오 길이 측정 실패: " +:+ exn_str e) :: trace read))
    end.
Proof. cbv zeta. run_sound. destruct (result _); reflexivity. Qed.
